(** * Workline LangChain example: a shallow embedding and its properties

    The development follows [src/examples/langchain_workline.py].  Python
    [str] values are Rocq strings whose characters are the code points
    U+0000..U+00FF; the character tables below are Python's tables on that
    range.  Stateful code is written in a state-and-exception monad over an
    explicit world (backend, standard input, module globals, model calls). *)

From Stdlib Require Import ZArith NArith Ascii String List Bool Lia DecimalString.
From stdpp Require Import base strings gmap list.

Local Open Scope N_scope.

(** ** Python [str] primitives *)

Module Py.

Definition code (c : ascii) : N := N_of_ascii c.

Definition in_range (lo hi : N) (c : ascii) : bool :=
  (lo <=? code c) && (code c <=? hi).

(** [str.isspace] on one character. *)
Definition isspace (c : ascii) : bool :=
  in_range 9 13 c || in_range 28 32 c || (code c =? 133) || (code c =? 160).

(** [str.isdigit] on one character: the decimal digits and the superscript
    digits U+00B2, U+00B3, U+00B9. *)
Definition isdigit_char (c : ascii) : bool :=
  in_range 48 57 c || (code c =? 178) || (code c =? 179) || (code c =? 185).

(** [str.isalnum] on one character. *)
Definition isalnum (c : ascii) : bool :=
  in_range 48 57 c || in_range 65 90 c || in_range 97 122 c
  || (code c =? 170) || (code c =? 178) || (code c =? 179) || (code c =? 181)
  || (code c =? 185) || (code c =? 186) || in_range 188 190 c
  || in_range 192 214 c || in_range 216 246 c || in_range 248 255 c.

(** [str.lower] on one character. *)
Definition lower_char (c : ascii) : ascii :=
  if in_range 65 90 c || in_range 192 214 c || in_range 216 222 c
  then ascii_of_N (code c + 32) else c.

Fixpoint lower (s : string) : string :=
  match s with
  | EmptyString => EmptyString
  | String c s' => String (lower_char c) (lower s')
  end.

(** [s.lstrip(chars)], [s.rstrip(chars)], [s.strip(chars)] for a character
    predicate; [str.strip()] is [strip isspace]. *)
Fixpoint lstrip (p : ascii -> bool) (s : string) : string :=
  match s with
  | EmptyString => EmptyString
  | String c s' => if p c then lstrip p s' else s
  end.

Fixpoint rstrip (p : ascii -> bool) (s : string) : string :=
  match s with
  | EmptyString => EmptyString
  | String c s' =>
      match rstrip p s' with
      | EmptyString => if p c then EmptyString else String c EmptyString
      | r => String c r
      end
  end.

Definition strip_chars (p : ascii -> bool) (s : string) : string :=
  rstrip p (lstrip p s).

Definition strip (s : string) : string := strip_chars isspace s.

(** [s.startswith(prefix)]. *)
Definition startswith (s pre : string) : bool := String.prefix pre s.

(** Truth value of a string: non-empty. *)
Definition nonempty (s : string) : bool :=
  match s with EmptyString => false | _ => true end.

(** [s.isdigit()]: non-empty and every character a digit. *)
Fixpoint all_chars (p : ascii -> bool) (s : string) : bool :=
  match s with
  | EmptyString => true
  | String c s' => p c && all_chars p s'
  end.

Definition isdigit (s : string) : bool := nonempty s && all_chars isdigit_char s.

(** ["sep".join(parts)]. *)
Fixpoint join (sep : string) (parts : list string) : string :=
  match parts with
  | [] => ""
  | [x] => x
  | x :: rest => x +:+ sep +:+ join sep rest
  end.

End Py.

(** ** Identity selection *)

(** The three module-level clients; [client] is bound to [planner_client]. *)
Inductive WorklineClient := planner_client | executor_client | reviewer_client.

Definition client : WorklineClient := planner_client.

Definition _client_for_attestation (kind : string) : WorklineClient :=
  let normalized := Py.lower (Py.strip kind) in
  if Py.startswith normalized "review."
     || Py.startswith normalized "acceptance."
     || Py.startswith normalized "security."
     || String.eqb normalized "iteration.approved"
  then reviewer_client
  else if Py.startswith normalized "ci." then executor_client
  else if Py.startswith normalized "workshop." then planner_client
  else client.

(** ** Slugs *)

(** One iteration of the loop of [_slugify]: the state is the list [safe]
    and the flag [last_dash]. *)
Definition slug_step (st : list string * bool) (ch : ascii) : list string * bool :=
  let '(safe, last_dash) := st in
  if Py.isalnum ch then (safe ++ [String ch ""], false)
  else if negb last_dash then (safe ++ ["-"], true)
  else (safe, last_dash).

Definition is_hyphen (c : ascii) : bool := Ascii.eqb c "-".

Definition _slugify (value : string) : string :=
  let '(safe, _) :=
    fold_left slug_step (list_ascii_of_string (Py.lower value)) ([], false) in
  let slug := Py.strip_chars is_hyphen (Py.join "" safe) in
  if Py.nonempty slug then slug else "feature".

(** The wording of the specification, for comparison with the loop: the
    maximal runs of characters of one kind (alphanumeric or not) ... *)
Fixpoint runs (s : list ascii) : list (list ascii) :=
  match s with
  | [] => []
  | c :: s' =>
      match runs s' with
      | (d :: r) :: rs =>
          if Bool.eqb (Py.isalnum c) (Py.isalnum d)
          then (c :: d :: r) :: rs
          else [c] :: (d :: r) :: rs
      | _ => [[c]]
      end
  end.

(** ... each run of non-alphanumeric characters replaced by one hyphen. *)
Definition replace_run (run : list ascii) : list ascii :=
  match run with
  | c :: _ => if Py.isalnum c then run else ["-"%char]
  | [] => []
  end.

Definition hyphenate (l : list ascii) : list ascii :=
  concat (map replace_run (runs l)).

Definition spec_hyphenate (s : string) : string :=
  string_of_list_ascii (hyphenate (list_ascii_of_string s)).

Definition spec_slug (value : string) : string :=
  let slug := Py.strip_chars is_hyphen (spec_hyphenate (Py.lower value)) in
  if Py.nonempty slug then slug else "feature".

(** ** Regular expressions: the fragment of Python's [re] that the script uses

    Patterns are kept as the text written in the source and parsed by
    [Re.parse]; matching is a backtracking search with greedy repetition,
    as in [re.search]. *)

Module Re.

Inductive set_item :=
| SChar (c : ascii)
| SRange (lo hi : ascii)
| SSpace                      (* \s inside a class *)
| SWord.                      (* \w inside a class *)

Inductive atom :=
| Lit (c : ascii)
| Dot
| Space                       (* \s *)
| Word                        (* \w *)
| Class (items : list set_item).

Inductive regex :=
| Empty
| Atom (a : atom)
| Star (a : atom)
| Plus (a : atom)
| Cat (r1 r2 : regex)
| Alt (r1 r2 : regex)
| Group (r : regex).

Record flags := { IGNORECASE : bool; DOTALL : bool }.

(** *** Parsing the pattern text *)

(** An escape [\x]: [\s] and [\w] are categories, any other escaped
    character of the patterns used here stands for itself. *)
Definition escape_atom (c : ascii) : option atom :=
  if Ascii.eqb c "s" then Some Space
  else if Ascii.eqb c "w" then Some Word
  else if Py.isalnum c then None
  else Some (Lit c).

Definition escape_item (c : ascii) : option set_item :=
  if Ascii.eqb c "s" then Some SSpace
  else if Ascii.eqb c "w" then Some SWord
  else if Py.isalnum c then None
  else Some (SChar c).

(** The items of a character class, after the opening bracket, up to the
    closing one.  A hyphen that ends the class stands for itself. *)
Fixpoint parse_class (s : string) : option (list set_item * string) :=
  match s with
  | EmptyString => None
  | String "]" rest => Some ([], rest)
  | String "\" (String e rest) =>
      match escape_item e, parse_class rest with
      | Some i, Some (items, rest') => Some (i :: items, rest')
      | _, _ => None
      end
  | String "\" EmptyString => None
  | String c (String "-" (String "]" rest)) =>
      Some ([SChar c; SChar "-"], rest)
  | String c (String "-" (String hi rest)) =>
      if Ascii.eqb hi "\" then None
      else match parse_class rest with
           | Some (items, rest') => Some (SRange c hi :: items, rest')
           | None => None
           end
  | String c rest =>
      match parse_class rest with
      | Some (items, rest') => Some (SChar c :: items, rest')
      | None => None
      end
  end.

(** A repetition mark after a one-character atom. *)
Definition quantified (a : atom) (s : string) : regex * string :=
  match s with
  | String "*" rest => (Star a, rest)
  | String "+" rest => (Plus a, rest)
  | _ => (Atom a, s)
  end.

(** A sequence of items, up to a bar, a closing parenthesis or the end;
    [palt] parses the inside of a group. *)
Fixpoint parse_seq (palt : string -> option (regex * string))
    (fuel : nat) (s : string) : option (regex * string) :=
  match fuel with
  | O => None
  | S fuel' =>
      match s with
      | EmptyString => Some (Empty, s)
      | String "|" _ => Some (Empty, s)
      | String ")" _ => Some (Empty, s)
      | String "(" rest =>
          match palt rest with
          | Some (r, String ")" rest') =>
              match parse_seq palt fuel' rest' with
              | Some (r', rest'') => Some (Cat (Group r) r', rest'')
              | None => None
              end
          | _ => None
          end
      | String "[" (String "^" _) => None
      | String "[" rest =>
          match parse_class rest with
          | Some (items, rest') =>
              let '(r, rest'') := quantified (Class items) rest' in
              match parse_seq palt fuel' rest'' with
              | Some (r', rest3) => Some (Cat r r', rest3)
              | None => None
              end
          | None => None
          end
      | String "\" (String e rest) =>
          match escape_atom e with
          | Some a =>
              let '(r, rest') := quantified a rest in
              match parse_seq palt fuel' rest' with
              | Some (r', rest'') => Some (Cat r r', rest'')
              | None => None
              end
          | None => None
          end
      | String "\" EmptyString => None
      | String c rest =>
          if Ascii.eqb c "*" || Ascii.eqb c "+" || Ascii.eqb c "?"
             || Ascii.eqb c "{" || Ascii.eqb c "^" || Ascii.eqb c "$"
          then None
          else
            let a := if Ascii.eqb c "." then Dot else Lit c in
            let '(r, rest') := quantified a rest in
            match parse_seq palt fuel' rest' with
            | Some (r', rest'') => Some (Cat r r', rest'')
            | None => None
            end
      end
  end.

Fixpoint parse_alt (fuel : nat) (s : string) : option (regex * string) :=
  match fuel with
  | O => None
  | S fuel' =>
      match parse_seq (parse_alt fuel') (S (String.length s)) s with
      | Some (r1, String "|" rest) =>
          match parse_alt fuel' rest with
          | Some (r2, rest') => Some (Alt r1 r2, rest')
          | None => None
          end
      | other => other
      end
  end.

Definition parse (pattern : string) : option regex :=
  match parse_alt (S (String.length pattern)) pattern with
  | Some (r, EmptyString) => Some r
  | _ => None
  end.

(** *** Matching *)

Definition char_eq (fl : flags) (x c : ascii) : bool :=
  if IGNORECASE fl then Ascii.eqb (Py.lower_char c) (Py.lower_char x)
  else Ascii.eqb c x.

Definition is_word (c : ascii) : bool := Py.isalnum c || Ascii.eqb c "_".

Definition item_match (fl : flags) (i : set_item) (c : ascii) : bool :=
  match i with
  | SChar x => char_eq fl x c
  | SRange lo hi =>
      Py.in_range (Py.code lo) (Py.code hi) c
      || (IGNORECASE fl && Py.in_range (Py.code lo) (Py.code hi) (Py.lower_char c))
  | SSpace => Py.isspace c
  | SWord => is_word c
  end.

Definition atom_match (fl : flags) (a : atom) (c : ascii) : bool :=
  match a with
  | Lit x => char_eq fl x c
  | Dot => DOTALL fl || negb (Ascii.eqb c "010")
  | Space => Py.isspace c
  | Word => is_word c
  | Class items => existsb (fun i => item_match fl i c) items
  end.

Section Matcher.
Context {R : Type}.

(** Greedy repetition: take as many characters as possible, then give
    them back one at a time until the rest of the pattern matches. *)
Fixpoint star_match (p : ascii -> bool) (s : string)
    (k : string -> option R) : option R :=
  match s with
  | String c s' =>
      if p c then
        match star_match p s' k with
        | Some x => Some x
        | None => k s
        end
      else k s
  | EmptyString => k s
  end.

(** [rmatch fl r s g k]: match [r] at the start of [s]; [g] is what
    group 1 holds so far; [k] continues with the rest of the text. *)
Fixpoint rmatch (fl : flags) (r : regex) (s : string) (g : option string)
    (k : string -> option string -> option R) : option R :=
  match r with
  | Empty => k s g
  | Atom a =>
      match s with
      | String c s' => if atom_match fl a c then k s' g else None
      | EmptyString => None
      end
  | Star a => star_match (atom_match fl a) s (fun rest => k rest g)
  | Plus a =>
      match s with
      | String c s' =>
          if atom_match fl a c
          then star_match (atom_match fl a) s' (fun rest => k rest g)
          else None
      | EmptyString => None
      end
  | Cat r1 r2 => rmatch fl r1 s g (fun rest g' => rmatch fl r2 rest g' k)
  | Alt r1 r2 =>
      match rmatch fl r1 s g k with
      | Some x => Some x
      | None => rmatch fl r2 s g k
      end
  | Group r1 =>
      rmatch fl r1 s g
        (fun rest _ =>
           k rest (Some (String.substring 0 (String.length s - String.length rest) s)))
  end.
End Matcher.

(** A match object: the text of group 1 (when the group took part). *)
Record Match := { group1 : option string }.

(** [re.search]: the first position, from the left, where the pattern
    matches. *)
Fixpoint search_from (fl : flags) (r : regex) (s : string) : option Match :=
  match rmatch fl r s None (fun _ g => Some {| group1 := g |}) with
  | Some m => Some m
  | None =>
      match s with
      | String _ s' => search_from fl r s'
      | EmptyString => None
      end
  end.

Definition search (pattern : string) (text : string) (fl : flags) : option Match :=
  match parse pattern with
  | Some r => search_from fl r text
  | None => None
  end.

End Re.

(** ** The iteration identifier of a plan *)

(** The pattern as it reaches [re.search]: the source writes it in a raw
    string, so each backslash below is one character of the pattern. *)
Definition iteration_id_pattern : string :=
  "iteration id\\s*[:\\-]\\s*([\\w-]+)".

Definition extract_with (pattern plan : string) : option string :=
  match Re.search pattern plan
          {| Re.IGNORECASE := true; Re.DOTALL := false |} with
  | None => None
  | Some m =>
      match Re.group1 m with
      | Some g => Some (Py.strip g)
      | None => None
      end
  end.

Definition _extract_iteration_id (plan : string) : option string :=
  extract_with iteration_id_pattern plan.

(** The pattern with one backslash before each of [s], [-] and [w]: the
    whitespace and word classes that the specification describes. *)
Definition intended_iteration_id_pattern : string :=
  "iteration id\s*[:\-]\s*([\w-]+)".

(** ** Python values and exceptions *)

(** The values that cross the JSON boundary ([None] is [JNull], a [dict]
    is [JObj] with its items, keys distinct). *)
#[warnings="-register-all"]
Inductive json :=
| JNull
| JBool (b : bool)
| JInt (n : Z)
| JStr (s : string)
| JArr (items : list json)
| JObj (items : list (string * json)).

Inductive exn :=
| APIError (status_code : Z) (body : json)
| RuntimeError (msg : string)
| ValueError
| TypeError
| AttributeError
| KeyError
| EOFError
| OtherError (msg : string).

Inductive result (A : Type) :=
| Ok (a : A)
| Raise (e : exn).
Arguments Ok {A} a.
Arguments Raise {A} e.

(** Truth value of an object ([if not task], [x or y]). *)
Definition truthy (v : json) : bool :=
  match v with
  | JNull => false
  | JBool b => b
  | JInt n => negb (Z.eqb n 0)
  | JStr s => Py.nonempty s
  | JArr l => match l with [] => false | _ => true end
  | JObj l => match l with [] => false | _ => true end
  end.

Fixpoint assoc (key : string) (items : list (string * json)) : option json :=
  match items with
  | [] => None
  | (k, v) :: rest => if String.eqb k key then Some v else assoc key rest
  end.

(** [obj.get(key, default)]: only a [dict] has the method. *)
Definition dict_get (obj : json) (key : string) (default : json) : result json :=
  match obj with
  | JObj items => Ok (match assoc key items with Some v => v | None => default end)
  | _ => Raise AttributeError
  end.

(** [obj[key]] for a string key. *)
Definition getitem (obj : json) (key : string) : result json :=
  match obj with
  | JObj items => match assoc key items with Some v => Ok v | None => Raise KeyError end
  | _ => Raise TypeError
  end.


(** What [json.loads] does with a text: it returns the value the text
    denotes, raises [JSONDecodeError], or raises an exception of another
    class ([ValueError] for an integer literal of more than 4300 digits,
    [RecursionError] for nesting deeper than the interpreter allows). *)
Inductive loaded :=
| Loaded (v : json)
| JSONDecodeError
| LoadsRaises (e : exn).

(** The [json] module of the Python library; [dumps] is
    [json.dumps(_, indent=2)]. *)
Class JsonLib := {
  json_loads : string -> loaded;
  json_dumps : json -> string
}.

(** ** Structured output extraction *)

Definition json_span_pattern : string := "(\{.*\}|\[.*\])".

(** [except json.JSONDecodeError] catches that class only: what else
    [json.loads] raises leaves the function. *)
Definition _extract_json_payload `{JsonLib} (text : string) : result json :=
  match json_loads text with
  | Loaded v => Ok v
  | LoadsRaises e => Raise e
  | JSONDecodeError =>
      match Re.search json_span_pattern text
              {| Re.IGNORECASE := false; Re.DOTALL := true |} with
      | None => Ok JNull
      | Some m =>
          match Re.group1 m with
          | None => Raise TypeError
          | Some span =>
              match json_loads span with
              | Loaded v => Ok v
              | JSONDecodeError => Ok JNull
              | LoadsRaises e => Raise e
              end
          end
      end
  end.

(** ** The world the script runs in *)

(** What a client is asked to do: [client._request(method, path, body)]
    with the path below the project ([tasks/<id>], [tasks], ...), and the
    two outcome calls of the SDK. *)
Inductive request :=
| Request (method path : string) (body : option json)
| PutWorkOutcomes (task_id key : string) (value : json)
| AppendWorkOutcomes (task_id key : string) (value : json).

(** The backend behind the clients: each call returns the decoded response
    or raises (an [APIError] carrying the status code for a response the
    SDK rejects), and moves the backend to its next state. *)
Class Backend (B : Type) :=
  backend_call : WorklineClient -> request -> B -> result json * B.

(** One run of the agent loop with the tool [ask_human_question]: the
    agent ends with a text (or an error), or asks the human and goes on
    from what the tool gave back. *)
Inductive AgentRun :=
| Final (r : result string)
| AskHuman (question : string) (options : option (list string))
    (k : result string -> AgentRun).

(** The language model.  The first argument counts the calls made so far:
    the same prompt need not get the same answer twice. *)
Record ChatOpenAI := {
  invoke : nat -> string -> string -> result string;
  run_tools : nat -> string -> string -> AgentRun
}.

Inductive tool := ask_human_question.

(** The state that the script reads and writes: the backend, the two
    module globals, the console, the clock, and two histories kept for the
    statements (the requests sent, and the system prompt and input of each
    run of the model by [_run_agent]). *)
Record World (B : Type) := mkWorld {
  backend : B;
  requests : list (WorklineClient * request);
  CURRENT_WORKSHOP_ID : option string;
  HUMAN_REVIEW_MODE : string;
  stdin_isatty : bool;
  stdin : list string;                 (* the lines not yet read *)
  stdout : list string;                (* the texts printed, oldest first *)
  model_calls : list (string * string);
  utcnow : nat -> string;              (* the time at the n-th reading *)
  clock : nat
}.
Arguments mkWorld {B}.
Arguments backend {B}.
Arguments requests {B}.
Arguments CURRENT_WORKSHOP_ID {B}.
Arguments HUMAN_REVIEW_MODE {B}.
Arguments stdin_isatty {B}.
Arguments stdin {B}.
Arguments stdout {B}.
Arguments model_calls {B}.
Arguments utcnow {B}.
Arguments clock {B}.

(** *** The monad: state and exceptions *)

Definition M (B A : Type) : Type := World B -> result A * World B.

Definition ret {B A} (a : A) : M B A := fun w => (Ok a, w).

Definition raise {B A} (e : exn) : M B A := fun w => (Raise e, w).

Definition bind {B A C} (m : M B A) (k : A -> M B C) : M B C :=
  fun w =>
    match m w with
    | (Ok a, w') => k a w'
    | (Raise e, w') => (Raise e, w')
    end.

(** [try: m  except: h] *)
Definition try_except {B A} (m : M B A) (h : exn -> M B A) : M B A :=
  fun w =>
    match m w with
    | (Ok a, w') => (Ok a, w')
    | (Raise e, w') => h e w'
    end.

Definition lift {B A} (r : result A) : M B A := fun w => (r, w).

Declare Scope py_scope.
Delimit Scope py_scope with py.
Notation "'let!' x ':=' m 'in' k" := (bind m (fun x => k))
  (at level 10, x pattern, m at level 100, k at level 200) : py_scope.
Notation "m ';;;' k" := (bind m (fun _ => k))
  (at level 100, k at level 200, right associativity) : py_scope.
Local Open Scope py_scope.

Section Script.
Context {B : Type} `{!Backend B} `{!JsonLib}.

Abbreviation M := (M B).

(** *** Primitive effects *)

Definition call (who : WorklineClient) (rq : request) : M json :=
  fun w =>
    let '(r, b) := backend_call who rq (backend w) in
    (r, mkWorld b (requests w ++ [(who, rq)]) (CURRENT_WORKSHOP_ID w)
          (HUMAN_REVIEW_MODE w) (stdin_isatty w) (stdin w) (stdout w)
          (model_calls w) (utcnow w) (clock w)).

(** [print(text, end=...)] *)
Definition print (text : string) : M unit :=
  fun w =>
    (Ok tt, mkWorld (backend w) (requests w) (CURRENT_WORKSHOP_ID w)
          (HUMAN_REVIEW_MODE w) (stdin_isatty w) (stdin w) (stdout w ++ [text])
          (model_calls w) (utcnow w) (clock w)).

(** [sys.stdin.readline()]: the next line with its newline, the empty
    string at the end of the input. *)
Definition readline : M string :=
  fun w =>
    match stdin w with
    | [] => (Ok "", w)
    | line :: rest =>
        (Ok line, mkWorld (backend w) (requests w) (CURRENT_WORKSHOP_ID w)
          (HUMAN_REVIEW_MODE w) (stdin_isatty w) rest (stdout w)
          (model_calls w) (utcnow w) (clock w))
    end.

(** The line without its final newline. *)
Fixpoint chomp (line : string) : string :=
  match line with
  | EmptyString => EmptyString
  | String "010" EmptyString => EmptyString
  | String c rest => String c (chomp rest)
  end.

(** [input(prompt)] *)
Definition input (prompt : string) : M string :=
  print prompt ;;;
  fun w =>
    match stdin w with
    | [] => (Raise EOFError, w)
    | line :: rest =>
        (Ok (chomp line), mkWorld (backend w) (requests w) (CURRENT_WORKSHOP_ID w)
          (HUMAN_REVIEW_MODE w) (stdin_isatty w) rest (stdout w)
          (model_calls w) (utcnow w) (clock w))
    end.

(** [datetime.now(timezone.utc).isoformat()] *)
Definition now_isoformat : M string :=
  fun w =>
    (Ok (utcnow w (clock w)),
     mkWorld (backend w) (requests w) (CURRENT_WORKSHOP_ID w)
          (HUMAN_REVIEW_MODE w) (stdin_isatty w) (stdin w) (stdout w)
          (model_calls w) (utcnow w) (S (clock w))).

Definition get_world : M (World B) := fun w => (Ok w, w).

Definition set_current_workshop (task_id : option string) : M unit :=
  fun w =>
    (Ok tt, mkWorld (backend w) (requests w) task_id
          (HUMAN_REVIEW_MODE w) (stdin_isatty w) (stdin w) (stdout w)
          (model_calls w) (utcnow w) (clock w)).

(** The model is called with a system prompt and a user input. *)
Definition log_model_call (system_prompt user_input : string) : M nat :=
  fun w =>
    (Ok (length (model_calls w)),
     mkWorld (backend w) (requests w) (CURRENT_WORKSHOP_ID w)
          (HUMAN_REVIEW_MODE w) (stdin_isatty w) (stdin w) (stdout w)
          (model_calls w ++ [(system_prompt, user_input)]) (utcnow w) (clock w)).

(** *** External state accessor *)

Definition _get_task (task_id : string) : M json :=
  try_except
    (call client (Request "GET" ("tasks/" +:+ task_id) None))
    (fun err =>
       match err with
       | APIError status_code _ =>
           if Z.eqb status_code 404 then ret JNull else raise err
       | _ => raise err
       end).

Definition _create_problem_refinement_task (task_id : string) : M json :=
  let body := JObj [
    ("id", JStr task_id);
    ("title", JStr "Problem refinement");
    ("type", JStr "workshop");
    ("description", JStr "Capture the refined problem statement and assumptions.");
    ("policy", JObj [("preset", JStr "workshop.problem_refinement")])
  ] in
  call client (Request "POST" "tasks" (Some body)).

Definition _ensure_problem_refinement_task_exists : M json :=
  let task_id := "problem-refinement" in
  let! task := _get_task task_id in
  match task with
  | JNull => _create_problem_refinement_task task_id
  | _ => ret task
  end.

Definition ensure_problem_refinement_task : M json :=
  let! task := _ensure_problem_refinement_task_exists in
  lift (getitem task "id").

Definition ensure_workshop_task (task_id title preset description : string) : M json :=
  let! task := _get_task task_id in
  match task with
  | JNull =>
      let body := JObj [
        ("id", JStr task_id);
        ("title", JStr title);
        ("type", JStr "workshop");
        ("description", JStr description);
        ("policy", JObj [("preset", JStr preset)])
      ] in
      call client (Request "POST" "tasks" (Some body))
  | _ => ret task
  end.

Definition append_workshop_conversation (task_id question answer : string) : M unit :=
  let! ts := now_isoformat in
  let entry := JObj [("ts", JStr ts); ("question", JStr question); ("answer", JStr answer)] in
  call client (AppendWorkOutcomes task_id "conversation" entry) ;;;
  ret tt.

(** [x or default] *)
Definition or_else (x default : json) : json := if truthy x then x else default.

Definition get_workshop_output (task_id : string) : M (option string) :=
  let! task := _get_task task_id in
  if negb (truthy task) then ret None
  else
    let! work_outcomes := lift (dict_get task "work_outcomes" JNull) in
    let outcomes := or_else work_outcomes (JObj []) in
    let! output := lift (dict_get outcomes "output" JNull) in
    match output with
    | JStr s => if Py.nonempty (Py.strip s) then ret (Some s) else ret None
    | _ => ret None
    end.

Definition set_workshop_output (task_id output : string) : M unit :=
  call client (PutWorkOutcomes task_id "output" (JStr output)) ;;;
  call client (PutWorkOutcomes task_id "summary" (JStr output)) ;;;
  append_workshop_conversation task_id "Workshop summary" output.

Definition log_conversation (question answer : string) : M unit :=
  let! w := get_world in
  (match CURRENT_WORKSHOP_ID w with
   | None => ensure_problem_refinement_task ;;; ret tt
   | Some _ => ret tt
   end) ;;;
  let! w := get_world in
  let task_id :=
    match CURRENT_WORKSHOP_ID w with
    | Some id => if Py.nonempty id then id else "problem-refinement"
    | None => "problem-refinement"
    end in
  append_workshop_conversation task_id question answer.

(** *** Human interaction gate *)

Definition nl : string := String "010" "".

(** [str(n)] for a natural number. *)
Definition str_of_nat (n : nat) : string := NilZero.string_of_uint (Nat.to_uint n).

Definition digit_value (c : ascii) : option Z :=
  if Py.in_range 48 57 c then Some (Z.of_N (Py.code c) - 48)%Z else None.

Fixpoint int_digits (acc : Z) (s : string) : option Z :=
  match s with
  | EmptyString => Some acc
  | String c s' =>
      match digit_value c with
      | Some d => int_digits (10 * acc + d)%Z s'
      | None => None
      end
  end.

(** [int(s)] for a string that passed [isdigit]: [None] is [ValueError]
    (a superscript digit, or more than the 4300 digits that the
    interpreter converts by default). *)
Definition py_int (s : string) : option Z :=
  if (4300 <? String.length s)%nat then None
  else if Py.nonempty s then int_digits 0 s else None.

(** [for idx, opt in enumerate(options, start=1): print(f"{idx}. {opt}")] *)
Fixpoint print_options (idx : nat) (options : list string) : M unit :=
  match options with
  | [] => ret tt
  | opt :: rest =>
      print (str_of_nat idx +:+ ". " +:+ opt +:+ nl) ;;;
      print_options (S idx) rest
  end.

Definition set_stdin (lines : list string) : M unit :=
  fun w =>
    (Ok tt, mkWorld (backend w) (requests w) (CURRENT_WORKSHOP_ID w)
          (HUMAN_REVIEW_MODE w) (stdin_isatty w) lines (stdout w)
          (model_calls w) (utcnow w) (clock w)).

(** [if options] *)
Definition has_options (options : option (list string)) : bool :=
  match options with
  | Some (_ :: _) => true
  | _ => false
  end.

Definition options_list (options : option (list string)) : list string :=
  match options with Some l => l | None => [] end.

(** The [while True] loop of [ask_human_question_local]; [lines] is the
    input still unread when the iteration starts, and each iteration
    reads its first line. *)
Fixpoint ask_loop (question : string) (options : option (list string))
    (lines : list string) : M string :=
  print "Your answer: " ;;;
  match lines with
  | [] => raise (RuntimeError "stdin closed while waiting for input")
  | line :: rest =>
      set_stdin rest ;;;
      if String.eqb line "" then
        raise (RuntimeError "stdin closed while waiting for input")
      else
        let answer := Py.strip line in
        if Py.nonempty answer then
          let plain := log_conversation question answer ;;; ret answer in
          if has_options options && Py.isdigit answer then
            match py_int answer with
            | None => raise ValueError
            | Some choice =>
                if (1 <=? choice)%Z
                   && (choice <=? Z.of_nat (length (options_list options)))%Z
                then
                  let selected :=
                    nth (Z.to_nat (choice - 1)) (options_list options) "" in
                  let choose := log_conversation question selected ;;; ret selected in
                  if Py.startswith (Py.lower selected) "other" then
                    let! detail := input "Please specify: " in
                    let detail := Py.strip detail in
                    if Py.nonempty detail then
                      log_conversation question detail ;;; ret detail
                    else choose
                  else choose
                else plain
            end
          else plain
        else
          print ("Please enter a non-empty answer." +:+ nl) ;;;
          ask_loop question options rest
  end.

Definition ask_human_question_local (question : string)
    (options : option (list string)) : M string :=
  let! w := get_world in
  if String.eqb (HUMAN_REVIEW_MODE w) "interactive" then
    if negb (stdin_isatty w) then
      raise (RuntimeError "stdin is not interactive; run without make or attach a TTY.")
    else
      print (nl +:+ "=== Question ===" +:+ nl +:+ nl) ;;;
      print (question +:+ nl) ;;;
      (if has_options options then print_options 1 (options_list options) else ret tt) ;;;
      let! w := get_world in
      ask_loop question options (stdin w)
  else
    raise (RuntimeError "HUMAN_REVIEW_MODE must be interactive; simulation is disabled.").

(** *** Phase runner *)

(** The agent loop, with [ask_human_question] run for each tool call; an
    exception of the tool is handed to the agent framework, which goes on
    or ends with it. *)
Fixpoint run_agent_loop (a : AgentRun) : M string :=
  match a with
  | Final r => lift r
  | AskHuman question options k =>
      fun w =>
        let '(r, w') := ask_human_question_local question options w in
        run_agent_loop (k r) w'
  end.

Definition _run_agent (model : ChatOpenAI) (system_prompt user_input : string)
    (tools : list tool) : M string :=
  let! n := log_model_call system_prompt user_input in
  match tools with
  | [] => lift (invoke model n system_prompt user_input)
  | _ => run_agent_loop (run_tools model n system_prompt user_input)
  end.

Definition discovery_system_prompt : string :=
  "You are a product planner starting a discovery phase. First, refine "
  +:+ "the provided problem statement into clear goals and scope. Only ask "
  +:+ "clarifying questions if critical details are missing. Use "
  +:+ "ask_human_question when needed, and always include 3-5 options plus "
  +:+ "'Other'. Ask at most one question at a time. "
  +:+ "'Other' in each question. Then provide assumptions and success metrics. "
  +:+ "Output sections: Refined Problem, Assumptions, Success Metrics, Actors.".

Definition run_discovery (model : ChatOpenAI) (problem_statement : string) : M string :=
  let system_prompt := discovery_system_prompt in
  let tools := [ask_human_question] in
  _run_agent model system_prompt problem_statement tools.

Definition phase_system_prompt (phase_name : string) : string :=
  "You are facilitating a discovery workshop phase: " +:+ phase_name +:+ ". "
  +:+ "Ask clarifying questions when needed using ask_human_question, and "
  +:+ "include 3-5 options plus 'Other' in each question. "
  +:+ "Ask at most one question at a time. "
  +:+ "Return a concise summary with decisions, risks, and open questions.".

Definition run_discovery_phase (model : ChatOpenAI) (phase_name context : string) : M string :=
  let system_prompt := phase_system_prompt phase_name in
  let tools := [ask_human_question] in
  _run_agent model system_prompt context tools.

Definition next_steps_system_prompt (phase_name : string) : string :=
  "You just completed the " +:+ phase_name +:+ " workshop. "
  +:+ "Plan the next steps needed to reach the iteration goal. "
  +:+ "Return a concise, ordered list with owners if possible.".

Definition run_workshop_next_steps (model : ChatOpenAI) (phase_name context : string) : M string :=
  let system_prompt := next_steps_system_prompt phase_name in
  _run_agent model system_prompt context [].

(** *** Discovery orchestration *)

(** [{k: v for k, v in outputs.items() if v}], one entry at a time. *)
Definition add_truthy (key : string) (out : option string)
    (d : gmap string string) : gmap string string :=
  match out with
  | Some v => if Py.nonempty v then <[key := v]> d else d
  | None => d
  end.

(** [bool(out)] *)
Definition is_truthy (out : option string) : bool :=
  match out with
  | Some v => Py.nonempty v
  | None => false
  end.

Definition get_problem_refinement_discovery : M (option (gmap string string)) :=
  let! initial := get_workshop_output "problem-refinement" in
  let! event_storming := get_workshop_output "workshop-eventstorming" in
  let! decision_workshop := get_workshop_output "workshop-decision" in
  let! clarify := get_workshop_output "workshop-clarify" in
  if negb (is_truthy initial || is_truthy event_storming
           || is_truthy decision_workshop || is_truthy clarify)
  then ret None
  else
    ret (Some (add_truthy "initial" initial
                 (add_truthy "event_storming" event_storming
                    (add_truthy "decision_workshop" decision_workshop
                       (add_truthy "clarify" clarify ∅))))).

(** [str(discovery.get("initial", "")).strip()] is empty, or the key is
    missing. *)
Definition initial_missing (discovery : gmap string string) : bool :=
  match discovery !! "initial" with
  | None => true
  | Some v => negb (Py.nonempty (Py.strip v))
  end.

(** [not out] for what [get_workshop_output] returned. *)
Definition is_falsy (out : option string) : bool :=
  match out with
  | None => true
  | Some s => negb (Py.nonempty s)
  end.

Definition text_of (out : option string) : string :=
  match out with Some s => s | None => "" end.

Definition continue_discovery (model : ChatOpenAI) (problem_statement : string)
    (existing : option (gmap string string)) : M (gmap string string) :=
  let discovery : gmap string string :=
    match existing with Some d => d | None => ∅ end in
  ensure_workshop_task "problem-refinement" "Problem refinement"
    "workshop.problem_refinement"
    "Refine the problem statement and clarify scope." ;;;
  ensure_workshop_task "workshop-eventstorming" "Event storming"
    "workshop.eventstorming" "Map domain events and flows." ;;;
  ensure_workshop_task "workshop-decision" "Decision workshop"
    "workshop.decision" "Capture key trade-offs and decisions." ;;;
  ensure_workshop_task "workshop-clarify" "Clarification workshop"
    "workshop.clarify" "Resolve open questions and assumptions." ;;;
  let! discovery :=
    (if initial_missing discovery then
       let! initial_output := get_workshop_output "problem-refinement" in
       let! initial_output :=
         (if is_falsy initial_output then
            set_current_workshop (Some "problem-refinement") ;;;
            let! initial_output := run_discovery model problem_statement in
            set_current_workshop None ;;;
            set_workshop_output "problem-refinement" initial_output ;;;
            ret initial_output
          else ret (text_of initial_output)) in
       ret (<["initial" := initial_output]> discovery)
     else ret discovery) in
  let context :=
    Py.join (nl +:+ nl)
      [ "Problem Statement:" +:+ nl +:+ problem_statement;
        "Initial Refinement:" +:+ nl +:+ default "" (discovery !! "initial") ] in
  let! discovery :=
    (match discovery !! "event_storming" with
     | None =>
         let! event_out := get_workshop_output "workshop-eventstorming" in
         let! event_out :=
           (if is_falsy event_out then
              set_current_workshop (Some "workshop-eventstorming") ;;;
              let! event_out := run_discovery_phase model "Event Storming" context in
              set_current_workshop None ;;;
              set_workshop_output "workshop-eventstorming" event_out ;;;
              let! next_steps := run_workshop_next_steps model "Event Storming" context in
              call client (PutWorkOutcomes "workshop-eventstorming" "next_steps" (JStr next_steps)) ;;;
              ret event_out
            else ret (text_of event_out)) in
         ret (<["event_storming" := event_out]> discovery)
     | Some _ => ret discovery
     end) in
  let! discovery :=
    (match discovery !! "decision_workshop" with
     | None =>
         let! decision_out := get_workshop_output "workshop-decision" in
         let! decision_out :=
           (if is_falsy decision_out then
              set_current_workshop (Some "workshop-decision") ;;;
              let! decision_out := run_discovery_phase model "Decision Workshop" context in
              set_current_workshop None ;;;
              set_workshop_output "workshop-decision" decision_out ;;;
              let! next_steps := run_workshop_next_steps model "Decision Workshop" context in
              call client (PutWorkOutcomes "workshop-decision" "next_steps" (JStr next_steps)) ;;;
              ret decision_out
            else ret (text_of decision_out)) in
         ret (<["decision_workshop" := decision_out]> discovery)
     | Some _ => ret discovery
     end) in
  let! discovery :=
    (match discovery !! "clarify" with
     | None =>
         let! clarify_out := get_workshop_output "workshop-clarify" in
         let! clarify_out :=
           (if is_falsy clarify_out then
              set_current_workshop (Some "workshop-clarify") ;;;
              let! clarify_out := run_discovery_phase model "Clarification" context in
              set_current_workshop None ;;;
              set_workshop_output "workshop-clarify" clarify_out ;;;
              let! next_steps := run_workshop_next_steps model "Clarification" context in
              call client (PutWorkOutcomes "workshop-clarify" "next_steps" (JStr next_steps)) ;;;
              ret clarify_out
            else ret (text_of clarify_out)) in
         ret (<["clarify" := clarify_out]> discovery)
     | Some _ => ret discovery
     end) in
  ret discovery.

(** *** Specifications *)



End Script.

(** ** A reference backend, a JSON reader and a scripted model

    The theorems about the script hold for every backend, JSON library and
    model; the definitions of this part give one of each, for the closed
    examples and for the statements that need to know what the store holds. *)

Fixpoint assoc_set (key : string) (v : json) (items : list (string * json))
    : list (string * json) :=
  match items with
  | [] => [(key, v)]
  | (k, x) :: rest =>
      if String.eqb k key then (k, v) :: rest else (k, x) :: assoc_set key v rest
  end.

Fixpoint strip_prefix (pre s : string) : option string :=
  match pre, s with
  | EmptyString, _ => Some s
  | String a pre', String b s' => if Ascii.eqb a b then strip_prefix pre' s' else None
  | _, EmptyString => None
  end.

Module Store.

(** The outcomes map of a stored work-item. *)
Definition outcomes (task : list (string * json)) : list (string * json) :=
  match assoc "work_outcomes" task with
  | Some (JObj o) => o
  | _ => []
  end.

Definition put_outcome (key : string) (v : json) (task : list (string * json))
    : list (string * json) :=
  assoc_set "work_outcomes" (JObj (assoc_set key v (outcomes task))) task.

Definition append_outcome (key : string) (v : json) (task : list (string * json))
    : list (string * json) :=
  let old := match assoc key (outcomes task) with Some (JArr l) => l | _ => [] end in
  put_outcome key (JArr (old ++ [v])) task.

Definition not_found : exn := APIError 404 (JObj [("error", JStr "not found")]).

(** Modelled from the spec: the project-management backend is not in the
    sources; section 3 describes a work-item as a record with a stable
    string id, an outcomes map of named fields and an append-only
    conversation log, and sections 4.2 and 6 the operations: a lookup that
    answers 404 for an unknown id, creation with the given fields, writing
    one named outcome field, appending to one.  The store maps a work-item
    id to the fields of the item; creating an id that exists is refused
    and leaves the item as it is. *)
Definition handle (who : WorklineClient) (rq : request)
    (st : gmap string (list (string * json)))
    : result json * gmap string (list (string * json)) :=
  match rq with
  | Request method path body =>
      if String.eqb method "GET" then
        match strip_prefix "tasks/" path with
        | Some id =>
            match st !! id with
            | Some task => (Ok (JObj task), st)
            | None => (Raise not_found, st)
            end
        | None => (Raise not_found, st)
        end
      else if String.eqb method "POST" && String.eqb path "tasks" then
        match body with
        | Some (JObj fields) =>
            match assoc "id" fields with
            | Some (JStr id) =>
                match st !! id with
                | Some _ => (Raise (APIError 409 (JObj [("error", JStr "exists")])), st)
                | None => (Ok (JObj fields), <[id := fields]> st)
                end
            | _ => (Raise (APIError 400 (JObj [("error", JStr "id required")])), st)
            end
        | _ => (Raise (APIError 400 (JObj [("error", JStr "body required")])), st)
        end
      else (Raise (APIError 405 JNull), st)
  | PutWorkOutcomes task_id key value =>
      match st !! task_id with
      | Some task =>
          let task' := put_outcome key value task in
          (Ok (JObj task'), <[task_id := task']> st)
      | None => (Raise not_found, st)
      end
  | AppendWorkOutcomes task_id key value =>
      match st !! task_id with
      | Some task =>
          let task' := append_outcome key value task in
          (Ok (JObj task'), <[task_id := task']> st)
      | None => (Raise not_found, st)
      end
  end.

(** The text in the [output] outcome field of a stored work-item. *)
Definition output (st : gmap string (list (string * json))) (task_id : string)
    : option string :=
  match st !! task_id with
  | Some task =>
      match assoc "output" (outcomes task) with
      | Some (JStr s) => Some s
      | _ => None
      end
  | None => None
  end.

End Store.

#[global] Instance store_backend : Backend (gmap string (list (string * json))) :=
  Store.handle.

(** A reader and a printer for a fragment of JSON: no string escapes and
    no floats (a text with a fraction, an exponent, [NaN] or [Infinity] is
    rejected).  An integer literal of more than 4300 digits raises
    [ValueError] when it is read, as the conversion of the library does;
    nesting is not limited. *)
Module JsonLite.

Definition is_ws (c : ascii) : bool :=
  Ascii.eqb c " " || Ascii.eqb c "009" || Ascii.eqb c "010" || Ascii.eqb c "013".

Definition skip_ws (s : string) : string := Py.lstrip is_ws s.

Definition is_dec (c : ascii) : bool := Py.in_range 48 57 c.

(** What a reader makes of a text: a value and the text after it, no JSON,
    or an exception. *)
Inductive reading (A : Type) :=
| Got (a : A) (rest : string)
| NoJson
| Stops (e : exn).
Arguments Got {A} a rest.
Arguments NoJson {A}.
Arguments Stops {A} e.

Definition and_then {A C} (r : reading A) (k : A -> string -> reading C) : reading C :=
  match r with
  | Got a rest => k a rest
  | NoJson => NoJson
  | Stops e => Stops e
  end.

(** The characters of a string literal, after the opening quote. *)
Fixpoint read_string (s : string) : option (string * string) :=
  match s with
  | EmptyString => None
  | String c rest =>
      if Ascii.eqb c "034" then Some (EmptyString, rest)
      else if Ascii.eqb c "\" || (Py.code c <? 32) then None
      else match read_string rest with
           | Some (body, rest') => Some (String c body, rest')
           | None => None
           end
  end.

Fixpoint read_digits (s : string) : string * string :=
  match s with
  | String c rest =>
      if is_dec c then let '(d, r) := read_digits rest in (String c d, r)
      else (EmptyString, s)
  | EmptyString => (EmptyString, s)
  end.

Definition starts_digit (s : string) : bool :=
  match s with
  | String c _ => is_dec c
  | EmptyString => false
  end.

(** After the digits of a number: a fraction or an exponent. *)
Definition float_follows (rest : string) : bool :=
  match rest with
  | String c r =>
      if Ascii.eqb c "." then starts_digit r
      else if Ascii.eqb c "e" || Ascii.eqb c "E" then
        match r with
        | String sign r' =>
            if Ascii.eqb sign "+" || Ascii.eqb sign "-" then starts_digit r'
            else is_dec sign
        | EmptyString => false
        end
      else false
  | EmptyString => false
  end.

Definition digits_value (d : string) : Z :=
  Z.of_N (fold_left (fun acc c => acc * 10 + (Py.code c - 48))
            (list_ascii_of_string d) 0).

(** The longest integer literal that [int] converts. *)
Definition max_str_digits : Z := 4300.

(** An integer literal: no leading zero, no fraction, no exponent. *)
Definition read_number (s : string) : reading json :=
  let '(neg, s') :=
    match s with
    | String "-" r => (true, r)
    | _ => (false, s)
    end in
  let '(d, rest) := read_digits s' in
  match d with
  | EmptyString => NoJson
  | String "0" (String _ _) => NoJson
  | _ =>
      if float_follows rest then NoJson
      else if (max_str_digits <? Z.of_nat (String.length d))%Z then Stops ValueError
      else Got (JInt (if neg then - digits_value d else digits_value d)%Z) rest
  end.

Fixpoint assoc_remove (key : string) (items : list (string * json))
    : list (string * json) :=
  match items with
  | [] => []
  | (k, x) :: rest =>
      if String.eqb k key then assoc_remove key rest else (k, x) :: assoc_remove key rest
  end.

(** A member in front of the members read after it: of two members with
    one key the later value is kept, at the place of the first. *)
Definition add_member (key : string) (v : json) (items : list (string * json))
    : list (string * json) :=
  match assoc key items with
  | Some later => (key, later) :: assoc_remove key items
  | None => (key, v) :: items
  end.

Fixpoint read_value (fuel : nat) (s : string) : reading json :=
  match fuel with
  | O => NoJson
  | S fuel' =>
      match skip_ws s with
      | EmptyString => NoJson
      | String c rest as s0 =>
          if Ascii.eqb c "{" then
            match skip_ws rest with
            | String "}" rest' => Got (JObj []) rest'
            | _ =>
                and_then (read_members fuel' rest)
                  (fun items rest' => Got (JObj items) rest')
            end
          else if Ascii.eqb c "[" then
            match skip_ws rest with
            | String "]" rest' => Got (JArr []) rest'
            | _ =>
                and_then (read_elements fuel' rest)
                  (fun items rest' => Got (JArr items) rest')
            end
          else if Ascii.eqb c "034" then
            match read_string rest with
            | Some (str, rest') => Got (JStr str) rest'
            | None => NoJson
            end
          else
            match strip_prefix "null" s0, strip_prefix "true" s0, strip_prefix "false" s0 with
            | Some rest', _, _ => Got JNull rest'
            | _, Some rest', _ => Got (JBool true) rest'
            | _, _, Some rest' => Got (JBool false) rest'
            | _, _, _ => read_number s0
            end
      end
  end
with read_elements (fuel : nat) (s : string) : reading (list json) :=
  match fuel with
  | O => NoJson
  | S fuel' =>
      and_then (read_value fuel' s) (fun v rest =>
        match skip_ws rest with
        | String "," rest' =>
            and_then (read_elements fuel' rest') (fun vs rest'' => Got (v :: vs) rest'')
        | String "]" rest' => Got [v] rest'
        | _ => NoJson
        end)
  end
with read_members (fuel : nat) (s : string) : reading (list (string * json)) :=
  match fuel with
  | O => NoJson
  | S fuel' =>
      match skip_ws s with
      | String "034" rest =>
          match read_string rest with
          | Some (key, rest1) =>
              match skip_ws rest1 with
              | String ":" rest2 =>
                  and_then (read_value fuel' rest2) (fun v rest3 =>
                    match skip_ws rest3 with
                    | String "," rest4 =>
                        and_then (read_members fuel' rest4)
                          (fun items rest5 => Got (add_member key v items) rest5)
                    | String "}" rest4 => Got [(key, v)] rest4
                    | _ => NoJson
                    end)
              | _ => NoJson
              end
          | None => NoJson
          end
      | _ => NoJson
      end
  end.

Definition loads (text : string) : loaded :=
  match read_value (S (String.length text)) text with
  | Got v rest =>
      match skip_ws rest with
      | EmptyString => Loaded v
      | _ => JSONDecodeError
      end
  | NoJson => JSONDecodeError
  | Stops e => LoadsRaises e
  end.

Definition quote : string := String "034" "".

Fixpoint spaces (n : nat) : string :=
  match n with O => "" | S n' => String " " (spaces n') end.

(** The layout of [json.dumps(_, indent=2)]. *)
Fixpoint print (level : nat) (v : json) : string :=
  match v with
  | JNull => "null"
  | JBool b => if b then "true" else "false"
  | JInt n => NilZero.string_of_int (Z.to_int n)
  | JStr s => quote +:+ s +:+ quote
  | JArr [] => "[]"
  | JArr items =>
      "[" +:+ nl +:+ spaces (2 * S level)
      +:+ Py.join ("," +:+ nl +:+ spaces (2 * S level)) (map (print (S level)) items)
      +:+ nl +:+ spaces (2 * level) +:+ "]"
  | JObj [] => "{}"
  | JObj items =>
      "{" +:+ nl +:+ spaces (2 * S level)
      +:+ Py.join ("," +:+ nl +:+ spaces (2 * S level))
            (map (fun kv => quote +:+ fst kv +:+ quote +:+ ": " +:+ print (S level) (snd kv)) items)
      +:+ nl +:+ spaces (2 * level) +:+ "}"
  end.

Definition dumps (v : json) : string := print 0 v.

End JsonLite.

#[global] Instance json_lite : JsonLib :=
  {| json_loads := JsonLite.loads; json_dumps := JsonLite.dumps |}.

(** A model that answers its n-th call with the n-th text of a script and
    never asks the human. *)
Definition scripted_model (script : list string) : ChatOpenAI :=
  {| invoke := fun n _ _ => Ok (nth n script "");
     run_tools := fun n _ _ => Final (Ok (nth n script "")) |}.

Definition start_world {B} (b : B) (lines : list string) : World B :=
  {| backend := b; requests := []; CURRENT_WORKSHOP_ID := None;
     HUMAN_REVIEW_MODE := "interactive"; stdin_isatty := true;
     stdin := lines; stdout := []; model_calls := [];
     utcnow := fun n => "2025-01-01T00:00:0" +:+ str_of_nat n +:+ "+00:00";
     clock := O |}.

(** A store in which event storming is done: its work-item holds an output. *)
Definition events_done : gmap string (list (string * json)) :=
  {[ "workshop-eventstorming" :=
       [("id", JStr "workshop-eventstorming");
        ("title", JStr "Event storming");
        ("work_outcomes", JObj [("output", JStr "Stored events")])] ]}.

(** A model that answers each phase with a text of its own. *)
Definition phase_script : list string :=
  ["INITIAL-TEXT"; "EVENTS-TEXT"; "steps"; "DECISION-TEXT"; "steps";
   "CLARIFY-TEXT"; "steps"].

Definition menu : list string := ["A"; "B"; "Other (type your own)"].

(** A backend that is out of service: it answers every request with 503. *)
Definition out_of_service : Backend unit :=
  fun _ _ b => (Raise (APIError 503 (JObj [("error", JStr "unavailable")])), b).


(** ** Vocabulary of the statements *)

(** The kind as the router compares it. *)
Definition normalized (kind : string) : string := Py.lower (Py.strip kind).

Fixpoint contains (c : ascii) (s : string) : bool :=
  match s with
  | EmptyString => false
  | String x s' => Ascii.eqb x c || contains c s'
  end.



(** [needle in text] *)
Fixpoint is_substring (needle text : string) : bool :=
  String.prefix needle text
  || match text with
     | EmptyString => false
     | String _ rest => is_substring needle rest
     end.

(** The first row of the routing table, on a given text. *)
Definition reviewer_kind (n : string) : bool :=
  Py.startswith n "review." || Py.startswith n "acceptance."
  || Py.startswith n "security." || String.eqb n "iteration.approved".

(** What the loop of [_slugify] appends, as a function of the flag. *)
Fixpoint loop_out (last_dash : bool) (l : list ascii) : list ascii :=
  match l with
  | [] => []
  | c :: l' =>
      if Py.isalnum c then c :: loop_out false l'
      else if negb last_dash then "-"%char :: loop_out true l'
      else loop_out last_dash l'
  end.

(** A pattern that begins with literal characters. *)
Definition lit_seq (cs : list ascii) (r : Re.regex) : Re.regex :=
  fold_right (fun c r => Re.Cat (Re.Atom (Re.Lit c)) r) r cs.

(** What follows the last occurrence of a character. *)
Fixpoint after_last (c : ascii) (s : string) : option string :=
  match s with
  | EmptyString => None
  | String x s' =>
      match after_last c s' with
      | Some r => Some r
      | None => if Ascii.eqb x c then Some s' else None
      end
  end.

(** Where a span that starts at the first character of the text ends: the
    text after its closing character. *)
Definition span_rest (s : string) : option string :=
  match s with
  | String x s' =>
      if Ascii.eqb x "{" then after_last "}" s'
      else if Ascii.eqb x "[" then after_last "]" s'
      else None
  | EmptyString => None
  end.

Definition dotall : Re.flags := {| Re.IGNORECASE := false; Re.DOTALL := true |}.

Definition json_span_regex : Re.regex :=
  Re.Cat
    (Re.Group
       (Re.Alt
          (Re.Cat (Re.Atom (Re.Lit "{"))
             (Re.Cat (Re.Star Re.Dot) (Re.Cat (Re.Atom (Re.Lit "}")) Re.Empty)))
          (Re.Cat (Re.Atom (Re.Lit "["))
             (Re.Cat (Re.Star Re.Dot) (Re.Cat (Re.Atom (Re.Lit "]")) Re.Empty)))))
    Re.Empty.

Section Worlds.
Context {B : Type} `{!Backend B}.

(** The world after a client call that left the backend in [b]. *)
Definition sent (w : World B) (who : WorklineClient) (rq : request) (b : B) : World B :=
  mkWorld b (requests w ++ [(who, rq)]) (CURRENT_WORKSHOP_ID w)
    (HUMAN_REVIEW_MODE w) (stdin_isatty w) (stdin w) (stdout w)
    (model_calls w) (utcnow w) (clock w).

(** The world with other console contents. *)
Definition with_io (w : World B) (lines out : list string) : World B :=
  mkWorld (backend w) (requests w) (CURRENT_WORKSHOP_ID w)
    (HUMAN_REVIEW_MODE w) (stdin_isatty w) lines out
    (model_calls w) (utcnow w) (clock w).

(** The world after one more model call. *)
Definition called (w : World B) (system_prompt user_input : string) : World B :=
  mkWorld (backend w) (requests w) (CURRENT_WORKSHOP_ID w)
    (HUMAN_REVIEW_MODE w) (stdin_isatty w) (stdin w) (stdout w)
    (model_calls w ++ [(system_prompt, user_input)]) (utcnow w) (clock w).

(** The body that [ensure_workshop_task] posts. *)
Definition workshop_body (task_id title preset description : string) : json :=
  JObj [
    ("id", JStr task_id);
    ("title", JStr title);
    ("type", JStr "workshop");
    ("description", JStr description);
    ("policy", JObj [("preset", JStr preset)])
  ].

(** A conversation entry. *)
Definition conversation_entry (ts question answer : string) : json :=
  JObj [("ts", JStr ts); ("question", JStr question); ("answer", JStr answer)].



(** The context that [continue_discovery] builds after the first phase. *)
Definition discovery_context (problem_statement : string)
    (discovery : gmap string string) : string :=
  Py.join (nl +:+ nl)
    [ "Problem Statement:" +:+ nl +:+ problem_statement;
      "Initial Refinement:" +:+ nl +:+ default "" (discovery !! "initial") ].

(** The first block of [continue_discovery]. *)
Definition initial_phase (model : ChatOpenAI) (problem_statement : string)
    (discovery : gmap string string) : M B (gmap string string) :=
  if initial_missing discovery then
    let! initial_output := get_workshop_output "problem-refinement" in
    let! initial_output :=
      (if is_falsy initial_output then
         set_current_workshop (Some "problem-refinement") ;;;
         let! initial_output := run_discovery model problem_statement in
         set_current_workshop None ;;;
         set_workshop_output "problem-refinement" initial_output ;;;
         ret initial_output
       else ret (text_of initial_output)) in
    ret (<["initial" := initial_output]> discovery)
  else ret discovery.

(** Each of the three later blocks of [continue_discovery]. *)
Definition later_phase (model : ChatOpenAI) (key task_id phase_name context : string)
    (discovery : gmap string string) : M B (gmap string string) :=
  match discovery !! key with
  | None =>
      let! out := get_workshop_output task_id in
      let! out :=
        (if is_falsy out then
           set_current_workshop (Some task_id) ;;;
           let! out := run_discovery_phase model phase_name context in
           set_current_workshop None ;;;
           set_workshop_output task_id out ;;;
           let! next_steps := run_workshop_next_steps model phase_name context in
           call client (PutWorkOutcomes task_id "next_steps" (JStr next_steps)) ;;;
           ret out
         else ret (text_of out)) in
      ret (<[key := out]> discovery)
  | Some _ => ret discovery
  end.

(** The map that [continue_discovery] starts from: [existing or {}]. *)
Definition start_map (existing : option (gmap string string)) : gmap string string :=
  match existing with Some d => d | None => ∅ end.

(** The three later blocks in a row. *)
Definition later_phases (model : ChatOpenAI) (context : string)
    (discovery : gmap string string) : M B (gmap string string) :=
  let! discovery :=
    later_phase model "event_storming" "workshop-eventstorming" "Event Storming"
      context discovery in
  let! discovery :=
    later_phase model "decision_workshop" "workshop-decision" "Decision Workshop"
      context discovery in
  let! discovery :=
    later_phase model "clarify" "workshop-clarify" "Clarification" context discovery in
  ret discovery.

(** The calls made with a given system prompt. *)
Definition calls_with (system_prompt : string) (calls : list (string * string))
    : list (string * string) :=
  filter (fun c => fst c = system_prompt) calls.

End Worlds.

(** The discovery phases: key in the discovery map, work-item, and the
    system prompt of the phase runner. *)
Inductive phase := Initial | EventStorming | DecisionWorkshop | Clarify.

Definition phase_key (p : phase) : string :=
  match p with
  | Initial => "initial"
  | EventStorming => "event_storming"
  | DecisionWorkshop => "decision_workshop"
  | Clarify => "clarify"
  end.

Definition phase_task (p : phase) : string :=
  match p with
  | Initial => "problem-refinement"
  | EventStorming => "workshop-eventstorming"
  | DecisionWorkshop => "workshop-decision"
  | Clarify => "workshop-clarify"
  end.

Definition phase_prompt (p : phase) : string :=
  match p with
  | Initial => discovery_system_prompt
  | EventStorming => phase_system_prompt "Event Storming"
  | DecisionWorkshop => phase_system_prompt "Decision Workshop"
  | Clarify => phase_system_prompt "Clarification"
  end.

(** The entry of the map that the run starts from, when it counts as
    present: any entry for a later phase, a non-blank one for the first. *)
Definition kept_entry (p : phase) (existing : option (gmap string string))
    : option string :=
  match existing with
  | None => None
  | Some d =>
      match p with
      | Initial => if initial_missing d then None else d !! "initial"
      | _ => d !! phase_key p
      end
  end.

(** *** Invariants of a run *)

(** An invariant speaks of the backend and of the calls made to the model. *)
Definition holds {B} (Inv : B -> list (string * string) -> Prop) (w : World B) : Prop :=
  Inv (backend w) (model_calls w).

Definition preserves {B A} (Inv : B -> list (string * string) -> Prop)
    (m : M B A) : Prop :=
  forall w, holds Inv w -> holds Inv (snd (m w)).

(** The invariant is kept, and a returned value satisfies [Q]. *)
Definition triple {B A} (Inv : B -> list (string * string) -> Prop)
    (m : M B A) (Q : A -> Prop) : Prop :=
  forall w, holds Inv w ->
    holds Inv (snd (m w)) /\ forall a, fst (m w) = Ok a -> Q a.

(** A request that leaves the [output] field of work-item [T] alone. *)
Definition spares_output (T : string) (rq : request) : Prop :=
  match rq with
  | Request _ _ _ => True
  | PutWorkOutcomes t k _ => t <> T \/ k <> "output"
  | AppendWorkOutcomes t k _ => t <> T \/ k <> "output"
  end.

(** The store holds [s] as the output of [T], and the calls made with the
    system prompt [sys] are [cs]. *)
Definition output_kept (T s sys : string) (cs : list (string * string))
    (st : gmap string (list (string * json))) (calls : list (string * string)) : Prop :=
  Store.output st T = Some s /\ calls_with sys calls = cs.

(** What a run of [continue_discovery] from a world whose model calls were
    [base] shows of the contexts: every call made is the discovery call on
    the problem statement, or has one and the same text [ctx] as its input;
    and when the run returns, [ctx] is the context built from the problem
    statement and the returned initial refinement. *)
Definition one_context (problem_statement : string) (base : list (string * string))
    {B} (rw : result (gmap string string) * World B) : Prop :=
  exists new ctx,
    model_calls (snd rw) = base ++ new
    /\ Forall (fun c => c = (discovery_system_prompt, problem_statement) \/ snd c = ctx) new
    /\ forall d, fst rw = Ok d -> ctx = discovery_context problem_statement d.

(** The calls made since [base] are all of the kind [P]. *)
Definition calls_since (base : list (string * string)) (P : string * string -> Prop)
    {B} (b : B) (calls : list (string * string)) : Prop :=
  exists new, calls = base ++ new /\ Forall P new.

(** Every discovery phase has a non-blank output in the store. *)
Definition all_stored (s : phase -> string)
    (st : gmap string (list (string * json))) : Prop :=
  forall p, Store.output st (phase_task p) = Some (s p)
            /\ Py.nonempty (Py.strip (s p)) = true.

(** On such a store the computation returns, writes nothing and calls the
    model for nothing. *)
Definition quiet (s : phase -> string) {A}
    (m : M (gmap string (list (string * json))) A) : Prop :=
  forall w, all_stored s (backend w) ->
    exists a w', m w = (Ok a, w')
                 /\ backend w' = backend w /\ model_calls w' = model_calls w.

(** ** More of Python: [str], [repr], iteration *)

(** [str(n)] for an integer. *)
Definition str_of_Z (n : Z) : string := NilZero.string_of_int (Z.to_int n).

Definition dquote : ascii := "034"%char.

Definition hex_digit (n : N) : ascii :=
  nth (N.to_nat n) (list_ascii_of_string "0123456789abcdef") "0"%char.

(** [\xNN] *)
Definition hex_escape (c : ascii) : string :=
  String "\" (String "x" (String (hex_digit (Py.code c / 16))
                            (String (hex_digit (Py.code c mod 16)) ""))).

(** [str.isprintable] on one character. *)
Definition isprintable (c : ascii) : bool :=
  Py.in_range 32 126 c || (Py.in_range 161 255 c && negb (Py.code c =? 173)).

(** One character of [repr(s)] between the quotes [q]. *)
Definition repr_char (q c : ascii) : string :=
  if Ascii.eqb c q || Ascii.eqb c "\" then String "\" (String c "")
  else if Py.code c =? 9 then "\t"
  else if Py.code c =? 10 then "\n"
  else if Py.code c =? 13 then "\r"
  else if isprintable c then String c ""
  else hex_escape c.

Fixpoint repr_chars (q : ascii) (s : string) : string :=
  match s with
  | EmptyString => EmptyString
  | String c s' => repr_char q c +:+ repr_chars q s'
  end.

(** [repr(s)] for a string: single quotes, unless the text has a single
    quote and no double quote. *)
Definition repr_str (s : string) : string :=
  let q := if contains "'" s && negb (contains dquote s) then dquote else "'"%char in
  String q (repr_chars q s +:+ String q "").

(** [repr(v)] *)
Fixpoint py_repr (v : json) : string :=
  match v with
  | JNull => "None"
  | JBool b => if b then "True" else "False"
  | JInt n => str_of_Z n
  | JStr s => repr_str s
  | JArr items => "[" +:+ Py.join ", " (map py_repr items) +:+ "]"
  | JObj items =>
      "{" +:+ Py.join ", "
                (map (fun kv => repr_str (fst kv) +:+ ": " +:+ py_repr (snd kv)) items)
      +:+ "}"
  end.

(** [str(v)] *)
Definition py_str (v : json) : string :=
  match v with
  | JStr s => s
  | _ => py_repr v
  end.


Definition rbind {A C} (r : result A) (k : A -> result C) : result C :=
  match r with
  | Ok a => k a
  | Raise e => Raise e
  end.


(** [if value:] for an optional list. *)
Definition list_truthy {A} (value : option (list A)) : bool :=
  match value with
  | Some (_ :: _) => true
  | _ => false
  end.

(** ** Backend tools *)



(** The body that [create_workline_task_full] posts. *)
Definition task_body (title task_type : string)
    (iteration_id assignee_id : option string) (depends_on : option (list string))
    (description : option string) (priority : option Z) : list (string * json) :=
  let body := [("title", JStr title); ("type", JStr task_type)] in
  let body :=
    if is_truthy iteration_id
    then assoc_set "iteration_id" (JStr (text_of iteration_id)) body else body in
  let body :=
    if is_truthy assignee_id
    then assoc_set "assignee_id" (JStr (text_of assignee_id)) body else body in
  let body :=
    if list_truthy depends_on
    then assoc_set "depends_on" (JArr (map JStr (default [] depends_on))) body else body in
  let body :=
    if is_truthy description
    then assoc_set "description" (JStr (text_of description)) body else body in
  let body :=
    match priority with
    | Some p => assoc_set "priority" (JInt p) body
    | None => body
    end in
  body.


Section Tools.
Context {B : Type} `{!Backend B} `{!JsonLib}.

Abbreviation M := (M B).

Definition create_workline_task_full (title task_type : string)
    (iteration_id assignee_id : option string) (depends_on : option (list string))
    (description : option string) (priority : option Z) : M json :=
  let body :=
    task_body title task_type iteration_id assignee_id depends_on description priority in
  let! data := call planner_client (Request "POST" "tasks" (Some (JObj body))) in
  let! id := lift (getitem data "id") in
  let! title := lift (getitem data "title") in
  let! type := lift (getitem data "type") in
  let! status := lift (getitem data "status") in
  let! iteration_id := lift (dict_get data "iteration_id" JNull) in
  let! assignee_id := lift (dict_get data "assignee_id" JNull) in
  let! priority := lift (dict_get data "priority" JNull) in
  ret (JObj [("id", id); ("title", title); ("type", type); ("status", status);
             ("iteration_id", iteration_id); ("assignee_id", assignee_id);
             ("priority", priority)]).






(** *** The problem statement *)

Definition get_problem_statement_from_workline : M (option string) :=
  let! task := _get_task "problem-refinement" in
  if negb (truthy task) then ret None
  else
    let! work_outcomes := lift (dict_get task "work_outcomes" JNull) in
    let work_outcomes := or_else work_outcomes (JObj []) in
    let! statement := lift (dict_get work_outcomes "problem_statement" JNull) in
    match statement with
    | JStr s => if Py.nonempty (Py.strip s) then ret (Some s) else ret None
    | _ => ret None
    end.

(** *** Review of the draft plan *)

(** The [while True] loop of [ask_human_for_review]; [lines] is the input
    still unread when the iteration starts. *)
Fixpoint review_loop (lines : list string) : M string :=
  print "Enter review feedback (or 'approve'): " ;;;
  match lines with
  | [] => raise (RuntimeError "stdin closed while waiting for input")
  | line :: rest =>
      set_stdin rest ;;;
      if String.eqb line "" then
        raise (RuntimeError "stdin closed while waiting for input")
      else
        let feedback := Py.strip line in
        if Py.nonempty feedback then
          if Py.isdigit feedback then
            if String.eqb feedback "1" then ret "approve"
            else if String.eqb feedback "2" then ret "request changes"
            else ret feedback
          else ret feedback
        else
          print ("Please enter a response (or type 'approve')." +:+ nl) ;;;
          review_loop rest
  end.

Definition ask_human_for_review (draft : string) : M string :=
  let! w := get_world in
  if String.eqb (HUMAN_REVIEW_MODE w) "interactive" then
    if negb (stdin_isatty w) then
      raise (RuntimeError "stdin is not interactive; run without make or attach a TTY.")
    else
      print (nl +:+ "=== Draft Plan (for review) ===" +:+ nl +:+ nl) ;;;
      print (draft +:+ nl) ;;;
      print (nl +:+ "=== Provide edits or approvals ===" +:+ nl +:+ nl) ;;;
      print ("1. approve" +:+ nl) ;;;
      print ("2. request changes" +:+ nl) ;;;
      let! w := get_world in
      review_loop (stdin w)
  else
    raise (RuntimeError "HUMAN_REVIEW_MODE must be interactive; simulation is disabled.").

(** *** Planning and feature extraction *)

Definition planner_system_prompt : string :=
  "You are a product owner running agile planning. Based on discovery, "
  +:+ "create a one-iteration plan with dependencies and owners. Workline "
  +:+ "iterations have no duration and we do not do capacity planning here. "
  +:+ "Assume the work is carried out by AI actors (e.g., PlannerAgent, "
  +:+ "OpsAgent, ReviewerAgent) and assign owners accordingly. Ask questions "
  +:+ "only when decisions are needed"
  +:+ "using ask_human_question, always providing 3-5 options plus 'Other'. "
  +:+ "Ask at most one question at a time. "
  +:+ "Output sections: Iteration ID, Sprint Goal, "
  +:+ "User Stories (with actors), Dependencies, Acceptance "
  +:+ "Criteria, Risks, Sprint Backlog (each item with owner and dependencies).".

Definition run_planner (model : ChatOpenAI) (discovery_output : string) : M string :=
  let system_prompt := planner_system_prompt in
  let tools := [ask_human_question] in
  _run_agent model system_prompt discovery_output tools.

Definition features_system_prompt : string :=
  let q := String dquote "" in
  "Extract the feature list from the plan. Return JSON array with "
  +:+ "objects: {" +:+ q +:+ "title" +:+ q +:+ ": " +:+ q +:+ "..." +:+ q
  +:+ ", " +:+ q +:+ "summary" +:+ q +:+ ": " +:+ q +:+ "..." +:+ q +:+ "}. "
  +:+ "Only include real product features, not process steps.".

(** The loop of [run_feature_workshops] over the parsed entries. *)
Fixpoint feature_items (parsed : list json) : list json :=
  match parsed with
  | [] => []
  | entry :: rest =>
      match entry with
      | JObj fields =>
          let title := Py.strip (py_str (default (JStr "") (assoc "title" fields))) in
          let summary := Py.strip (py_str (default (JStr "") (assoc "summary" fields))) in
          if Py.nonempty title
          then JObj [("title", JStr title); ("summary", JStr summary)] :: feature_items rest
          else feature_items rest
      | _ => feature_items rest
      end
  end.

Definition run_feature_workshops (model : ChatOpenAI) (plan : string) : M (list json) :=
  let system_prompt := features_system_prompt in
  let! output := _run_agent model system_prompt plan [] in
  let! parsed := lift (_extract_json_payload output) in
  match parsed with
  | JArr entries => ret (feature_items entries)
  | _ => ret []
  end.

End Tools.

(** ** Vocabulary of the further statements *)

(** The lookup of a work-item, as [_get_task] sends it. *)
Definition get_task_request (task_id : string) : request :=
  Request "GET" ("tasks/" +:+ task_id) None.

(** The string under [key] in the outcomes of a looked-up work-item: the
    item is a dict, its [work_outcomes] is a dict, and the value under
    [key] is a string. *)
Definition outcome_text (key : string) (task : json) : option string :=
  match task with
  | JObj items =>
      match assoc "work_outcomes" items with
      | Some (JObj outcomes) =>
          match assoc key outcomes with
          | Some (JStr s) => Some s
          | _ => None
          end
      | _ => None
      end
  | _ => None
  end.


(** The work-item that [log_conversation] writes to. *)
Definition conversation_target (current : option string) : string :=
  match current with
  | Some id => if Py.nonempty id then id else "problem-refinement"
  | None => "problem-refinement"
  end.

Definition all_phases : list phase := [Initial; EventStorming; DecisionWorkshop; Clarify].

(** The part of [get_workshop_output] and of
    [get_problem_statement_from_workline] after the lookup: the member
    [key] of the outcomes of the item found. *)
Definition read_outcome {B} (key : string) (task : json) : M B (option string) :=
  if negb (truthy task) then ret None
  else
    let! work_outcomes := lift (dict_get task "work_outcomes" JNull) in
    let outcomes := or_else work_outcomes (JObj []) in
    let! value := lift (dict_get outcomes key JNull) in
    match value with
    | JStr s => if Py.nonempty (Py.strip s) then ret (Some s) else ret None
    | _ => ret None
    end.

Section MoreWorlds.
Context {B : Type}.

(** The world after some requests that left the backend in [b]. *)
Definition after_requests (w : World B) (new : list (WorklineClient * request)) (b : B)
    : World B :=
  mkWorld b (requests w ++ new) (CURRENT_WORKSHOP_ID w)
    (HUMAN_REVIEW_MODE w) (stdin_isatty w) (stdin w) (stdout w)
    (model_calls w) (utcnow w) (clock w).

(** The world after one reading of the clock. *)
Definition ticked (w : World B) : World B :=
  mkWorld (backend w) (requests w) (CURRENT_WORKSHOP_ID w)
    (HUMAN_REVIEW_MODE w) (stdin_isatty w) (stdin w) (stdout w)
    (model_calls w) (utcnow w) (S (clock w)).

End MoreWorlds.

(** A line of input that the gates ask again for: not the end of the
    input, and blank once stripped. *)
Definition blank_line (line : string) : bool :=
  negb (String.eqb line "") && negb (Py.nonempty (Py.strip line)).

(** What [ask_human_for_review] makes of a stripped line. *)
Definition review_of (feedback : string) : string :=
  if String.eqb feedback "1" then "approve"
  else if String.eqb feedback "2" then "request changes"
  else feedback.

Definition stdin_closed : exn := RuntimeError "stdin closed while waiting for input".

(** *** Well-formed slugs *)

(** A character of a slug: alphanumeric and not changed by [lower], or a
    hyphen. *)
Definition slug_char (c : ascii) : bool :=
  (Py.isalnum c && Ascii.eqb (Py.lower_char c) c) || is_hyphen c.

(** No two hyphens in a row. *)
Fixpoint single_hyphens (s : string) : bool :=
  match s with
  | String a s' =>
      match s' with
      | String b _ => negb (is_hyphen a && is_hyphen b)
      | EmptyString => true
      end && single_hyphens s'
  | EmptyString => true
  end.

(** Not empty, made of slug characters, hyphens single and none at either
    end. *)
Definition well_formed_slug (s : string) : bool :=
  Py.nonempty s && Py.all_chars slug_char s && single_hyphens s
  && String.eqb (Py.strip_chars is_hyphen s) s.

(** The span that the pattern of [_extract_json_payload] finds in a text
    that is not JSON as a whole: it starts at the first brace or bracket
    that has its closing character somewhere after it and ends at the last
    such closing character of the text. *)
Fixpoint greedy_span (text : string) : option string :=
  match span_rest text with
  | Some r => Some (String.substring 0 (String.length text - String.length r) text)
  | None =>
      match text with
      | String _ rest => greedy_span rest
      | EmptyString => None
      end
  end.

(** An opening character with its closing character somewhere in what
    follows it. *)
Definition opener_closed (x : ascii) (after : string) : bool :=
  (Ascii.eqb x "{" && contains "}" after) || (Ascii.eqb x "[" && contains "]" after).

(** No character of [pre], followed by the rest of [pre] and by [rest], is
    such an opening character. *)
Fixpoint no_closed_opener (pre rest : string) : bool :=
  match pre with
  | EmptyString => true
  | String x pre' => negb (opener_closed x (pre' +:+ rest)) && no_closed_opener pre' rest
  end.

(** The two calls that a later phase makes to the model when it runs: the
    phase itself, then the next steps. *)
Definition phase_calls (phase_name context : string) : list (string * string) :=
  [ (phase_system_prompt phase_name, context);
    (next_steps_system_prompt phase_name, context) ].

Section Answers.
Context {B : Type} `{!Backend B}.

(** The world after one request and the answer of the backend to it. *)
Definition answered (w : World B) (who : WorklineClient) (rq : request) : World B :=
  sent w who rq (snd (backend_call who rq (backend w))).

(** What the backend answers to a request. *)
Definition answer (w : World B) (who : WorklineClient) (rq : request) : result json :=
  fst (backend_call who rq (backend w)).

End Answers.




(** A feature as [run_feature_workshops] returns it. *)
Definition feature_item (title summary : string) : json :=
  JObj [("title", JStr title); ("summary", JStr summary)].

(** The body that [_create_problem_refinement_task] posts. *)
Definition problem_refinement_body : json :=
  JObj [
    ("id", JStr "problem-refinement");
    ("title", JStr "Problem refinement");
    ("type", JStr "workshop");
    ("description", JStr "Capture the refined problem statement and assumptions.");
    ("policy", JObj [("preset", JStr "workshop.problem_refinement")])
  ].

(** What [ensure_problem_refinement_task] returns of an item. *)
Definition id_of (task : json) : result json := getitem task "id".

(** *** Relations between the worlds of a run *)

(** Every run of [m] takes a world to one that is [R]-related to it. *)
Definition keeps {B A} (R : World B -> World B -> Prop) (m : M B A) : Prop :=
  forall w, R w (snd (m w)).

(** The requests of the question gate: the lookup and the creation of the
    refinement item, and the appending of a conversation entry, all by
    the default client. *)
Definition gate_request (sent_request : WorklineClient * request) : Prop :=
  fst sent_request = client
  /\ (snd sent_request = get_task_request "problem-refinement"
      \/ snd sent_request = Request "POST" "tasks" (Some problem_refinement_body)
      \/ exists task_id entry,
           snd sent_request = AppendWorkOutcomes task_id "conversation" entry).

(** The world [w'] comes after [w] by requests that all satisfy [P]. *)
Definition sends_only {B} (P : WorklineClient * request -> Prop) (w w' : World B) : Prop :=
  exists new, requests w' = requests w ++ new /\ Forall P new.

(** A request that concerns the work-item [T] alone: its lookup, its
    creation as a workshop, a write to one of its outcomes, an entry
    appended to its conversation. *)
Definition touches (T : string) (rq : request) : Prop :=
  rq = get_task_request T
  \/ (exists title preset description,
        rq = Request "POST" "tasks" (Some (workshop_body T title preset description)))
  \/ (exists key value, rq = PutWorkOutcomes T key value)
  \/ (exists entry, rq = AppendWorkOutcomes T "conversation" entry).

(** A request of the default client that concerns one of the four
    work-items of the discovery. *)
Definition phase_item_request (sent_request : WorklineClient * request) : Prop :=
  fst sent_request = client /\ exists p, touches (phase_task p) (snd sent_request).

(** With [T] as the current workshop at the start, it is still the current
    workshop at the end and all that was sent are entries appended to the
    conversation of [T]. *)
Definition logs_to {B} (T : string) (w w' : World B) : Prop :=
  CURRENT_WORKSHOP_ID w = Some T ->
  CURRENT_WORKSHOP_ID w' = Some T
  /\ sends_only (fun r => exists entry,
                   r = (client, AppendWorkOutcomes T "conversation" entry)) w w'.

(** *** Worlds of the further examples *)

(** A store in which every phase is done. *)
Definition all_done : gmap string (list (string * json)) :=
  list_to_map
    (map (fun p =>
            (phase_task p,
             [("id", JStr (phase_task p));
              ("work_outcomes",
               JObj [("output", JStr ("Stored " +:+ phase_key p))])]))
         [Initial; EventStorming; DecisionWorkshop; Clarify]).

Definition stored_text (p : phase) : string := "Stored " +:+ phase_key p.

(** A world whose standard input is not a terminal. *)
Definition piped_world (lines : list string)
    : World (gmap string (list (string * json))) :=
  {| backend := ∅; requests := []; CURRENT_WORKSHOP_ID := None;
     HUMAN_REVIEW_MODE := "interactive"; stdin_isatty := false;
     stdin := lines; stdout := []; model_calls := [];
     utcnow := fun n => "2025-01-01T00:00:0" +:+ str_of_nat n +:+ "+00:00";
     clock := O |}.

(** The superscript two, which [str.isdigit] accepts and [int] rejects. *)
Definition superscript_two : string := String "178" "".

(** * Properties *)

(** ** Characters and strings *)

Lemma isspace_lower_char c : Py.isspace (Py.lower_char c) = Py.isspace c.
Proof. destruct c as [[] [] [] [] [] [] [] []]; vm_compute; reflexivity. Qed.

Lemma lower_char_idem c : Py.lower_char (Py.lower_char c) = Py.lower_char c.
Proof. destruct c as [[] [] [] [] [] [] [] []]; vm_compute; reflexivity. Qed.

Lemma lower_char_not_alnum c : Py.isalnum c = false -> Py.lower_char c = c.
Proof. destruct c as [[] [] [] [] [] [] [] []]; vm_compute; intros; congruence. Qed.

Lemma lower_idem s : Py.lower (Py.lower s) = Py.lower s.
Proof. induction s as [|c s IH]; simpl; [|rewrite lower_char_idem, IH]; reflexivity. Qed.

Lemma app_cons a s t : String a s +:+ t = String a (s +:+ t).
Proof. reflexivity. Qed.

Lemma app_empty t : "" +:+ t = t.
Proof. reflexivity. Qed.

Lemma lower_app s t : Py.lower (s +:+ t) = Py.lower s +:+ Py.lower t.
Proof.
  induction s as [|c s IH]; [reflexivity|].
  rewrite app_cons. simpl. rewrite IH. reflexivity.
Qed.

Lemma lower_lstrip s :
  Py.lstrip Py.isspace (Py.lower s) = Py.lower (Py.lstrip Py.isspace s).
Proof.
  induction s as [|c s IH]; simpl; [reflexivity|].
  rewrite isspace_lower_char. destruct (Py.isspace c); [exact IH|reflexivity].
Qed.

Lemma lower_rstrip s :
  Py.rstrip Py.isspace (Py.lower s) = Py.lower (Py.rstrip Py.isspace s).
Proof.
  induction s as [|c s IH]; simpl; [reflexivity|].
  rewrite IH, isspace_lower_char.
  destruct (Py.rstrip Py.isspace s); simpl; [destruct (Py.isspace c)|]; reflexivity.
Qed.

Lemma lower_strip s : Py.strip (Py.lower s) = Py.lower (Py.strip s).
Proof. unfold Py.strip, Py.strip_chars. rewrite lower_lstrip, lower_rstrip. reflexivity. Qed.

Lemma rstrip_cons p c s :
  Py.rstrip p s <> EmptyString -> Py.rstrip p (String c s) = String c (Py.rstrip p s).
Proof. simpl. destruct (Py.rstrip p s); [congruence|reflexivity]. Qed.

Lemma rstrip_keep p c s :
  p c = false -> Py.rstrip p (String c s) = String c (Py.rstrip p s).
Proof. intros H. simpl. rewrite H. destruct (Py.rstrip p s); reflexivity. Qed.

Lemma rstrip_idem p s : Py.rstrip p (Py.rstrip p s) = Py.rstrip p s.
Proof.
  induction s as [|c s IH]; simpl; [reflexivity|].
  destruct (Py.rstrip p s) as [|d r] eqn:E.
  - destruct (p c) eqn:Hc; simpl; [reflexivity|rewrite Hc; reflexivity].
  - rewrite rstrip_cons; [rewrite IH; reflexivity|rewrite IH; congruence].
Qed.

Lemma lstrip_idem p s : Py.lstrip p (Py.lstrip p s) = Py.lstrip p s.
Proof.
  induction s as [|c s IH]; simpl; [reflexivity|].
  destruct (p c) eqn:Hc; [exact IH|simpl; rewrite Hc; reflexivity].
Qed.

(** What [lstrip] leaves starts with a character that is kept. *)
Lemma lstrip_head p s c t : Py.lstrip p s = String c t -> p c = false.
Proof.
  induction s as [|d s IH]; simpl; [congruence|].
  destruct (p d) eqn:Hd; [exact IH|]. intros [= <- <-]. exact Hd.
Qed.

Lemma lstrip_rstrip p s :
  Py.lstrip p (Py.rstrip p (Py.lstrip p s)) = Py.rstrip p (Py.lstrip p s).
Proof.
  destruct (Py.lstrip p s) as [|c t] eqn:E; [reflexivity|].
  apply lstrip_head in E. rewrite rstrip_keep by exact E. simpl. rewrite E. reflexivity.
Qed.

Lemma strip_chars_idem p s :
  Py.strip_chars p (Py.strip_chars p s) = Py.strip_chars p s.
Proof. unfold Py.strip_chars. rewrite lstrip_rstrip, rstrip_idem. reflexivity. Qed.

Lemma normalized_idem kind : normalized (normalized kind) = normalized kind.
Proof.
  unfold normalized. rewrite lower_strip, lower_idem.
  unfold Py.strip. rewrite strip_chars_idem. reflexivity.
Qed.

Lemma prefix_app pre s : String.prefix pre s = true -> exists t, s = pre +:+ t.
Proof.
  revert s. induction pre as [|a pre IH]; intros s H.
  - exists s. reflexivity.
  - destruct s as [|b s]; simpl in H; [discriminate H|].
    destruct (ascii_dec a b) as [->|]; [|discriminate H].
    destruct (IH s H) as [t ->]. exists t. reflexivity.
Qed.

Lemma prefix_of_app pre t : String.prefix pre (pre +:+ t) = true.
Proof.
  induction pre as [|a pre IH]; [destruct t; reflexivity|].
  rewrite app_cons. simpl. destruct (ascii_dec a a); [exact IH|congruence].
Qed.

(** [rstrip] keeps a prefix that ends in a character it does not strip. *)
Lemma rstrip_app_keep p q c t :
  p c = false ->
  Py.rstrip p ((q +:+ String c "") +:+ t) = (q +:+ String c "") +:+ Py.rstrip p t.
Proof.
  intros Hc. induction q as [|a q IH]; rewrite ?app_empty, ?app_cons.
  - apply rstrip_keep, Hc.
  - rewrite rstrip_cons; [rewrite IH; reflexivity|].
    rewrite IH. destruct q; rewrite ?app_empty, ?app_cons; discriminate.
Qed.

(** A kind that begins with a lower-case prefix free of white space keeps
    it when normalised. *)
Lemma normalized_keeps_prefix q c t :
  Py.isspace c = false ->
  Py.lstrip Py.isspace (q +:+ String c "") = q +:+ String c "" ->
  Py.lower (q +:+ String c "") = q +:+ String c "" ->
  Py.startswith (normalized ((q +:+ String c "") +:+ t)) (q +:+ String c "") = true.
Proof.
  intros Hc Hl Hlow. unfold normalized, Py.strip, Py.strip_chars, Py.startswith.
  assert (Py.lstrip Py.isspace ((q +:+ String c "") +:+ t) = (q +:+ String c "") +:+ t) as ->.
  { destruct q as [|a q]; rewrite ?app_empty, ?app_cons in *; simpl in *.
    - rewrite Hc. reflexivity.
    - destruct (Py.isspace a); [|reflexivity].
      exfalso. apply (f_equal String.length) in Hl. simpl in Hl.
      assert (forall s, String.length (Py.lstrip Py.isspace s) <= String.length s)%nat as Hle.
      { clear. induction s as [|x s IH]; simpl; [lia|]. destruct (Py.isspace x); simpl; lia. }
      specialize (Hle (q +:+ String c "")). lia. }
  rewrite rstrip_app_keep by exact Hc.
  rewrite lower_app, Hlow. apply prefix_of_app.
Qed.

(** ** Identity selection *)

Lemma client_for_attestation_unfold kind :
  _client_for_attestation kind =
  if reviewer_kind (normalized kind) then reviewer_client
  else if Py.startswith (normalized kind) "ci." then executor_client
  else if Py.startswith (normalized kind) "workshop." then planner_client
  else client.
Proof. reflexivity. Qed.

Lemma startswith_normalized kind pre :
  pre = "review." \/ pre = "acceptance." \/ pre = "security."
  \/ pre = "ci." \/ pre = "workshop." ->
  Py.startswith kind pre = true ->
  Py.startswith (normalized kind) pre = true.
Proof.
  intros Hpre H. apply prefix_app in H as [t ->].
  destruct Hpre as [-> | [-> | [-> | [-> | ->] ] ] ].
  - apply (normalized_keeps_prefix "review" "."); reflexivity.
  - apply (normalized_keeps_prefix "acceptance" "."); reflexivity.
  - apply (normalized_keeps_prefix "security" "."); reflexivity.
  - apply (normalized_keeps_prefix "ci" "."); reflexivity.
  - apply (normalized_keeps_prefix "workshop" "."); reflexivity.
Qed.

Lemma reviewer_kind_normalized kind :
  reviewer_kind kind = true -> reviewer_kind (normalized kind) = true.
Proof.
  unfold reviewer_kind. intros H.
  repeat (apply orb_true_iff in H as [H|H]).
  - rewrite startswith_normalized; auto.
  - rewrite (startswith_normalized _ "acceptance."); auto using orb_true_r.
    rewrite orb_true_r. reflexivity.
  - rewrite (startswith_normalized _ "security."); auto 6 using orb_true_r.
    rewrite !orb_true_r. reflexivity.
  - apply String.eqb_eq in H as ->. reflexivity.
Qed.

(** C3 (as amended).  The identity is a function of the kind alone, total,
    and decided on the kind with surrounding white space stripped and
    letters lower-cased: first row reviewer ([review.], [acceptance.],
    [security.] prefixes, or exactly [iteration.approved]), then [ci.] to
    the executor, then [workshop.] to the planner, anything else to the
    default client, which is the planner client.  A kind that carries one
    of the prefixes literally is routed as the table says. *)
Theorem client_for_attestation_table (kind : string) :
  let n := normalized kind in
  (reviewer_kind n = true -> _client_for_attestation kind = reviewer_client)
  /\ (reviewer_kind n = false -> Py.startswith n "ci." = true ->
      _client_for_attestation kind = executor_client)
  /\ (reviewer_kind n = false -> Py.startswith n "ci." = false ->
      Py.startswith n "workshop." = true ->
      _client_for_attestation kind = planner_client)
  /\ (reviewer_kind n = false -> Py.startswith n "ci." = false ->
      Py.startswith n "workshop." = false ->
      _client_for_attestation kind = client)
  /\ client = planner_client
  /\ (reviewer_kind kind = true -> _client_for_attestation kind = reviewer_client)
  /\ (Py.startswith kind "ci." = true -> _client_for_attestation kind = executor_client)
  /\ (Py.startswith kind "workshop." = true ->
      _client_for_attestation kind = planner_client).
Proof.
  intros n. rewrite client_for_attestation_unfold. fold n.
  repeat split.
  - intros ->. reflexivity.
  - intros -> ->. reflexivity.
  - intros -> -> ->. reflexivity.
  - intros -> -> ->. reflexivity.
  - intros H. subst n. rewrite (reviewer_kind_normalized _ H). reflexivity.
  - intros H. pose proof (startswith_normalized kind "ci." ltac:(auto) H) as Hn.
    fold n in Hn. destruct (prefix_app _ _ Hn) as [t Ht]. rewrite Ht.
    replace (reviewer_kind ("ci." +:+ t)) with false by reflexivity.
    unfold Py.startswith. rewrite (prefix_of_app "ci." t). reflexivity.
  - intros H. pose proof (startswith_normalized kind "workshop." ltac:(auto 6) H) as Hn.
    fold n in Hn. destruct (prefix_app _ _ Hn) as [t Ht]. rewrite Ht.
    replace (reviewer_kind ("workshop." +:+ t)) with false by reflexivity.
    replace (Py.startswith ("workshop." +:+ t) "ci.") with false by reflexivity.
    unfold Py.startswith. rewrite (prefix_of_app "workshop." t). reflexivity.
Qed.

Lemma client_for_attestation_table_witness :
  _client_for_attestation "  CI.Passed " = executor_client
  /\ _client_for_attestation "review.approved" = reviewer_client.
Proof.
  split.
  - apply (proj1 (proj2 (client_for_attestation_table "  CI.Passed "))); reflexivity.
  - apply (proj1 (client_for_attestation_table "review.approved")); reflexivity.
Defined.

(** The routing table read on the kind as given sends [CI.passed] to the
    default identity; the function sends it to the executor. *)
Lemma client_for_attestation_raw_kind_counterexample :
  reviewer_kind "CI.passed" = false
  /\ Py.startswith "CI.passed" "ci." = false
  /\ Py.startswith "CI.passed" "workshop." = false
  /\ _client_for_attestation "CI.passed" = executor_client
  /\ executor_client <> client.
Proof. repeat split; try reflexivity. discriminate. Qed.

(** C10.  Routing is insensitive to letter case and to surrounding white
    space: a kind and its stripped, lower-cased form select the same
    identity. *)
Theorem client_for_attestation_normalizes (kind : string) :
  _client_for_attestation kind = _client_for_attestation (Py.lower (Py.strip kind))
  /\ _client_for_attestation " REVIEW.Approved " = reviewer_client.
Proof.
  split; [|reflexivity].
  rewrite !client_for_attestation_unfold.
  change (Py.lower (Py.strip kind)) with (normalized kind).
  rewrite normalized_idem. reflexivity.
Qed.

(** ** Slugs *)

Lemma app_assoc_str s t u : (s +:+ t) +:+ u = s +:+ (t +:+ u).
Proof.
  induction s as [|a s IH]; [reflexivity|].
  rewrite !app_cons, IH. reflexivity.
Qed.

Lemma app_empty_r s : s +:+ "" = s.
Proof. induction s as [|a s IH]; [reflexivity|]. rewrite app_cons, IH. reflexivity. Qed.

Lemma join_empty_snoc l x : Py.join "" (l ++ [x]) = Py.join "" l +:+ x.
Proof.
  induction l as [|a l IH]; [reflexivity|].
  destruct l as [|b l].
  - simpl. rewrite app_empty. reflexivity.
  - change (Py.join "" ((a :: b :: l) ++ [x]))
      with (a +:+ "" +:+ Py.join "" ((b :: l) ++ [x])).
    rewrite IH.
    change (Py.join "" (a :: b :: l)) with (a +:+ "" +:+ Py.join "" (b :: l)).
    rewrite !app_empty, app_assoc_str. reflexivity.
Qed.

Lemma string_of_list_ascii_cons c l :
  string_of_list_ascii (c :: l) = String c "" +:+ string_of_list_ascii l.
Proof. reflexivity. Qed.

(** The loop appends exactly [loop_out]. *)
Lemma slug_fold l : forall safe last_dash,
  Py.join "" (fst (fold_left slug_step l (safe, last_dash)))
  = Py.join "" safe +:+ string_of_list_ascii (loop_out last_dash l).
Proof.
  induction l as [|c l IH]; intros safe last_dash; simpl.
  - rewrite app_empty_r. reflexivity.
  - destruct (Py.isalnum c).
    + rewrite IH, join_empty_snoc, app_assoc_str. reflexivity.
    + destruct last_dash; simpl.
      * apply IH.
      * rewrite IH, join_empty_snoc, app_assoc_str. reflexivity.
Qed.

Lemma runs_head c l : exists r rs, runs (c :: l) = (c :: r) :: rs.
Proof.
  simpl. destruct (runs l) as [|[|d r] rs]; eauto.
  destruct (Bool.eqb (Py.isalnum c) (Py.isalnum d)); eauto.
Qed.

Lemma hyphenate_cons c l :
  hyphenate (c :: l) =
  if Py.isalnum c then c :: hyphenate l
  else match l with
       | d :: _ => if Py.isalnum d then "-"%char :: hyphenate l else hyphenate l
       | [] => ["-"%char]
       end.
Proof.
  unfold hyphenate. destruct l as [|d l].
  - simpl. destruct (Py.isalnum c); reflexivity.
  - destruct (runs_head d l) as (r & rs & E).
    change (runs (c :: d :: l)) with
      (match runs (d :: l) with
       | (d :: r) :: rs =>
           if Bool.eqb (Py.isalnum c) (Py.isalnum d)
           then (c :: d :: r) :: rs else [c] :: (d :: r) :: rs
       | _ => [[c]]
       end).
    rewrite E.
    destruct (Py.isalnum c) eqn:Hc, (Py.isalnum d) eqn:Hd; simpl;
      rewrite ?Hc, ?Hd; reflexivity.
Qed.

Lemma loop_out_hyphenate l :
  loop_out false l = hyphenate l
  /\ "-"%char :: loop_out true l =
     match l with
     | d :: _ => if Py.isalnum d then "-"%char :: hyphenate l else hyphenate l
     | [] => ["-"%char]
     end.
Proof.
  induction l as [|d l [IH1 IH2]]; [split; reflexivity|].
  rewrite hyphenate_cons. simpl.
  destruct (Py.isalnum d); simpl.
  - rewrite IH1. split; reflexivity.
  - rewrite IH2. split; reflexivity.
Qed.

Lemma slugify_spec value : _slugify value = spec_slug value.
Proof.
  unfold _slugify, spec_slug, spec_hyphenate.
  pose proof (slug_fold (list_ascii_of_string (Py.lower value)) [] false) as H.
  destruct (fold_left slug_step (list_ascii_of_string (Py.lower value)) ([], false))
    as [safe flag].
  simpl in H. rewrite app_empty in H. rewrite H.
  rewrite (proj1 (loop_out_hyphenate _)). reflexivity.
Qed.

Lemma strip_result_not_feature_empty p s :
  (if Py.nonempty (Py.strip_chars p s) then Py.strip_chars p s else "feature") <> "".
Proof. destruct (Py.strip_chars p s); simpl; discriminate. Qed.

Lemma lower_not_alnum s :
  Py.all_chars (fun c => negb (Py.isalnum c)) s = true -> Py.lower s = s.
Proof.
  induction s as [|c s IH]; simpl; [reflexivity|].
  intros [Hc Hs]%andb_true_iff. apply negb_true_iff in Hc.
  rewrite (lower_char_not_alnum _ Hc), (IH Hs). reflexivity.
Qed.

Lemma loop_out_not_alnum s : forall last_dash,
  Py.all_chars (fun c => negb (Py.isalnum c)) s = true ->
  loop_out last_dash (list_ascii_of_string s) =
  if last_dash then []
  else match s with EmptyString => [] | _ => ["-"%char] end.
Proof.
  induction s as [|c s IH]; intros last_dash; simpl.
  - destruct last_dash; reflexivity.
  - intros [Hc Hs]%andb_true_iff. apply negb_true_iff in Hc. rewrite Hc.
    destruct last_dash; simpl; rewrite (IH _ Hs); reflexivity.
Qed.

(** C9.  [_slugify] lower-cases its argument, puts one hyphen in place of
    each maximal run of non-alphanumeric characters, trims the hyphens at
    both ends and gives [feature] where nothing is left; hence
    [Real-Time Alerts!] gives [real-time-alerts], a title without any
    alphanumeric character gives [feature], and no title gives the empty
    string. *)
Theorem slugify_correct :
  (forall value, _slugify value = spec_slug value)
  /\ _slugify "Real-Time Alerts!" = "real-time-alerts"
  /\ (forall value,
        Py.all_chars (fun c => negb (Py.isalnum c)) value = true ->
        _slugify value = "feature")
  /\ (forall value, _slugify value <> "").
Proof.
  split; [exact slugify_spec|].
  split; [reflexivity|].
  split.
  - intros value H. unfold _slugify.
    pose proof (slug_fold (list_ascii_of_string (Py.lower value)) [] false) as E.
    destruct (fold_left slug_step (list_ascii_of_string (Py.lower value)) ([], false))
      as [safe flag].
    simpl in E. rewrite app_empty in E. rewrite E.
    rewrite (lower_not_alnum _ H), (loop_out_not_alnum _ false H).
    destruct value; reflexivity.
  - intros value. unfold _slugify.
    destruct (fold_left slug_step (list_ascii_of_string (Py.lower value)) ([], false))
      as [safe flag].
    apply strip_result_not_feature_empty.
Qed.

Lemma slugify_correct_witness : _slugify "?!... --" = "feature".
Proof. apply (proj1 (proj2 (proj2 slugify_correct))). reflexivity. Defined.

(** ** The iteration identifier *)

Lemma backslash_char_eq c :
  Ascii.eqb c "\" = false ->
  Re.char_eq {| Re.IGNORECASE := true; Re.DOTALL := false |} "\" c = false.
Proof. destruct c as [[] [] [] [] [] [] [] []]; vm_compute; intros; congruence. Qed.

Lemma rmatch_lit_seq {R} fl cs r (k : string -> option string -> option R) :
  (forall s g, contains "\" s = false -> Re.rmatch fl r s g k = None) ->
  forall s g, contains "\" s = false -> Re.rmatch fl (lit_seq cs r) s g k = None.
Proof.
  intros Hr. induction cs as [|c cs IH]; intros s g Hs; simpl; [auto|].
  destruct s as [|x s]; [reflexivity|].
  simpl in Hs. apply orb_false_iff in Hs as [_ Hs].
  destruct (Re.char_eq fl c x); [apply IH, Hs|reflexivity].
Qed.

Lemma iteration_id_pattern_parsed :
  exists r,
    Re.parse iteration_id_pattern
    = Some (lit_seq (list_ascii_of_string "iteration id") (Re.Cat (Re.Atom (Re.Lit "\")) r)).
Proof. eexists. vm_compute. reflexivity. Qed.

Lemma search_no_backslash r plan :
  contains "\" plan = false ->
  Re.search_from {| Re.IGNORECASE := true; Re.DOTALL := false |}
    (lit_seq (list_ascii_of_string "iteration id") (Re.Cat (Re.Atom (Re.Lit "\")) r))
    plan = None.
Proof.
  assert (forall s, contains "\" s = false ->
            Re.rmatch {| Re.IGNORECASE := true; Re.DOTALL := false |}
              (lit_seq (list_ascii_of_string "iteration id")
                 (Re.Cat (Re.Atom (Re.Lit "\")) r)) s None
              (fun _ g => Some {| Re.group1 := g |}) = None) as Hm.
  { intros s Hs. apply rmatch_lit_seq; [|exact Hs].
    clear. intros s g Hs. simpl. destruct s as [|x s]; [reflexivity|].
    simpl in Hs. apply orb_false_iff in Hs as [Hx _].
    rewrite (backslash_char_eq _ Hx). reflexivity. }
  induction plan as [|x plan IH]; intros Hs.
  - cbn [Re.search_from]. rewrite Hm by reflexivity. reflexivity.
  - cbn [Re.search_from]. rewrite (Hm _ Hs).
    simpl in Hs. apply orb_false_iff in Hs as [_ Hs]. apply IH, Hs.
Qed.

(** C4 (the code misses it).  The pattern of [_extract_iteration_id]
    asks for a backslash right after [iteration id]: on a plan without a
    backslash, [Iteration ID: sprint-1] among them, nothing is found,
    while the pattern with the white-space and word classes finds
    [sprint-1]. *)
Theorem extract_iteration_id_needs_backslash :
  (forall plan, contains "\" plan = false -> _extract_iteration_id plan = None)
  /\ _extract_iteration_id "Iteration ID: sprint-1" = None
  /\ extract_with intended_iteration_id_pattern "Iteration ID: sprint-1"
     = Some "sprint-1".
Proof.
  split; [|split; vm_compute; reflexivity].
  intros plan H. unfold _extract_iteration_id, extract_with, Re.search.
  destruct iteration_id_pattern_parsed as [r ->].
  rewrite (search_no_backslash r plan H). reflexivity.
Qed.

Lemma extract_iteration_id_needs_backslash_witness :
  _extract_iteration_id "Sprint plan. iteration id - alpha_2" = None.
Proof. apply (proj1 extract_iteration_id_needs_backslash). reflexivity. Defined.

(** ** Structured output extraction *)


(** Greedy [.*] before a closing character gives back up to the last one. *)
Lemma star_dot_close {R} c (f : string -> R) s :
  Re.star_match (Re.atom_match dotall Re.Dot) s
    (fun rest =>
       match rest with
       | String y r' => if Re.atom_match dotall (Re.Lit c) y then Some (f r') else None
       | EmptyString => None
       end)
  = match after_last c s with Some r => Some (f r) | None => None end.
Proof.
  induction s as [|x s IH]; [reflexivity|].
  cbn [Re.star_match after_last].
  change (Re.atom_match dotall Re.Dot x) with true. cbv iota.
  rewrite IH. destruct (after_last c s); [reflexivity|].
  change (Re.atom_match dotall (Re.Lit c) x) with (Ascii.eqb x c).
  destruct (Ascii.eqb x c); reflexivity.
Qed.

Lemma rmatch_json_span s :
  Re.rmatch dotall json_span_regex s None (fun _ g => Some {| Re.group1 := g |})
  = match span_rest s with
    | Some r =>
        Some {| Re.group1 :=
                  Some (String.substring 0 (String.length s - String.length r) s) |}
    | None => None
    end.
Proof.
  destruct s as [|x s]; [reflexivity|].
  unfold json_span_regex, span_rest. cbn [Re.rmatch].
  change (Re.atom_match dotall (Re.Lit "{") x) with (Ascii.eqb x "{").
  change (Re.atom_match dotall (Re.Lit "[") x) with (Ascii.eqb x "[").
  destruct (Ascii.eqb x "{") eqn:Ho.
  - rewrite (star_dot_close "}"
      (fun r => {| Re.group1 :=
          Some (String.substring 0 (String.length (String x s) - String.length r) (String x s)) |})).
    destruct (after_last "}" s); [reflexivity|].
    apply Ascii.eqb_eq in Ho as ->. reflexivity.
  - destruct (Ascii.eqb x "[") eqn:Hb; [|reflexivity].
    rewrite (star_dot_close "]"
      (fun r => {| Re.group1 :=
          Some (String.substring 0 (String.length (String x s) - String.length r) (String x s)) |})).
    reflexivity.
Qed.

Lemma json_span_pattern_parsed : Re.parse json_span_pattern = Some json_span_regex.
Proof. vm_compute. reflexivity. Qed.

(** The pattern is one group: a match always carries its text. *)
Lemma search_json_span_group s m :
  Re.search_from dotall json_span_regex s = Some m ->
  exists span, Re.group1 m = Some span.
Proof.
  induction s as [|x s IH]; cbn [Re.search_from]; rewrite rmatch_json_span.
  - simpl. discriminate.
  - destruct (span_rest (String x s)); [intros [= <-]; eauto|exact IH].
Qed.




Lemma length_app_str a b : String.length (a +:+ b) = (String.length a + String.length b)%nat.
Proof. induction a as [|x a IH]; [reflexivity|]. rewrite app_cons. simpl. rewrite IH. reflexivity. Qed.

Lemma substring_prefix a b :
  String.substring 0 (String.length (a +:+ b) - String.length b) (a +:+ b) = a.
Proof.
  rewrite length_app_str.
  replace (String.length a + String.length b - String.length b)%nat
    with (String.length a) by lia.
  induction a as [|x a IH]; [destruct b; reflexivity|].
  rewrite app_cons. simpl. rewrite IH. reflexivity.
Qed.




Section Extraction.
Context {J : JsonLib}.


End Extraction.



(** ** External state accessor *)

Section Accessor.
Context {B : Type} {BE : Backend B}.

Lemma call_run who rq (w : World B) :
  call who rq w = (fst (backend_call who rq (backend w)),
                   sent w who rq (snd (backend_call who rq (backend w)))).
Proof. unfold call, sent. destruct (backend_call who rq (backend w)); reflexivity. Qed.

Lemma get_task_run task_id (w : World B) :
  let rq := Request "GET" ("tasks/" +:+ task_id) None in
  _get_task task_id w =
  (match fst (backend_call client rq (backend w)) with
   | Raise (APIError status_code body) =>
       if Z.eqb status_code 404 then Ok JNull else Raise (APIError status_code body)
   | r => r
   end,
   sent w client rq (snd (backend_call client rq (backend w)))).
Proof.
  intros rq. unfold _get_task, try_except. rewrite call_run. fold rq.
  destruct (fst (backend_call client rq (backend w))) as [v|[]]; try reflexivity.
  unfold ret, raise. destruct (Z.eqb status_code 404); reflexivity.
Qed.

(** C7.  A lookup that the backend answers with 404 gives the absent value
    and any other [APIError] goes up to the caller, as does any other
    exception, and an answer is returned as it is.  [ensure_workshop_task]
    posts the item with the given fields when the lookup gave the absent
    value, the post being its second and last request; otherwise the lookup
    is the only request made: it returns the item that the lookup gave, and
    an error of the lookup goes up. *)
Theorem get_task_and_ensure_workshop_task (w : World B) (task_id : string) :
  let rq := Request "GET" ("tasks/" +:+ task_id) None in
  (forall body b',
      backend_call client rq (backend w) = (Raise (APIError 404 body), b') ->
      _get_task task_id w = (Ok JNull, sent w client rq b'))
  /\ (forall status_code body b',
        status_code <> 404%Z ->
        backend_call client rq (backend w) = (Raise (APIError status_code body), b') ->
        _get_task task_id w = (Raise (APIError status_code body), sent w client rq b'))
  /\ (forall title preset description w1,
        _get_task task_id w = (Ok JNull, w1) ->
        ensure_workshop_task task_id title preset description w
        = call client
            (Request "POST" "tasks"
               (Some (workshop_body task_id title preset description))) w1)
  /\ (forall title preset description task w1,
        task <> JNull ->
        _get_task task_id w = (Ok task, w1) ->
        ensure_workshop_task task_id title preset description w = (Ok task, w1)
        /\ requests w1 = requests w ++ [(client, rq)])
  /\ (forall title preset description e w1,
        _get_task task_id w = (Raise e, w1) ->
        ensure_workshop_task task_id title preset description w = (Raise e, w1)
        /\ requests w1 = requests w ++ [(client, rq)])
  /\ (forall title preset description w1,
        _get_task task_id w = (Ok JNull, w1) ->
        requests (snd (ensure_workshop_task task_id title preset description w))
        = requests w
          ++ [(client, rq);
              (client, Request "POST" "tasks"
                         (Some (workshop_body task_id title preset description)))])
  /\ (forall task b',
        backend_call client rq (backend w) = (Ok task, b') ->
        _get_task task_id w = (Ok task, sent w client rq b'))
  /\ (forall e b',
        (forall status_code body, e <> APIError status_code body) ->
        backend_call client rq (backend w) = (Raise e, b') ->
        _get_task task_id w = (Raise e, sent w client rq b')).
Proof.
  intros rq. repeat apply conj.
  - intros body b' E. rewrite get_task_run. fold rq. rewrite E. reflexivity.
  - intros status_code body b' Hne E. rewrite get_task_run. fold rq. rewrite E.
    simpl. destruct (Z.eqb_spec status_code 404); [contradiction|reflexivity].
  - intros title preset description w1 E.
    unfold ensure_workshop_task, bind. rewrite E. reflexivity.
  - intros title preset description task w1 Hpresent E. split.
    + unfold ensure_workshop_task, bind. rewrite E.
      destruct task; try reflexivity. contradiction.
    + rewrite get_task_run in E. injection E as _ <-. reflexivity.
  - intros title preset description e w1 E. split.
    + unfold ensure_workshop_task, bind. rewrite E. reflexivity.
    + rewrite get_task_run in E. injection E as _ <-. reflexivity.
  - intros title preset description w1 E.
    unfold ensure_workshop_task, bind. rewrite E. rewrite call_run.
    rewrite get_task_run in E. injection E as _ <-.
    cbn [snd sent requests]. rewrite <- app_assoc. reflexivity.
  - intros task b' E. rewrite get_task_run. fold rq. rewrite E. reflexivity.
  - intros e b' Hne E. rewrite get_task_run. fold rq. rewrite E.
    destruct e; try reflexivity. destruct (Hne status_code body eq_refl).
Qed.

End Accessor.

(** The same through closed runs: on the reference store an unknown id is
    absent and an item that exists is returned after the lookup alone; on a
    backend that is out of service the error of the lookup goes up and
    nothing is posted. *)
Lemma get_task_and_ensure_workshop_task_witness :
  let st : gmap string (list (string * json)) :=
    {[ "workshop-decision" := [("id", JStr "workshop-decision"); ("title", JStr "Kept")] ]} in
  let down : World unit := start_world tt [] in
  fst (_get_task "missing" (start_world st [])) = Ok JNull
  /\ fst (ensure_workshop_task "workshop-decision" "Decision workshop"
            "workshop.decision" "Capture key trade-offs and decisions."
            (start_world st []))
     = Ok (JObj [("id", JStr "workshop-decision"); ("title", JStr "Kept")])
  /\ requests (snd (ensure_workshop_task "workshop-decision" "Decision workshop"
            "workshop.decision" "Capture key trade-offs and decisions."
            (start_world st [])))
     = [(client, Request "GET" "tasks/workshop-decision" None)]
  /\ fst (ensure_workshop_task (Backend0 := out_of_service) "workshop-decision"
            "Decision workshop" "workshop.decision"
            "Capture key trade-offs and decisions." down)
     = Raise (APIError 503 (JObj [("error", JStr "unavailable")]))
  /\ requests (snd (ensure_workshop_task (Backend0 := out_of_service) "workshop-decision"
            "Decision workshop" "workshop.decision"
            "Capture key trade-offs and decisions." down))
     = [(client, Request "GET" "tasks/workshop-decision" None)].
Proof.
  intros st down.
  pose proof (get_task_and_ensure_workshop_task (start_world st []) "missing") as H1.
  pose proof (get_task_and_ensure_workshop_task (start_world st []) "workshop-decision")
    as (_ & _ & _ & H2 & _).
  pose proof (get_task_and_ensure_workshop_task (BE := out_of_service)
                down "workshop-decision") as (_ & _ & _ & _ & H3 & _).
  specialize (H2 "Decision workshop" "workshop.decision"
    "Capture key trade-offs and decisions."
    (JObj [("id", JStr "workshop-decision"); ("title", JStr "Kept")])
    (sent (start_world st []) client (Request "GET" "tasks/workshop-decision" None) st)
    ltac:(discriminate) ltac:(reflexivity)).
  specialize (H3 "Decision workshop" "workshop.decision"
    "Capture key trade-offs and decisions."
    (APIError 503 (JObj [("error", JStr "unavailable")]))
    (sent down client
       (Request "GET" "tasks/workshop-decision" None) tt)
    ltac:(reflexivity)).
  split; [|split; [|split; [|split]]].
  - rewrite (proj1 H1 (JObj [("error", JStr "not found")]) st); reflexivity.
  - rewrite (proj1 H2). reflexivity.
  - rewrite (proj1 H2). reflexivity.
  - rewrite (proj1 H3). reflexivity.
  - rewrite (proj1 H3). reflexivity.
Defined.

(** ** Human interaction gate *)

Section Gate.
Context {B : Type} {BE : Backend B}.

Lemma print_run text (w : World B) :
  print text w = (Ok tt, with_io w (stdin w) (stdout w ++ [text])).
Proof. reflexivity. Qed.

Lemma print_options_run options : forall idx (w : World B),
  exists out, print_options idx options w = (Ok tt, with_io w (stdin w) out).
Proof.
  induction options as [|opt options IH]; intros idx w.
  - exists (stdout w). destruct w; reflexivity.
  - destruct (IH (S idx) (with_io w (stdin w)
        (stdout w ++ [str_of_nat idx +:+ ". " +:+ opt +:+ nl]))) as [out Hout].
    exists out. cbn [print_options]. unfold bind at 1. rewrite print_run.
    rewrite Hout. reflexivity.
Qed.

Lemma nonempty_strip_line line :
  Py.nonempty (Py.strip line) = true -> String.eqb line "" = false.
Proof. destruct line; [discriminate|reflexivity]. Qed.

(** Where [log_conversation] returns, its last request is the append of
    the entry. *)
Lemma log_conversation_request question answer (w w' : World B) :
  log_conversation question answer w = (Ok tt, w') ->
  exists task_id ts,
    last (requests w') = Some (client,
      AppendWorkOutcomes task_id "conversation" (conversation_entry ts question answer)).
Proof.
  unfold log_conversation, append_workshop_conversation.
  unfold bind at 1. unfold get_world at 1.
  unfold bind at 1.
  destruct ((match CURRENT_WORKSHOP_ID w with
             | Some _ => ret ()
             | None => ensure_problem_refinement_task;;; ret ()
             end) w) as [[[]|e] w1]; [|discriminate].
  unfold bind at 1. unfold get_world at 1.
  unfold bind at 1. unfold now_isoformat at 1.
  unfold bind at 1. rewrite call_run.
  destruct (fst (backend_call _ _ _)); [|discriminate].
  unfold ret. intros [= <-]. do 2 eexists.
  unfold sent, requests at 1. rewrite last_snoc. reflexivity.
Qed.

(** C5 (as amended).  When the answer is the number of a listed option
    whose text starts with "other" in any letter case, and the line read
    for the detail is blank, the gate logs and returns the text of the
    selected option. *)
Theorem ask_other_with_blank_detail (w : World B) (question : string)
    (options : list string) (line detail_line : string) (rest : list string)
    (choice : Z) :
  HUMAN_REVIEW_MODE w = "interactive" ->
  stdin_isatty w = true ->
  stdin w = line :: detail_line :: rest ->
  Py.nonempty (Py.strip line) = true ->
  Py.isdigit (Py.strip line) = true ->
  py_int (Py.strip line) = Some choice ->
  (1 <= choice <= Z.of_nat (length options))%Z ->
  Py.startswith (Py.lower (nth (Z.to_nat (choice - 1)) options "")) "other" = true ->
  Py.strip (chomp detail_line) = "" ->
  let selected := nth (Z.to_nat (choice - 1)) options "" in
  (exists out,
      ask_human_question_local question (Some options) w
      = (log_conversation question selected ;;; ret selected) (with_io w rest out))
  /\ (forall x w',
        ask_human_question_local question (Some options) w = (Ok x, w') ->
        x = selected
        /\ exists task_id ts,
             last (requests w') = Some (client,
               AppendWorkOutcomes task_id "conversation"
                 (conversation_entry ts question selected))).
Proof.
  intros Hmode Htty Hin Hne Hdig Hint Hrange Hother Hblank selected.
  assert (has_options (Some options) = true) as Hopts.
  { destruct options; [simpl in Hrange; lia|reflexivity]. }
  assert (exists out,
      ask_human_question_local question (Some options) w
      = (log_conversation question selected ;;; ret selected) (with_io w rest out)) as Hrun.
  { unfold ask_human_question_local.
    unfold bind at 1. unfold get_world at 1. rewrite Hmode, Htty.
    cbn [String.eqb Ascii.eqb Bool.eqb negb].
    unfold bind at 1. rewrite print_run.
    unfold bind at 1. rewrite print_run.
    unfold bind at 1. rewrite Hopts.
    match goal with
    | |- context [print_options 1 ?o ?w0] =>
        destruct (print_options_run o 1 w0) as [out Hout]; rewrite Hout
    end.
    unfold bind at 1. unfold get_world at 1.
    cbn [stdin with_io]. rewrite Hin.
    cbn [ask_loop]. unfold bind at 1. rewrite print_run.
    unfold bind at 1. unfold set_stdin at 1.
    rewrite (nonempty_strip_line _ Hne), Hne, Hopts, Hdig, Hint.
    cbn [andb options_list].
    destruct (Z.leb_spec 1 choice) as [_|]; [|lia].
    destruct (Z.leb_spec choice (Z.of_nat (length options))) as [_|]; [|lia].
    cbn [andb]. fold selected. fold selected in Hother. rewrite Hother.
    unfold bind at 1. unfold input. unfold bind at 1. rewrite print_run.
    cbn [stdin with_io]. rewrite Hblank. cbn [Py.nonempty].
    eexists. reflexivity. }
  split; [exact Hrun|].
  intros x w' Hx. destruct Hrun as [out Hrun]. rewrite Hrun in Hx.
  unfold bind in Hx.
  destruct (log_conversation question selected (with_io w rest out)) as [[[]|e] w1] eqn:Hlog;
    [|discriminate].
  unfold ret in Hx. injection Hx as <- <-.
  split; [reflexivity|]. exact (log_conversation_request _ _ _ _ Hlog).
Qed.

End Gate.

(** ** Invariants along a run *)

Section Invariants.
Context {B : Type} {BE : Backend B}.
Variable Inv : B -> list (string * string) -> Prop.
Variable safe : request -> Prop.
Variable okcall : string -> string -> Prop.
Hypothesis Inv_call : forall who rq b calls,
  safe rq -> Inv b calls -> Inv (snd (backend_call who rq b)) calls.
Hypothesis Inv_model : forall sys user b calls,
  okcall sys user -> Inv b calls -> Inv b (calls ++ [(sys, user)]).
Hypothesis safe_request : forall method path body, safe (Request method path body).
Hypothesis safe_conversation : forall t v, safe (AppendWorkOutcomes t "conversation" v).

Lemma pres_ret {A} (a : A) : preserves Inv (ret (B:=B) a).
Proof. intros w H. exact H. Qed.

Lemma pres_raise {A} e : preserves Inv (raise (B:=B) (A:=A) e).
Proof. intros w H. exact H. Qed.

Lemma pres_lift {A} (r : result A) : preserves Inv (lift (B:=B) r).
Proof. intros w H. exact H. Qed.

Lemma pres_bind {A C} (m : M B A) (k : A -> M B C) :
  preserves Inv m -> (forall a, preserves Inv (k a)) -> preserves Inv (bind m k).
Proof.
  intros Hm Hk w H. unfold bind. specialize (Hm w H).
  destruct (m w) as [[a|e] w1]; simpl in *; [apply Hk, Hm|exact Hm].
Qed.

Lemma pres_try {A} (m : M B A) (h : exn -> M B A) :
  preserves Inv m -> (forall e, preserves Inv (h e)) -> preserves Inv (try_except m h).
Proof.
  intros Hm Hh w H. unfold try_except. specialize (Hm w H).
  destruct (m w) as [[a|e] w1]; simpl in *; [exact Hm|apply Hh, Hm].
Qed.

Lemma pres_call who rq : safe rq -> preserves Inv (call who rq).
Proof. intros Hs w H. rewrite call_run. apply Inv_call; assumption. Qed.

Lemma pres_print text : preserves Inv (print (B:=B) text).
Proof. intros w H. exact H. Qed.

Lemma pres_set_stdin lines : preserves Inv (set_stdin (B:=B) lines).
Proof. intros w H. exact H. Qed.

Lemma pres_now : preserves Inv (now_isoformat (B:=B)).
Proof. intros w H. exact H. Qed.

Lemma pres_get_world : preserves Inv (get_world (B:=B)).
Proof. intros w H. exact H. Qed.

Lemma pres_set_current_workshop id : preserves Inv (set_current_workshop (B:=B) id).
Proof. intros w H. exact H. Qed.

Lemma pres_log_model_call sys user :
  okcall sys user -> preserves Inv (log_model_call (B:=B) sys user).
Proof. intros Hok w H. apply Inv_model; assumption. Qed.

Ltac pres_simple :=
  repeat first
    [ apply pres_ret | apply pres_raise | apply pres_lift | apply pres_print
    | apply pres_set_stdin | apply pres_now | apply pres_get_world
    | apply pres_set_current_workshop
    | apply pres_call; solve [auto]
    | apply pres_log_model_call; solve [auto]
    | apply pres_bind; [|intros ?]
    | apply pres_try; [|intros ?]
    | match goal with
      | |- preserves _ (if ?c then _ else _) => destruct c
      | |- preserves _ (match ?x with _ => _ end) => destruct x
      end
    | assumption ].

Lemma pres_get_task task_id : preserves Inv (_get_task task_id).
Proof. unfold _get_task. pres_simple. Qed.

Lemma pres_ensure_workshop_task task_id title preset description :
  preserves Inv (ensure_workshop_task task_id title preset description).
Proof. unfold ensure_workshop_task. apply pres_bind; [apply pres_get_task|]. intros ?. pres_simple. Qed.

Lemma pres_ensure_problem_refinement_task :
  preserves Inv ensure_problem_refinement_task.
Proof.
  unfold ensure_problem_refinement_task, _ensure_problem_refinement_task_exists,
    _create_problem_refinement_task.
  apply pres_bind; [|intros ?; pres_simple].
  apply pres_bind; [apply pres_get_task|]. intros ?. pres_simple.
Qed.

Lemma pres_append_workshop_conversation task_id question answer :
  preserves Inv (append_workshop_conversation task_id question answer).
Proof. unfold append_workshop_conversation. pres_simple. Qed.

Lemma pres_get_workshop_output task_id : preserves Inv (get_workshop_output task_id).
Proof.
  unfold get_workshop_output. apply pres_bind; [apply pres_get_task|]. intros ?.
  pres_simple.
Qed.

Lemma pres_set_workshop_output task_id output :
  safe (PutWorkOutcomes task_id "output" (JStr output)) ->
  safe (PutWorkOutcomes task_id "summary" (JStr output)) ->
  preserves Inv (set_workshop_output task_id output).
Proof.
  intros H1 H2. unfold set_workshop_output.
  apply pres_bind; [apply pres_call, H1|]. intros ?.
  apply pres_bind; [apply pres_call, H2|]. intros ?.
  apply pres_append_workshop_conversation.
Qed.

Lemma pres_log_conversation question answer :
  preserves Inv (log_conversation question answer).
Proof.
  unfold log_conversation.
  apply pres_bind; [apply pres_get_world|]. intros w0.
  apply pres_bind.
  { destruct (CURRENT_WORKSHOP_ID w0); [apply pres_ret|].
    apply pres_bind; [apply pres_ensure_problem_refinement_task|]. intros ?. apply pres_ret. }
  intros ?. apply pres_bind; [apply pres_get_world|]. intros w1.
  apply pres_append_workshop_conversation.
Qed.

Lemma pres_print_options options : forall idx, preserves Inv (print_options (B:=B) idx options).
Proof.
  induction options as [|opt options IH]; intros idx; cbn [print_options].
  - apply pres_ret.
  - apply pres_bind; [apply pres_print|]. intros ?. apply IH.
Qed.

Lemma pres_input prompt : preserves Inv (input (B:=B) prompt).
Proof.
  unfold input. apply pres_bind; [apply pres_print|]. intros ? w H.
  destruct (stdin w); exact H.
Qed.

Lemma pres_ask_loop question options lines :
  preserves Inv (ask_loop question options lines).
Proof.
  induction lines as [|line rest IH]; cbn [ask_loop].
  - pres_simple.
  - apply pres_bind; [apply pres_print|]. intros ?.
    apply pres_bind; [apply pres_set_stdin|]. intros ?.
    destruct (String.eqb line ""); [apply pres_raise|].
    assert (forall ans, preserves Inv (log_conversation question ans;;; ret ans)) as Hlog.
    { intros ans. apply pres_bind; [apply pres_log_conversation|]. intros ?. apply pres_ret. }
    destruct (Py.nonempty (Py.strip line)).
    + destruct (has_options options && Py.isdigit (Py.strip line)); [|apply Hlog].
      destruct (py_int (Py.strip line)); [|apply pres_raise].
      match goal with |- preserves _ (if ?c then _ else _) => destruct c end; [|apply Hlog].
      match goal with |- preserves _ (if ?c then _ else _) => destruct c end; [|apply Hlog].
      apply pres_bind; [apply pres_input|]. intros detail.
      destruct (Py.nonempty (Py.strip detail)); apply Hlog.
    + apply pres_bind; [apply pres_print|]. intros ?. apply IH.
Qed.

Lemma pres_ask_human_question_local question options :
  preserves Inv (ask_human_question_local question options).
Proof.
  unfold ask_human_question_local.
  apply pres_bind; [apply pres_get_world|]. intros w0.
  destruct (String.eqb (HUMAN_REVIEW_MODE w0) "interactive"); [|apply pres_raise].
  destruct (negb (stdin_isatty w0)); [apply pres_raise|].
  apply pres_bind; [apply pres_print|]. intros ?.
  apply pres_bind; [apply pres_print|]. intros ?.
  apply pres_bind.
  { destruct (has_options options); [apply pres_print_options|apply pres_ret]. }
  intros ?. apply pres_bind; [apply pres_get_world|]. intros w1.
  apply pres_ask_loop.
Qed.

Lemma pres_run_agent_loop a : preserves Inv (run_agent_loop (B:=B) a).
Proof.
  induction a as [r|question options k IH]; cbn [run_agent_loop].
  - apply pres_lift.
  - intros w H.
    pose proof (pres_ask_human_question_local question options w H) as H1.
    destruct (ask_human_question_local question options w) as [r w1].
    apply IH, H1.
Qed.

Lemma pres_run_agent model sys user tools :
  okcall sys user -> preserves Inv (_run_agent (B:=B) model sys user tools).
Proof.
  intros Hok. unfold _run_agent.
  apply pres_bind; [apply pres_log_model_call, Hok|]. intros n.
  destruct tools; [apply pres_lift|apply pres_run_agent_loop].
Qed.

(** The first block keeps the invariant when its model call and its two
    writes do. *)
Lemma pres_initial_phase model problem_statement discovery :
  okcall discovery_system_prompt problem_statement ->
  (forall v, safe (PutWorkOutcomes "problem-refinement" "output" v)) ->
  (forall v, safe (PutWorkOutcomes "problem-refinement" "summary" v)) ->
  preserves Inv (initial_phase model problem_statement discovery).
Proof.
  intros Hok H1 H2. unfold initial_phase.
  destruct (initial_missing discovery); [|apply pres_ret].
  apply pres_bind; [apply pres_get_workshop_output|]. intros out.
  apply pres_bind; [|intros ?; apply pres_ret].
  destruct (is_falsy out); [|apply pres_ret].
  apply pres_bind; [apply pres_set_current_workshop|]. intros ?.
  apply pres_bind; [apply pres_run_agent, Hok|]. intros text.
  apply pres_bind; [apply pres_set_current_workshop|]. intros ?.
  apply pres_bind; [apply pres_set_workshop_output; auto|]. intros ?.
  apply pres_ret.
Qed.

Lemma pres_later_phase model key task_id phase_name context discovery :
  okcall (phase_system_prompt phase_name) context ->
  okcall (next_steps_system_prompt phase_name) context ->
  (forall k v, safe (PutWorkOutcomes task_id k v)) ->
  preserves Inv (later_phase model key task_id phase_name context discovery).
Proof.
  intros Hok1 Hok2 Hput. unfold later_phase.
  destruct (discovery !! key); [apply pres_ret|].
  apply pres_bind; [apply pres_get_workshop_output|]. intros out.
  apply pres_bind; [|intros ?; apply pres_ret].
  destruct (is_falsy out); [|apply pres_ret].
  apply pres_bind; [apply pres_set_current_workshop|]. intros ?.
  apply pres_bind; [apply pres_run_agent, Hok1|]. intros text.
  apply pres_bind; [apply pres_set_current_workshop|]. intros ?.
  apply pres_bind; [apply pres_set_workshop_output; auto|]. intros ?.
  apply pres_bind; [apply pres_run_agent, Hok2|]. intros steps.
  apply pres_bind; [apply pres_call, Hput|]. intros ?.
  apply pres_ret.
Qed.

Lemma pres_later_phases model context discovery :
  (forall name, okcall (phase_system_prompt name) context) ->
  (forall name, okcall (next_steps_system_prompt name) context) ->
  (forall t k v, safe (PutWorkOutcomes t k v)) ->
  preserves Inv (later_phases model context discovery).
Proof.
  intros H1 H2 H3. unfold later_phases.
  repeat (apply pres_bind; [apply pres_later_phase; auto|intros ?]).
  apply pres_ret.
Qed.

(** One step of a run: the invariant passes through [m], and what is to
    be shown of the run holds when [m] raises and when it returns. *)
Lemma run_step {A C} (m : M B A) (k : A -> M B C) (G : result C * World B -> Prop) :
  preserves Inv m ->
  (forall e w1, holds Inv w1 -> G (Raise e, w1)) ->
  (forall a w1, holds Inv w1 -> G (k a w1)) ->
  forall w, holds Inv w -> G (bind m k w).
Proof.
  intros Hm Hraise Hok w H. unfold bind. specialize (Hm w H).
  destruct (m w) as [[a|e] w1]; simpl in Hm; auto.
Qed.

(** *** Triples *)

Lemma triple_bind {A C} (m : M B A) (k : A -> M B C) (Q1 : A -> Prop) (Q2 : C -> Prop) :
  triple Inv m Q1 -> (forall a, Q1 a -> triple Inv (k a) Q2) -> triple Inv (bind m k) Q2.
Proof.
  intros Hm Hk w H. unfold bind. destruct (Hm w H) as [H1 Hv].
  destruct (m w) as [[a|e] w1]; simpl in *.
  - apply (Hk a (Hv a eq_refl) w1 H1).
  - split; [exact H1|discriminate].
Qed.

Lemma triple_ret {A} (a : A) (Q : A -> Prop) : Q a -> triple Inv (ret (B:=B) a) Q.
Proof. intros HQ w H. split; [exact H|]. simpl. intros ? [= <-]. exact HQ. Qed.

Lemma bind_fst_ok {A C} (m : M B A) (k : A -> M B C) (w : World B) (c : C) :
  fst (bind m k w) = Ok c ->
  exists a w1, m w = (Ok a, w1) /\ fst (k a w1) = Ok c.
Proof.
  unfold bind. destruct (m w) as [[a|e] w1]; simpl; [eauto|discriminate].
Qed.

(** A block that keeps the invariant returns the map it was given, or
    that map with its own key set. *)
Lemma triple_initial_phase model problem_statement discovery :
  preserves Inv (initial_phase model problem_statement discovery) ->
  triple Inv (initial_phase model problem_statement discovery)
    (fun d => forall key, key <> "initial" -> d !! key = discovery !! key).
Proof.
  intros Hp w H. split; [apply Hp, H|].
  unfold initial_phase. destruct (initial_missing discovery).
  - intros d E.
    apply bind_fst_ok in E as (out & w1 & _ & E).
    apply bind_fst_ok in E as (text & w2 & _ & E).
    simpl in E. injection E as <-.
    intros key Hkey. apply lookup_insert_ne. congruence.
  - simpl. intros d [= <-]. reflexivity.
Qed.

Lemma triple_later_phase model key task_id phase_name context discovery :
  preserves Inv (later_phase model key task_id phase_name context discovery) ->
  triple Inv (later_phase model key task_id phase_name context discovery)
    (fun d => forall key', key' <> key -> d !! key' = discovery !! key').
Proof.
  intros Hp w H. split; [apply Hp, H|].
  unfold later_phase. destruct (discovery !! key).
  - simpl. intros d [= <-]. reflexivity.
  - intros d E.
    apply bind_fst_ok in E as (out & w1 & _ & E).
    apply bind_fst_ok in E as (text & w2 & _ & E).
    simpl in E. injection E as <-.
    intros key' Hkey. apply lookup_insert_ne. congruence.
Qed.

End Invariants.

(** ** Discovery: the context of the later phases *)

Section Contexts.
Context {B : Type} {BE : Backend B}.

Lemma continue_discovery_blocks model problem_statement existing :
  continue_discovery (B:=B) model problem_statement existing =
  (ensure_workshop_task "problem-refinement" "Problem refinement"
     "workshop.problem_refinement"
     "Refine the problem statement and clarify scope." ;;;
   ensure_workshop_task "workshop-eventstorming" "Event storming"
     "workshop.eventstorming" "Map domain events and flows." ;;;
   ensure_workshop_task "workshop-decision" "Decision workshop"
     "workshop.decision" "Capture key trade-offs and decisions." ;;;
   ensure_workshop_task "workshop-clarify" "Clarification workshop"
     "workshop.clarify" "Resolve open questions and assumptions." ;;;
   let! discovery := initial_phase model problem_statement (start_map existing) in
   later_phases model (discovery_context problem_statement discovery) discovery).
Proof. reflexivity. Qed.

Lemma later_phases_keep_initial Inv model context discovery :
  preserves Inv (later_phases (B:=B) model context discovery) ->
  triple Inv (later_phases model context discovery)
    (fun d => d !! "initial" = discovery !! "initial").
Proof.
  intros Hp w H. split; [apply Hp, H|].
  unfold later_phases. intros d E.
  apply bind_fst_ok in E as (d1 & w1 & E1 & E).
  apply bind_fst_ok in E as (d2 & w2 & E2 & E).
  apply bind_fst_ok in E as (d3 & w3 & E3 & E).
  simpl in E. injection E as <-.
  assert (forall key tid name d0 d' (w0 w' : World B),
            key <> "initial" ->
            later_phase model key tid name context d0 w0 = (Ok d', w') ->
            d' !! "initial" = d0 !! "initial") as Hkeep.
  { clear. intros key tid name d0 d' w0 w' Hkey E.
    unfold later_phase in E. destruct (d0 !! key).
    - injection E as <- _. reflexivity.
    - apply (f_equal fst) in E. simpl in E.
      apply bind_fst_ok in E as (out & w1 & _ & E).
      apply bind_fst_ok in E as (text & w2 & _ & E).
      simpl in E. injection E as <-. apply lookup_insert_ne. congruence. }
  rewrite (Hkeep "clarify" _ _ _ _ _ _ ltac:(discriminate) E3).
  rewrite (Hkeep "decision_workshop" _ _ _ _ _ _ ltac:(discriminate) E2).
  apply (Hkeep "event_storming" _ _ _ _ _ _ ltac:(discriminate) E1).
Qed.

(** C2 (as amended).  The context handed to the runner of a later phase
    holds the problem statement and the initial refinement, nothing else: it
    is one text, computed once after the first phase, and every call that
    a run makes other than the discovery call on the problem statement has
    it as input.  The outputs of event storming and of the decision
    workshop are not part of it. *)
Theorem continue_discovery_one_context (model : ChatOpenAI)
    (problem_statement : string) (existing : option (gmap string string))
    (w : World B) :
  one_context problem_statement (model_calls w)
    (continue_discovery model problem_statement existing w).
Proof.
  rewrite continue_discovery_blocks.
  set (base := model_calls w).
  set (IA := @calls_since base (fun c => c = (discovery_system_prompt, problem_statement)) B).
  assert (holds IA w) as H0.
  { exists []. split; [symmetry; apply app_nil_r|constructor]. }
  assert (forall e w1, holds IA w1 ->
            one_context problem_statement base (Raise e, w1)
            (B:=B)) as Hraise.
  { intros e w1 (new & E & Hall). exists new, "". split; [exact E|].
    split; [|simpl; intros; discriminate]. eapply Forall_impl; [exact Hall|]. intros c ->. left. reflexivity. }
  pose proof (fun A (m : M B A) =>
    @run_step B IA A (gmap string string) m) as Step.
  assert (forall tid title preset description,
            preserves IA (ensure_workshop_task (B:=B) tid title preset description)) as Hens.
  { intros. apply (pres_ensure_workshop_task IA (fun _ => True)); auto. }
  apply Step; [apply Hens|exact Hraise| |exact H0]. intros _ w1 H1.
  apply Step; [apply Hens|exact Hraise| |exact H1]. intros _ w2 H2.
  apply Step; [apply Hens|exact Hraise| |exact H2]. intros _ w3 H3.
  apply Step; [apply Hens|exact Hraise| |exact H3]. intros _ w4 H4.
  apply Step; [|exact Hraise| |exact H4].
  { apply (pres_initial_phase IA (fun _ => True)
             (fun sys user => (sys, user) = (discovery_system_prompt, problem_statement)));
      try solve [auto].
    intros sys user b calls Hok (new & -> & Hall).
    exists (new ++ [(sys, user)]). split; [symmetry; apply app_assoc|].
    apply Forall_app. split; [exact Hall|]. constructor; [exact Hok|constructor]. }
  intros d1 w5 (new1 & E1 & Hall1).
  set (ctx := discovery_context problem_statement d1).
  set (IB := @calls_since base
               (fun c => c = (discovery_system_prompt, problem_statement) \/ snd c = ctx) B).
  assert (holds IB w5) as H5.
  { exists new1. split; [exact E1|].
    eapply Forall_impl; [exact Hall1|]. intros c ->. left. reflexivity. }
  assert (preserves IB (later_phases model ctx d1)) as Hpres.
  { apply (pres_later_phases IB (fun _ => True) (fun sys user => user = ctx));
      try solve [auto].
    intros sys user b calls Hok (new & -> & Hall).
    exists (new ++ [(sys, user)]). split; [symmetry; apply app_assoc|].
    apply Forall_app. split; [exact Hall|].
    constructor; [right; exact Hok|constructor]. }
  destruct (later_phases_keep_initial IB model ctx d1 Hpres w5 H5) as [(new & E & Hall) Hval].
  exists new, ctx. split; [exact E|]. split; [exact Hall|].
  intros d Hd. apply Hval in Hd. unfold ctx, discovery_context. rewrite Hd. reflexivity.
Qed.

End Contexts.

(** ** Discovery: a phase whose output is already stored *)

Lemma assoc_assoc_set_eq key v items : assoc key (assoc_set key v items) = Some v.
Proof.
  induction items as [|[k x] items IH]; simpl.
  - rewrite String.eqb_refl. reflexivity.
  - destruct (String.eqb k key) eqn:E; simpl; rewrite E; [reflexivity|exact IH].
Qed.

Lemma assoc_assoc_set_ne key key' v items :
  key' <> key -> assoc key' (assoc_set key v items) = assoc key' items.
Proof.
  intros Hne. induction items as [|[k x] items IH]; simpl.
  - destruct (String.eqb_spec key key'); [congruence|reflexivity].
  - destruct (String.eqb_spec k key) as [->|Hk]; simpl.
    + destruct (String.eqb_spec key key'); [congruence|reflexivity].
    + destruct (String.eqb k key'); [reflexivity|exact IH].
Qed.

Lemma outcomes_put_outcome key v task :
  Store.outcomes (Store.put_outcome key v task) = assoc_set key v (Store.outcomes task).
Proof. unfold Store.put_outcome, Store.outcomes at 1. rewrite assoc_assoc_set_eq. reflexivity. Qed.

Lemma strip_prefix_app pre s : strip_prefix pre (pre +:+ s) = Some s.
Proof.
  induction pre as [|a pre IH]; [destruct s; reflexivity|].
  rewrite app_cons. simpl. rewrite Ascii.eqb_refl. exact IH.
Qed.

(** The reference backend leaves the output of [T] alone on any request
    that is not a write to that field. *)
Lemma store_spares_output T s who rq (st : gmap string (list (string * json))) :
  spares_output T rq ->
  Store.output st T = Some s ->
  Store.output (snd (Store.handle who rq st)) T = Some s.
Proof.
  intros Hsafe Hout. destruct rq as [method path body|t k v|t k v]; unfold Store.handle.
  - destruct (String.eqb method "GET").
    + destruct (strip_prefix "tasks/" path) as [id|]; [|exact Hout].
      destruct (st !! id); exact Hout.
    + destruct (String.eqb method "POST" && String.eqb path "tasks"); [|exact Hout].
      destruct body as [[]|]; try exact Hout.
      destruct (assoc "id" items) as [[]|]; try exact Hout.
      destruct (st !! s0) eqn:E; [exact Hout|]. cbn [snd].
      unfold Store.output in *. rewrite lookup_insert_ne; [exact Hout|].
      intros ->. rewrite E in Hout. discriminate.
  - destruct (st !! t) as [task|] eqn:E; [|exact Hout]. cbn [snd].
    unfold Store.output in *. destruct (decide (t = T)) as [->|Hne].
    + rewrite lookup_insert_eq. rewrite E in Hout.
      rewrite outcomes_put_outcome, assoc_assoc_set_ne; [exact Hout|].
      destruct Hsafe as [?|?]; congruence.
    + rewrite lookup_insert_ne by exact Hne. exact Hout.
  - destruct (st !! t) as [task|] eqn:E; [|exact Hout]. cbn [snd].
    unfold Store.output in *. destruct (decide (t = T)) as [->|Hne].
    + rewrite lookup_insert_eq. rewrite E in Hout.
      unfold Store.append_outcome.
      rewrite outcomes_put_outcome, assoc_assoc_set_ne; [exact Hout|].
      destruct Hsafe as [?|?]; congruence.
    + rewrite lookup_insert_ne by exact Hne. exact Hout.
Qed.

Lemma calls_with_snoc sys sys' user calls :
  sys' <> sys -> calls_with sys (calls ++ [(sys', user)]) = calls_with sys calls.
Proof.
  intros Hne. unfold calls_with. rewrite filter_app.
  rewrite filter_cons_False by (simpl; exact Hne).
  rewrite filter_nil. apply app_nil_r.
Qed.

(** Reading the output of a work-item that the store holds. *)
Lemma get_workshop_output_stored T s (w : World (gmap string (list (string * json)))) :
  Store.output (backend w) T = Some s ->
  Py.nonempty (Py.strip s) = true ->
  get_workshop_output T w
  = (Ok (Some s), sent w client (Request "GET" ("tasks/" +:+ T) None) (backend w)).
Proof.
  intros Hout Hs. unfold get_workshop_output. unfold bind at 1. rewrite get_task_run.
  unfold backend_call, store_backend, Store.handle.
  cbn [String.eqb Ascii.eqb Bool.eqb]. rewrite strip_prefix_app.
  unfold Store.output in Hout.
  destruct (backend w !! T) as [task|] eqn:E; [|discriminate].
  cbn [fst snd].
  unfold Store.outcomes in Hout.
  destruct (assoc "work_outcomes" task) as [[| | | | |o]|] eqn:Ew; try discriminate.
  assert (truthy (JObj task) = true) as ->.
  { destruct task; [discriminate|reflexivity]. }
  cbn [negb]. unfold bind at 1. unfold dict_get at 1, lift at 1. rewrite Ew.
  assert (or_else (JObj o) (JObj []) = JObj o) as ->.
  { destruct o; [discriminate|reflexivity]. }
  unfold bind at 1. unfold dict_get, lift.
  destruct (assoc "output" o) as [[| | |s'| |]|]; try discriminate.
  injection Hout as ->. rewrite Hs. reflexivity.
Qed.

Lemma nonempty_strip s : Py.nonempty (Py.strip s) = true -> Py.nonempty s = true.
Proof. destruct s; [discriminate|reflexivity]. Qed.

Section Completed.
Variables (T s sys : string) (cs : list (string * string)).
Hypothesis Hs : Py.nonempty (Py.strip s) = true.

Local Abbreviation Inv := (output_kept T s sys cs).
Local Abbreviation safe := (spares_output T).
Local Abbreviation okcall := (fun (sys' : string) (_ : string) => sys' <> sys).

Lemma output_kept_call who rq b calls :
  safe rq -> Inv b calls -> Inv (snd (backend_call who rq b)) calls.
Proof.
  intros Hsafe [Hout Hcalls]. split; [|exact Hcalls].
  apply store_spares_output; assumption.
Qed.

Lemma output_kept_model sys' user b calls :
  okcall sys' user -> Inv b calls -> Inv b (calls ++ [(sys', user)]).
Proof.
  intros Hok [Hout Hcalls]. split; [exact Hout|].
  rewrite calls_with_snoc; assumption.
Qed.

Lemma safe_plain method path body : safe (Request method path body).
Proof. exact I. Qed.

Lemma safe_conversation t v : safe (AppendWorkOutcomes t "conversation" v).
Proof. right. discriminate. Qed.

Lemma kept_ensure_workshop_task task_id title preset description :
  preserves Inv (ensure_workshop_task task_id title preset description).
Proof.
  apply (pres_ensure_workshop_task Inv safe output_kept_call safe_plain).
Qed.

(** The first block, when the stored output is that of another phase. *)
Lemma kept_initial_other model problem_statement discovery :
  T <> "problem-refinement" -> sys <> discovery_system_prompt ->
  triple Inv (initial_phase model problem_statement discovery)
    (fun d => forall key, key <> "initial" -> d !! key = discovery !! key).
Proof.
  intros HT Hsys. apply triple_initial_phase.
  apply (pres_initial_phase Inv safe okcall output_kept_call output_kept_model
           safe_plain safe_conversation).
  - intros E. apply Hsys. symmetry. exact E.
  - intros v. left. congruence.
  - intros v. left. congruence.
Qed.

(** A later block, when the stored output is that of another phase. *)
Lemma kept_later_other model key task_id phase_name context discovery :
  task_id <> T ->
  phase_system_prompt phase_name <> sys ->
  next_steps_system_prompt phase_name <> sys ->
  triple Inv (later_phase model key task_id phase_name context discovery)
    (fun d => forall key', key' <> key -> d !! key' = discovery !! key').
Proof.
  intros HT H1 H2. apply triple_later_phase.
  apply (pres_later_phase Inv safe okcall output_kept_call output_kept_model
           safe_plain safe_conversation); auto.
  intros k v. left. exact HT.
Qed.

(** A later block on the work-item whose output is stored: no call, no
    write, and the stored text is what the map gets for a missing entry. *)
Lemma kept_later_self model key phase_name context discovery :
  triple Inv (later_phase model key T phase_name context discovery)
    (fun d => d !! key = Some (default s (discovery !! key))
              /\ forall key', key' <> key -> d !! key' = discovery !! key').
Proof.
  intros w [Hout Hcalls].
  destruct (discovery !! key) as [v|] eqn:E.
  - assert (later_phase model key T phase_name context discovery w = (Ok discovery, w)) as ->.
    { unfold later_phase. rewrite E. reflexivity. }
    split; [split; assumption|]. simpl. intros d [= <-]. rewrite E. auto.
  - assert (later_phase model key T phase_name context discovery w
            = (Ok (<[key := s]> discovery),
               sent w client (Request "GET" ("tasks/" +:+ T) None) (backend w))) as ->.
    { unfold later_phase. rewrite E. unfold bind at 1.
      rewrite (get_workshop_output_stored T s w Hout Hs).
      unfold is_falsy. rewrite (nonempty_strip _ Hs). reflexivity. }
    split; [split; assumption|]. simpl. intros d [= <-].
    split; [apply lookup_insert_eq|]. intros key' Hne. apply lookup_insert_ne. congruence.
Qed.

(** The first block on the problem-refinement item whose output is stored. *)
Lemma kept_initial_self model problem_statement discovery :
  T = "problem-refinement" ->
  triple Inv (initial_phase model problem_statement discovery)
    (fun d => d !! "initial"
              = Some (if initial_missing discovery then s
                      else default "" (discovery !! "initial"))
              /\ forall key, key <> "initial" -> d !! key = discovery !! key).
Proof.
  intros HT w [Hout Hcalls].
  destruct (initial_missing discovery) eqn:E.
  - assert (initial_phase model problem_statement discovery w
            = (Ok (<["initial" := s]> discovery),
               sent w client (Request "GET" ("tasks/" +:+ T) None) (backend w))) as ->.
    { unfold initial_phase. rewrite E. unfold bind at 1. rewrite <- HT.
      rewrite (get_workshop_output_stored T s w Hout Hs).
      unfold is_falsy. rewrite (nonempty_strip _ Hs). reflexivity. }
    split; [split; assumption|]. simpl. intros d [= <-].
    split; [apply lookup_insert_eq|]. intros key' Hne. apply lookup_insert_ne. congruence.
  - assert (initial_phase model problem_statement discovery w = (Ok discovery, w)) as ->.
    { unfold initial_phase. rewrite E. reflexivity. }
    split; [split; assumption|]. simpl. intros d [= <-].
    split; [|auto]. unfold initial_missing in E.
    destruct (discovery !! "initial"); [reflexivity|discriminate].
Qed.

End Completed.

Ltac differ := apply String.eqb_neq; vm_compute; reflexivity.

Lemma start_map_lookup existing key :
  start_map existing !! key = match existing with Some d => d !! key | None => None end.
Proof. destruct existing; [reflexivity|apply lookup_empty]. Qed.

Lemma kept_entry_initial existing :
  (if initial_missing (start_map existing) then None
   else start_map existing !! "initial") = kept_entry Initial existing.
Proof. destruct existing; reflexivity. Qed.

Section Skip.
Variables (model : ChatOpenAI) (problem_statement s : string).
Variable existing : option (gmap string string).
Hypothesis Hs : Py.nonempty (Py.strip s) = true.

(** The blocks of [continue_discovery] after the four lookups, for each
    phase whose output the store holds. *)
Lemma blocks_kept (p : phase) cs :
  triple (output_kept (phase_task p) s (phase_prompt p) cs)
    (let! discovery := initial_phase model problem_statement (start_map existing) in
     later_phases model (discovery_context problem_statement discovery) discovery)
    (fun d => d !! phase_key p = Some (default s (kept_entry p existing))).
Proof.
  destruct p; cbn [phase_task phase_prompt phase_key].
  - (* initial *)
    eapply triple_bind; [apply (kept_initial_self _ _ _ _ Hs); reflexivity|].
    intros d1 [H1 _]. unfold later_phases.
    eapply triple_bind; [apply kept_later_other; [discriminate|differ|differ]|].
    intros d2 H2.
    eapply triple_bind; [apply kept_later_other; [discriminate|differ|differ]|].
    intros d3 H3.
    eapply triple_bind; [apply kept_later_other; [discriminate|differ|differ]|].
    intros d4 H4. apply triple_ret.
    rewrite H4, H3, H2 by discriminate. rewrite H1. f_equal.
    rewrite <- kept_entry_initial.
    destruct (initial_missing (start_map existing)) eqn:E; [reflexivity|].
    unfold initial_missing in E.
    destruct (start_map existing !! "initial"); [reflexivity|discriminate].
  - (* event storming *)
    eapply triple_bind; [apply kept_initial_other; [discriminate|differ]|].
    intros d1 H1. unfold later_phases.
    eapply triple_bind; [apply (kept_later_self _ _ _ _ Hs)|].
    intros d2 [H2 _].
    eapply triple_bind; [apply kept_later_other; [discriminate|differ|differ]|].
    intros d3 H3.
    eapply triple_bind; [apply kept_later_other; [discriminate|differ|differ]|].
    intros d4 H4. apply triple_ret.
    rewrite H4, H3 by discriminate. rewrite H2, H1 by discriminate.
    rewrite start_map_lookup. destruct existing; reflexivity.
  - (* decision workshop *)
    eapply triple_bind; [apply kept_initial_other; [discriminate|differ]|].
    intros d1 H1. unfold later_phases.
    eapply triple_bind; [apply kept_later_other; [discriminate|differ|differ]|].
    intros d2 H2.
    eapply triple_bind; [apply (kept_later_self _ _ _ _ Hs)|].
    intros d3 [H3 _].
    eapply triple_bind; [apply kept_later_other; [discriminate|differ|differ]|].
    intros d4 H4. apply triple_ret.
    rewrite H4 by discriminate. rewrite H3, H2, H1 by discriminate.
    rewrite start_map_lookup. destruct existing; reflexivity.
  - (* clarify *)
    eapply triple_bind; [apply kept_initial_other; [discriminate|differ]|].
    intros d1 H1. unfold later_phases.
    eapply triple_bind; [apply kept_later_other; [discriminate|differ|differ]|].
    intros d2 H2.
    eapply triple_bind; [apply kept_later_other; [discriminate|differ|differ]|].
    intros d3 H3.
    eapply triple_bind; [apply (kept_later_self _ _ _ _ Hs)|].
    intros d4 [H4 _]. apply triple_ret.
    rewrite H4, H3, H2, H1 by discriminate.
    rewrite start_map_lookup. destruct existing; reflexivity.
Qed.

End Skip.

(** A run with the output of a phase in the store: no call to the runner
    of the phase, and the entry that the returned map holds for it. *)
Lemma stored_phase_kept (p : phase) (model : ChatOpenAI)
    (problem_statement : string) (existing : option (gmap string string))
    (w : World (gmap string (list (string * json)))) (s : string) :
  Store.output (backend w) (phase_task p) = Some s ->
  Py.nonempty (Py.strip s) = true ->
  calls_with (phase_prompt p)
    (model_calls (snd (continue_discovery model problem_statement existing w)))
  = calls_with (phase_prompt p) (model_calls w)
  /\ forall d,
       fst (continue_discovery model problem_statement existing w) = Ok d ->
       d !! phase_key p = Some (default s (kept_entry p existing)).
Proof.
  intros Hout Hs. rewrite continue_discovery_blocks.
  set (cs := calls_with (phase_prompt p) (model_calls w)).
  set (Inv := output_kept (phase_task p) s (phase_prompt p) cs).
  assert (holds Inv w) as H0 by (split; [exact Hout|reflexivity]).
  set (G := fun rw : result (gmap string string) * World (gmap string (list (string * json))) =>
              calls_with (phase_prompt p) (model_calls (snd rw)) = cs
              /\ forall d, fst rw = Ok d ->
                   d !! phase_key p = Some (default s (kept_entry p existing))).
  assert (forall e w1, holds Inv w1 -> G (Raise e, w1)) as Hraise.
  { intros e w1 [_ Hc]. split; [exact Hc|]. simpl. intros; discriminate. }
  pose proof (fun A (m : M _ A) k => @run_step _ Inv A _ m k G) as Step.
  pose proof (kept_ensure_workshop_task (phase_task p) s (phase_prompt p) cs) as Hens.
  change (G ((ensure_workshop_task "problem-refinement" "Problem refinement"
     "workshop.problem_refinement"
     "Refine the problem statement and clarify scope." ;;;
   ensure_workshop_task "workshop-eventstorming" "Event storming"
     "workshop.eventstorming" "Map domain events and flows." ;;;
   ensure_workshop_task "workshop-decision" "Decision workshop"
     "workshop.decision" "Capture key trade-offs and decisions." ;;;
   ensure_workshop_task "workshop-clarify" "Clarification workshop"
     "workshop.clarify" "Resolve open questions and assumptions." ;;;
   let! discovery := initial_phase model problem_statement (start_map existing) in
   later_phases model (discovery_context problem_statement discovery) discovery) w)).
  apply Step; [apply Hens|exact Hraise| |exact H0]. intros _ w1 H1.
  apply Step; [apply Hens|exact Hraise| |exact H1]. intros _ w2 H2.
  apply Step; [apply Hens|exact Hraise| |exact H2]. intros _ w3 H3.
  apply Step; [apply Hens|exact Hraise| |exact H3]. intros _ w4 H4.
  destruct (blocks_kept model problem_statement s existing Hs p cs w4 H4) as [[_ Hc] Hv].
  split; [exact Hc|exact Hv].
Qed.

(** ** Discovery: the map read from the store, and a completed discovery *)

Lemma bind_ok {B A C} (m : M B A) (k : A -> M B C) (w w' : World B) (c : C) :
  bind m k w = (Ok c, w') ->
  exists a w1, m w = (Ok a, w1) /\ k a w1 = (Ok c, w').
Proof.
  unfold bind. destruct (m w) as [[a|e] w1]; [eauto|discriminate].
Qed.

(** On the reference backend a lookup leaves the store as it is. *)
Lemma get_workshop_output_backend task_id (w : World (gmap string (list (string * json)))) :
  backend (snd (get_workshop_output task_id w)) = backend w.
Proof.
  unfold get_workshop_output. unfold bind at 1. rewrite get_task_run.
  assert (snd (backend_call client (Request "GET" ("tasks/" +:+ task_id) None) (backend w))
          = backend w) as Hb.
  { unfold backend_call, store_backend, Store.handle.
    cbn [String.eqb Ascii.eqb Bool.eqb]. rewrite strip_prefix_app.
    destruct (backend w !! task_id); reflexivity. }
  match goal with |- context [sent w ?c ?r ?b] => set (w1 := sent w c r b) end.
  assert (backend w1 = backend w) as Hw1 by exact Hb.
  destruct (match fst _ with Raise (APIError _ _) => _ | r => r end) as [task|e];
    [|exact Hw1].
  destruct (negb (truthy task)); [exact Hw1|].
  unfold bind, lift, ret.
  destruct (dict_get task "work_outcomes" JNull) as [wo|]; [|exact Hw1].
  destruct (dict_get (or_else wo (JObj [])) "output" JNull) as [[| | |o| |]|];
    try exact Hw1.
  destruct (Py.nonempty (Py.strip o)); exact Hw1.
Qed.

Lemma add_truthy_eq key s d :
  Py.nonempty s = true -> add_truthy key (Some s) d !! key = Some s.
Proof. intros H. unfold add_truthy. rewrite H. apply lookup_insert_eq. Qed.

Lemma add_truthy_ne key key' out d :
  key <> key' -> add_truthy key out d !! key' = d !! key'.
Proof.
  intros H. unfold add_truthy. destruct out as [v|]; [|reflexivity].
  destruct (Py.nonempty v); [apply lookup_insert_ne; exact H|reflexivity].
Qed.

Lemma kept_entry_lookup p d s :
  d !! phase_key p = Some s -> Py.nonempty (Py.strip s) = true ->
  kept_entry p (Some d) = Some s.
Proof.
  intros H Hs. destruct p; try exact H.
  simpl in *. unfold initial_missing. rewrite H, Hs. reflexivity.
Qed.

Lemma discovery_read_backend (w w1 : World (gmap string (list (string * json))))
    (existing : option (gmap string string)) :
  get_problem_refinement_discovery w = (Ok existing, w1) -> backend w1 = backend w.
Proof.
  intros E. unfold get_problem_refinement_discovery in E.
  apply bind_ok in E as (o1 & wa & E1 & E).
  apply bind_ok in E as (o2 & wb & E2 & E).
  apply bind_ok in E as (o3 & wc & E3 & E).
  apply bind_ok in E as (o4 & wd & E4 & E).
  pose proof (get_workshop_output_backend "problem-refinement" w) as Ba.
  pose proof (get_workshop_output_backend "workshop-eventstorming" wa) as Bb.
  pose proof (get_workshop_output_backend "workshop-decision" wb) as Bc.
  pose proof (get_workshop_output_backend "workshop-clarify" wc) as Bd.
  rewrite E1 in Ba. rewrite E2 in Bb. rewrite E3 in Bc. rewrite E4 in Bd.
  simpl in Ba, Bb, Bc, Bd.
  destruct (negb _) in E; injection E as _ <-; congruence.
Qed.

(** The map that the script reads from the store before it continues the
    discovery holds the stored text of a completed phase. *)
Lemma discovery_read_from_store (p : phase) (s : string)
    (w w1 : World (gmap string (list (string * json))))
    (existing : option (gmap string string)) :
  Store.output (backend w) (phase_task p) = Some s ->
  Py.nonempty (Py.strip s) = true ->
  get_problem_refinement_discovery w = (Ok existing, w1) ->
  kept_entry p existing = Some s.
Proof.
  intros Hout Hs E. unfold get_problem_refinement_discovery in E.
  apply bind_ok in E as (o1 & wa & E1 & E).
  apply bind_ok in E as (o2 & wb & E2 & E).
  apply bind_ok in E as (o3 & wc & E3 & E).
  apply bind_ok in E as (o4 & wd & E4 & E).
  pose proof (get_workshop_output_backend "problem-refinement" w) as Ba.
  pose proof (get_workshop_output_backend "workshop-eventstorming" wa) as Bb.
  pose proof (get_workshop_output_backend "workshop-decision" wb) as Bc.
  pose proof (get_workshop_output_backend "workshop-clarify" wc) as Bd.
  rewrite E1 in Ba. rewrite E2 in Bb. rewrite E3 in Bc. rewrite E4 in Bd.
  simpl in Ba, Bb, Bc, Bd.
  pose proof (nonempty_strip _ Hs) as Hne.
  destruct p; cbn [phase_task phase_key] in *.
  - rewrite (get_workshop_output_stored _ s w Hout Hs) in E1. injection E1 as <- _.
    cbn [is_truthy] in E. rewrite Hne in E. cbn [orb negb] in E.
    injection E as <- _.
    apply (kept_entry_lookup Initial); [|exact Hs]. apply add_truthy_eq, Hne.
  - rewrite <- Ba in Hout.
    rewrite (get_workshop_output_stored _ s wa Hout Hs) in E2. injection E2 as <- _.
    cbn [is_truthy] in E. rewrite Hne, !orb_true_r in E. cbn [orb negb] in E.
    injection E as <- _.
    apply (kept_entry_lookup EventStorming); [|exact Hs].
    cbn [phase_key]. rewrite add_truthy_ne by discriminate. apply add_truthy_eq, Hne.
  - rewrite <- Ba, <- Bb in Hout.
    rewrite (get_workshop_output_stored _ s wb Hout Hs) in E3. injection E3 as <- _.
    cbn [is_truthy] in E. rewrite Hne, !orb_true_r in E. cbn [orb negb] in E.
    injection E as <- _.
    apply (kept_entry_lookup DecisionWorkshop); [|exact Hs].
    cbn [phase_key]. rewrite !add_truthy_ne by discriminate. apply add_truthy_eq, Hne.
  - rewrite <- Ba, <- Bb, <- Bc in Hout.
    rewrite (get_workshop_output_stored _ s wc Hout Hs) in E4. injection E4 as <- _.
    cbn [is_truthy] in E. rewrite Hne, !orb_true_r in E. cbn [orb negb] in E.
    injection E as <- _.
    apply (kept_entry_lookup Clarify); [|exact Hs].
    cbn [phase_key]. rewrite !add_truthy_ne by discriminate. apply add_truthy_eq, Hne.
Qed.

(** C1 (as amended).  For each discovery phase, when the store holds a
    non-blank text as the output of the phase's work-item, a run of
    [continue_discovery] makes no call with the system prompt of that
    phase's runner, whether it returns or raises; and when it returns,
    the discovery map holds for the phase the entry of the map the run
    started from when there was one (a non-blank one for the first
    phase), and the stored text otherwise: the stored text, then, for a
    run without a map and for a run on the map just read from the store
    by [get_problem_refinement_discovery]. *)
Theorem continue_discovery_skips_stored_phase (p : phase) (model : ChatOpenAI)
    (problem_statement : string) (existing : option (gmap string string))
    (w : World (gmap string (list (string * json)))) (s : string) :
  Store.output (backend w) (phase_task p) = Some s ->
  Py.nonempty (Py.strip s) = true ->
  calls_with (phase_prompt p)
    (model_calls (snd (continue_discovery model problem_statement existing w)))
  = calls_with (phase_prompt p) (model_calls w)
  /\ (forall d,
        fst (continue_discovery model problem_statement existing w) = Ok d ->
        d !! phase_key p = Some (default s (kept_entry p existing)))
  /\ (forall d,
        existing = None ->
        fst (continue_discovery model problem_statement existing w) = Ok d ->
        d !! phase_key p = Some s)
  /\ (forall w0 d,
        get_problem_refinement_discovery w0 = (Ok existing, w) ->
        fst (continue_discovery model problem_statement existing w) = Ok d ->
        d !! phase_key p = Some s).
Proof.
  intros Hout Hs.
  destruct (stored_phase_kept p model problem_statement existing w s Hout Hs) as [Hc Hv].
  split; [exact Hc|]. split; [exact Hv|]. split.
  - intros d -> Hd. rewrite (Hv d Hd). destruct p; reflexivity.
  - intros w0 d Hread Hd. rewrite (Hv d Hd).
    pose proof (discovery_read_backend w0 w existing Hread) as Hb.
    rewrite Hb in Hout.
    rewrite (discovery_read_from_store p s w0 w existing Hout Hs Hread). reflexivity.
Qed.

(** ** A completed discovery *)

Section Quiet.
Variable s : phase -> string.

Lemma quiet_ret {A} (a : A) : quiet s (ret a).
Proof. intros w _. exists a, w. auto. Qed.

Lemma quiet_bind {A C} (m : M _ A) (k : A -> M _ C) :
  quiet s m -> (forall a, quiet s (k a)) -> quiet s (bind m k).
Proof.
  intros Hm Hk w H. destruct (Hm w H) as (a & w1 & E1 & Hb1 & Hc1).
  assert (all_stored s (backend w1)) as H1 by (rewrite Hb1; exact H).
  destruct (Hk a w1 H1) as (c & w2 & E2 & Hb2 & Hc2).
  exists c, w2. unfold bind. rewrite E1, E2. split; [reflexivity|].
  split; congruence.
Qed.

Lemma quiet_ensure_workshop_task p title preset description :
  quiet s (ensure_workshop_task (phase_task p) title preset description).
Proof.
  intros w H. destruct (H p) as [Hout _].
  unfold ensure_workshop_task, bind. rewrite get_task_run.
  unfold backend_call, store_backend, Store.handle.
  cbn [String.eqb Ascii.eqb Bool.eqb]. rewrite strip_prefix_app.
  unfold Store.output in Hout.
  destruct (backend w !! phase_task p) as [task|]; [|discriminate].
  cbn [fst snd]. eexists _, _. split; [reflexivity|]. split; reflexivity.
Qed.

Lemma quiet_initial_phase model problem_statement discovery :
  quiet s (initial_phase model problem_statement discovery).
Proof.
  intros w H. destruct (H Initial) as [Hout Hs]. cbn [phase_task] in Hout.
  unfold initial_phase. destruct (initial_missing discovery).
  - unfold bind at 1. rewrite (get_workshop_output_stored _ _ w Hout Hs).
    unfold is_falsy. rewrite (nonempty_strip _ Hs).
    eexists _, _. split; [reflexivity|]. split; reflexivity.
  - exists discovery, w. auto.
Qed.

Lemma quiet_later_phase model p key phase_name context discovery :
  quiet s (later_phase model key (phase_task p) phase_name context discovery).
Proof.
  intros w H. destruct (H p) as [Hout Hs].
  unfold later_phase. destruct (discovery !! key).
  - exists discovery, w. auto.
  - unfold bind at 1. rewrite (get_workshop_output_stored _ _ w Hout Hs).
    unfold is_falsy. rewrite (nonempty_strip _ Hs).
    eexists _, _. split; [reflexivity|]. split; reflexivity.
Qed.

(** X20.  When every phase has its output in the store, a run of
    [continue_discovery] returns, without a call to the model and without
    a write, the map of the stored texts (or of the entries that the map it
    started from had). *)
Theorem continue_discovery_completed_returns (model : ChatOpenAI)
    (problem_statement : string) (existing : option (gmap string string))
    (w : World (gmap string (list (string * json)))) :
  all_stored s (backend w) ->
  exists d w',
    continue_discovery model problem_statement existing w = (Ok d, w')
    /\ backend w' = backend w
    /\ model_calls w' = model_calls w
    /\ forall p, d !! phase_key p = Some (default (s p) (kept_entry p existing)).
Proof.
  intros H.
  assert (quiet s (continue_discovery model problem_statement existing)) as Hq.
  { rewrite continue_discovery_blocks.
    apply quiet_bind; [apply (quiet_ensure_workshop_task Initial)|intros _].
    apply quiet_bind; [apply (quiet_ensure_workshop_task EventStorming)|intros _].
    apply quiet_bind; [apply (quiet_ensure_workshop_task DecisionWorkshop)|intros _].
    apply quiet_bind; [apply (quiet_ensure_workshop_task Clarify)|intros _].
    apply quiet_bind; [apply quiet_initial_phase|intros d1].
    unfold later_phases.
    apply quiet_bind; [apply (quiet_later_phase _ EventStorming)|intros d2].
    apply quiet_bind; [apply (quiet_later_phase _ DecisionWorkshop)|intros d3].
    apply quiet_bind; [apply (quiet_later_phase _ Clarify)|intros d4].
    apply quiet_ret. }
  destruct (Hq w H) as (d & w' & E & Hb & Hc).
  exists d, w'. split; [exact E|]. split; [exact Hb|]. split; [exact Hc|].
  intros p. destruct (H p) as [Hout Hs].
  apply (proj2 (stored_phase_kept p model problem_statement existing w (s p) Hout Hs)).
  rewrite E. reflexivity.
Qed.

End Quiet.

(** ** Closed runs *)

Lemma continue_discovery_skips_stored_phase_witness :
  exists d,
    fst (continue_discovery (scripted_model phase_script) "P" None
           (start_world events_done [])) = Ok d
    /\ d !! "event_storming" = Some "Stored events"
    /\ calls_with (phase_prompt EventStorming)
         (model_calls (snd (continue_discovery (scripted_model phase_script) "P" None
                              (start_world events_done []))))
       = [].
Proof.
  destruct (continue_discovery_skips_stored_phase EventStorming
              (scripted_model phase_script) "P" None (start_world events_done [])
              "Stored events" eq_refl eq_refl) as (Hc & _ & Hv & _).
  assert (exists d,
            fst (continue_discovery (scripted_model phase_script) "P" None
                   (start_world events_done [])) = Ok d) as [d Hd].
  { vm_compute. eexists. reflexivity. }
  exists d. split; [exact Hd|]. split; [exact (Hv d eq_refl Hd)|exact Hc].
Defined.

(** With an entry for the phase in the map that the run starts from, the
    run returns that entry, not the text that the store holds. *)
Lemma continue_discovery_stale_entry_counterexample :
  Store.output events_done "workshop-eventstorming" = Some "Stored events"
  /\ match fst (continue_discovery (scripted_model phase_script) "P"
                  (Some {[ "event_storming" := "stale" ]})
                  (start_world events_done [])) with
     | Ok d => d !! "event_storming"
     | Raise _ => None
     end = Some "stale".
Proof. split; vm_compute; reflexivity. Qed.

Lemma continue_discovery_one_context_witness :
  one_context "P" []
    (continue_discovery (scripted_model phase_script) "P" None
       (start_world (∅ : gmap string (list (string * json))) [])).
Proof.
  exact (continue_discovery_one_context (scripted_model phase_script) "P" None
           (start_world (∅ : gmap string (list (string * json))) [])).
Defined.

(** The decision workshop is run on a context that does not hold the
    output of event storming. *)
Lemma continue_discovery_context_counterexample :
  let run := continue_discovery (scripted_model phase_script) "P" None
               (start_world (∅ : gmap string (list (string * json))) []) in
  match fst run with
  | Ok d => d !! "event_storming"
  | Raise _ => None
  end = Some "EVENTS-TEXT"
  /\ nth 3 (model_calls (snd run)) ("", "")
     = (phase_system_prompt "Decision Workshop",
        "Problem Statement:" +:+ nl +:+ "P" +:+ nl +:+ nl
        +:+ "Initial Refinement:" +:+ nl +:+ "INITIAL-TEXT")
  /\ is_substring "EVENTS-TEXT" (snd (nth 3 (model_calls (snd run)) ("", ""))) = false.
Proof. repeat split; vm_compute; reflexivity. Qed.

Lemma ask_other_with_blank_detail_witness :
  exists w',
    ask_human_question_local "Which one?" (Some menu)
      (start_world (∅ : gmap string (list (string * json))) ["3" +:+ nl; " " +:+ nl])
    = (Ok "Other (type your own)", w').
Proof.
  destruct (proj1 (ask_other_with_blank_detail
      (start_world (∅ : gmap string (list (string * json))) ["3" +:+ nl; " " +:+ nl])
      "Which one?" menu ("3" +:+ nl) (" " +:+ nl) [] 3
      eq_refl eq_refl eq_refl eq_refl eq_refl eq_refl
      ltac:(simpl; lia) eq_refl eq_refl)) as [out E].
  rewrite E. vm_compute. eexists. reflexivity.
Defined.

(** The gate returns and logs the text of the option, not the number
    that was typed. *)
Lemma ask_other_with_blank_detail_counterexample :
  let run := ask_human_question_local "Which one?" (Some menu)
      (start_world (∅ : gmap string (list (string * json))) ["3" +:+ nl; " " +:+ nl]) in
  fst run = Ok "Other (type your own)"
  /\ fst run <> Ok "3"
  /\ last (requests (snd run))
     = Some (client,
         AppendWorkOutcomes "problem-refinement" "conversation"
           (conversation_entry "2025-01-01T00:00:00+00:00" "Which one?"
              "Other (type your own)")).
Proof. repeat split; try (vm_compute; reflexivity). vm_compute. discriminate. Qed.

(** ** Reading and writing outcomes *)

Section Outcomes.
Context {B : Type} {BE : Backend B}.

Lemma read_outcome_world key task (w : World B) : snd (read_outcome key task w) = w.
Proof.
  unfold read_outcome. destruct (negb (truthy task)); [reflexivity|].
  unfold bind, lift. destruct (dict_get task "work_outcomes" JNull) as [wo|]; [|reflexivity].
  destruct (dict_get (or_else wo (JObj [])) key JNull) as [[| | |s| |]|]; try reflexivity.
  destruct (Py.nonempty (Py.strip s)); reflexivity.
Qed.

Lemma read_outcome_some key task (w : World B) s :
  fst (read_outcome key task w) = Ok (Some s)
  <-> outcome_text key task = Some s /\ Py.nonempty (Py.strip s) = true.
Proof.
  unfold read_outcome, outcome_text.
  destruct task as [| b | n | t | l | items]; cbn [truthy negb].
  - split; [discriminate|intros [? _]; discriminate].
  - destruct b; cbn; (split; [discriminate|intros [? _]; discriminate]).
  - destruct (negb (n =? 0)%Z); cbn; (split; [discriminate|intros [? _]; discriminate]).
  - destruct (Py.nonempty t); cbn; (split; [discriminate|intros [? _]; discriminate]).
  - destruct l; cbn; (split; [discriminate|intros [? _]; discriminate]).
  - destruct items as [|kv items]; cbn [negb].
    { cbn. split; [discriminate|intros [? _]; discriminate]. }
    set (task := kv :: items). unfold bind, lift, dict_get at 1.
    destruct (assoc "work_outcomes" task) as [wo|].
    + unfold or_else.
      destruct wo as [| b | n | t | l | outcomes]; cbn [truthy].
      * cbn. split; [discriminate|intros [? _]; discriminate].
      * destruct b; cbn; (split; [discriminate|intros [? _]; discriminate]).
      * destruct (negb (n =? 0)%Z); cbn; (split; [discriminate|intros [? _]; discriminate]).
      * destruct (Py.nonempty t); cbn; (split; [discriminate|intros [? _]; discriminate]).
      * destruct l; cbn; (split; [discriminate|intros [? _]; discriminate]).
      * assert ((if match outcomes with [] => false | _ :: _ => true end
                 then JObj outcomes else JObj []) = JObj outcomes) as ->.
        { destruct outcomes; reflexivity. }
        cbn [dict_get].
        destruct (assoc key outcomes) as [[| b | n | t | l | o]|]; cbn [fst ret];
          try (split; [discriminate|intros [? _]; discriminate]).
        destruct (Py.nonempty (Py.strip t)) eqn:Hne; cbn [fst ret].
        -- split; [intros [= <-]; auto|intros [[= <-] _]; reflexivity].
        -- split; [discriminate|intros [[= <-] H]; congruence].
    + cbn. split; [discriminate|intros [? _]; discriminate].
Qed.

(** A lookup followed by the reading of one outcome. *)
Lemma lookup_outcome_run key task_id (w : World B) :
  let rq := get_task_request task_id in
  let answer := backend_call client rq (backend w) in
  let m := let! task := _get_task task_id in read_outcome key task in
  snd (m w) = sent w client rq (snd answer)
  /\ (forall s, fst (m w) = Ok (Some s) <->
        (exists task, fst answer = Ok task /\ outcome_text key task = Some s)
        /\ Py.nonempty (Py.strip s) = true)
  /\ (forall body, fst answer = Raise (APIError 404 body) -> fst (m w) = Ok None).
Proof.
  intros rq answer m. unfold get_task_request in rq. unfold m, bind.
  rewrite get_task_run. fold rq. fold answer.
  destruct (fst answer) as [task|e] eqn:Ea.
  - split; [apply read_outcome_world|]. split; [|discriminate].
    intros s. rewrite read_outcome_some. split.
    + intros [H1 H2]. split; [eauto|exact H2].
    + intros [(task' & [= <-] & H1) H2]. auto.
  - assert (forall s, ~ ((exists task, Raise e = Ok task /\ outcome_text key task = Some s)
                         /\ Py.nonempty (Py.strip s) = true)) as Hno.
    { intros s [(t & E & _) _]. discriminate. }
    destruct e; cbn [fst snd];
      try (split; [reflexivity|]; split; [|discriminate];
           intros s; split; [discriminate|intros H; destruct (Hno s H)]).
    destruct (Z.eqb_spec status_code 404) as [->|Hne].
    + split; [reflexivity|]. split; [|reflexivity].
      intros s; split; [discriminate|intros H; destruct (Hno s H)].
    + split; [reflexivity|]. split; [|intros body0 [= E _]; contradiction].
      intros s; split; [discriminate|intros H; destruct (Hno s H)].
Qed.

(** X1.  [get_workshop_output] sends one request, the lookup of the
    work-item by the default client, and changes nothing else.  It returns
    a text exactly when the backend answered with a dict whose
    [work_outcomes] is a dict that holds a string under [output] which is
    not blank; the text comes back as stored, not stripped.  A 404 answer
    gives the absent value. *)
Theorem get_workshop_output_reads (task_id : string) (w : World B) :
  let rq := get_task_request task_id in
  let answer := backend_call client rq (backend w) in
  snd (get_workshop_output task_id w) = sent w client rq (snd answer)
  /\ (forall s, fst (get_workshop_output task_id w) = Ok (Some s) <->
        (exists task, fst answer = Ok task /\ outcome_text "output" task = Some s)
        /\ Py.nonempty (Py.strip s) = true)
  /\ (forall body, fst answer = Raise (APIError 404 body) ->
        fst (get_workshop_output task_id w) = Ok None).
Proof. exact (lookup_outcome_run "output" task_id w). Qed.

(** X2.  [get_problem_statement_from_workline] looks up the work-item
    [problem-refinement] and nothing else; it returns a statement exactly
    when the item holds a string that is not blank under
    [problem_statement] in its outcomes, and the absent value on a 404. *)
Theorem get_problem_statement_reads (w : World B) :
  let rq := get_task_request "problem-refinement" in
  let answer := backend_call client rq (backend w) in
  snd (get_problem_statement_from_workline w) = sent w client rq (snd answer)
  /\ (forall s, fst (get_problem_statement_from_workline w) = Ok (Some s) <->
        (exists task, fst answer = Ok task
                      /\ outcome_text "problem_statement" task = Some s)
        /\ Py.nonempty (Py.strip s) = true)
  /\ (forall body, fst answer = Raise (APIError 404 body) ->
        fst (get_problem_statement_from_workline w) = Ok None).
Proof. exact (lookup_outcome_run "problem_statement" "problem-refinement" w). Qed.

Lemma get_workshop_output_ok task_id (w w1 : World B) out :
  get_workshop_output task_id w = (Ok out, w1) ->
  requests w1 = requests w ++ [(client, get_task_request task_id)]
  /\ forall s, out = Some s -> Py.nonempty (Py.strip s) = true.
Proof.
  intros E. destruct (lookup_outcome_run "output" task_id w) as (Hw & Hs & _).
  cbv zeta in Hw, Hs.
  change (let! task := _get_task task_id in read_outcome "output" task)
    with (get_workshop_output (B:=B) task_id) in Hw, Hs.
  rewrite E in Hw, Hs. cbn [fst snd] in Hw, Hs. split.
  - rewrite Hw. reflexivity.
  - intros s ->. apply (proj1 (Hs s)). reflexivity.
Qed.

Lemma add_truthy_lookup key out d k v :
  add_truthy key out d !! k = Some v ->
  (k = key /\ out = Some v) \/ d !! k = Some v.
Proof.
  unfold add_truthy. destruct out as [x|]; [|auto].
  destruct (Py.nonempty x); [|auto].
  destruct (decide (k = key)) as [->|Hne].
  - rewrite lookup_insert_eq. intros [= ->]. auto.
  - rewrite lookup_insert_ne by congruence. auto.
Qed.

Lemma add_truthy_nonempty key out d :
  is_truthy out = true -> add_truthy key out d <> ∅.
Proof.
  unfold is_truthy, add_truthy. destruct out as [x|]; [|discriminate].
  intros ->. apply insert_non_empty.
Qed.

Lemma add_truthy_keeps key out d : d <> ∅ -> add_truthy key out d <> ∅.
Proof.
  intros Hd. unfold add_truthy. destruct out as [x|]; [|exact Hd].
  destruct (Py.nonempty x); [apply insert_non_empty|exact Hd].
Qed.

(** X3.  Where [get_problem_refinement_discovery] returns, it has sent the
    four lookups in the order of the phases and nothing else; a map that
    it returns is not empty, has only keys of the four phases, and holds
    no blank text. *)
Theorem get_problem_refinement_discovery_shape (w w' : World B)
    (r : option (gmap string string)) :
  get_problem_refinement_discovery w = (Ok r, w') ->
  requests w'
  = requests w ++ map (fun p => (client, get_task_request (phase_task p))) all_phases
  /\ forall d, r = Some d ->
       d <> ∅
       /\ forall key v, d !! key = Some v ->
            (exists p, key = phase_key p) /\ Py.nonempty (Py.strip v) = true.
Proof.
  unfold get_problem_refinement_discovery. intros E.
  apply bind_ok in E as (o1 & w1 & E1 & E).
  apply bind_ok in E as (o2 & w2 & E2 & E).
  apply bind_ok in E as (o3 & w3 & E3 & E).
  apply bind_ok in E as (o4 & w4 & E4 & E).
  apply get_workshop_output_ok in E1 as [R1 S1].
  apply get_workshop_output_ok in E2 as [R2 S2].
  apply get_workshop_output_ok in E3 as [R3 S3].
  apply get_workshop_output_ok in E4 as [R4 S4].
  assert (w' = w4) as ->.
  { destruct (negb _) in E; injection E as _ <-; reflexivity. }
  split.
  { rewrite R4, R3, R2, R1. cbn [map all_phases phase_task].
    rewrite <- !app_assoc. reflexivity. }
  intros d ->.
  destruct (is_truthy o1 || is_truthy o2 || is_truthy o3 || is_truthy o4) eqn:Hany;
    cbn [negb] in E; [|discriminate].
  injection E as <-. split.
  - destruct (is_truthy o1) eqn:T1; [apply add_truthy_nonempty, T1|].
    apply add_truthy_keeps.
    destruct (is_truthy o2) eqn:T2; [apply add_truthy_nonempty, T2|].
    apply add_truthy_keeps.
    destruct (is_truthy o3) eqn:T3; [apply add_truthy_nonempty, T3|].
    apply add_truthy_keeps. apply add_truthy_nonempty.
    cbn [orb] in Hany. exact Hany.
  - intros key v H.
    apply add_truthy_lookup in H as [[-> ->]|H];
      [split; [exists Initial; reflexivity|apply S1; reflexivity]|].
    apply add_truthy_lookup in H as [[-> ->]|H];
      [split; [exists EventStorming; reflexivity|apply S2; reflexivity]|].
    apply add_truthy_lookup in H as [[-> ->]|H];
      [split; [exists DecisionWorkshop; reflexivity|apply S3; reflexivity]|].
    apply add_truthy_lookup in H as [[-> ->]|H];
      [split; [exists Clarify; reflexivity|apply S4; reflexivity]|].
    rewrite lookup_empty in H. discriminate.
Qed.


Lemma sent_after_requests (w : World B) new b who rq b' :
  sent (after_requests w new b) who rq b' = after_requests w (new ++ [(who, rq)]) b'.
Proof. unfold sent, after_requests. cbn. rewrite <- app_assoc. reflexivity. Qed.

Lemma sent_is_after_requests (w : World B) who rq b :
  sent w who rq b = after_requests w [(who, rq)] b.
Proof. reflexivity. Qed.

Lemma append_conversation_run task_id question answer (w : World B) :
  let rq := AppendWorkOutcomes task_id "conversation"
              (conversation_entry (utcnow w (clock w)) question answer) in
  append_workshop_conversation task_id question answer w
  = (match fst (backend_call client rq (backend w)) with
     | Ok _ => Ok tt
     | Raise e => Raise e
     end,
     sent (ticked w) client rq (snd (backend_call client rq (backend w)))).
Proof.
  intros rq. unfold append_workshop_conversation.
  unfold bind at 1. unfold now_isoformat at 1. unfold bind at 1. rewrite call_run.
  fold (ticked w). cbn [backend ticked]. unfold conversation_entry in rq. fold rq.
  destruct (fst (backend_call client rq (backend w))); reflexivity.
Qed.

(** [ensure_problem_refinement_task] begins with the lookup of the item
    and touches only the backend. *)
Lemma ensure_problem_refinement_task_run (w : World B) :
  exists extra b,
    snd (ensure_problem_refinement_task w)
    = after_requests w ((client, get_task_request "problem-refinement") :: extra) b.
Proof.
  unfold ensure_problem_refinement_task, _ensure_problem_refinement_task_exists.
  unfold bind at 1. unfold bind at 1. rewrite get_task_run.
  rewrite sent_is_after_requests.
  match goal with |- context [match ?r with Ok _ => _ | Raise _ => _ end] =>
    destruct r as [task|e] end.
  2:{ eexists [], _. reflexivity. }
  destruct task; try (eexists [], _; unfold ret at 1; unfold lift; reflexivity).
  unfold _create_problem_refinement_task. rewrite call_run.
  rewrite sent_after_requests.
  match goal with |- context [match ?r with Ok _ => _ | Raise _ => _ end] =>
    destruct r as [task|e] end.
  - eexists _, _. unfold lift. reflexivity.
  - eexists _, _. reflexivity.
Qed.

(** X5.  [log_conversation] appends the entry to the current workshop,
    and to [problem-refinement] when there is none or its id is the empty
    string.  It looks the refinement item up first (creating it if absent)
    only when no workshop is current: with a current workshop the append is
    the only request. *)
Theorem log_conversation_target (question answer : string) (w : World B) :
  let entry := conversation_entry (utcnow w (clock w)) question answer in
  match CURRENT_WORKSHOP_ID w with
  | Some id =>
      requests (snd (log_conversation question answer w))
      = requests w
        ++ [(client, AppendWorkOutcomes (conversation_target (Some id)) "conversation" entry)]
  | None =>
      exists sent_after,
        requests (snd (log_conversation question answer w))
        = requests w ++ (client, get_task_request "problem-refinement") :: sent_after
        /\ (fst (log_conversation question answer w) = Ok tt ->
            last sent_after
            = Some (client, AppendWorkOutcomes "problem-refinement" "conversation" entry))
  end.
Proof.
  intros entry.
  destruct (log_conversation question answer w) as [r w'] eqn:E.
  unfold log_conversation in E. unfold bind at 1 in E. unfold get_world at 1 in E.
  destruct (CURRENT_WORKSHOP_ID w) as [id|] eqn:Hid.
  - unfold bind at 1 in E. unfold ret at 1 in E.
    unfold bind at 1 in E. unfold get_world at 1 in E. rewrite Hid in E.
    rewrite append_conversation_run in E. injection E as _ <-. reflexivity.
  - unfold bind at 1 in E. unfold bind at 1 in E.
    destruct (ensure_problem_refinement_task_run w) as (extra & b & Hw1).
    destruct (ensure_problem_refinement_task w) as [[v|e] w1]; cbn [snd] in Hw1; subst w1.
    + unfold ret at 1 in E. unfold bind at 1 in E. unfold get_world at 1 in E.
      cbn [CURRENT_WORKSHOP_ID after_requests] in E. rewrite Hid in E.
      rewrite append_conversation_run in E. injection E as _ <-.
      exists (extra ++ [(client, AppendWorkOutcomes "problem-refinement" "conversation" entry)]).
      split.
      * cbn [fst snd sent ticked after_requests requests utcnow clock].
        rewrite <- app_assoc. reflexivity.
      * intros _. apply last_snoc.
    + injection E as <- <-. exists extra. split; [reflexivity|discriminate].
Qed.

End Outcomes.

(** ** The two gates *)

Section Gates.
Context {B : Type} {BE : Backend B}.

Lemma with_io_with_io (w : World B) l o l' o' :
  with_io (with_io w l o) l' o' = with_io w l' o'.
Proof. reflexivity. Qed.

Lemma with_io_same (w : World B) : with_io w (stdin w) (stdout w) = w.
Proof. destruct w; reflexivity. Qed.

Lemma blank_line_spec line :
  blank_line line = true ->
  String.eqb line "" = false /\ Py.nonempty (Py.strip line) = false.
Proof.
  unfold blank_line. intros H. apply andb_prop in H as [H1 H2].
  split; [destruct (String.eqb line "")|destruct (Py.nonempty (Py.strip line))];
    simpl in *; congruence.
Qed.

(** The loop of the question gate passes over blank lines. *)
Lemma ask_loop_skip question options blanks : forall lines (w : World B) out,
  forallb blank_line blanks = true ->
  exists out',
    ask_loop question options (blanks ++ lines) (with_io w (blanks ++ lines) out)
    = ask_loop question options lines (with_io w lines out').
Proof.
  induction blanks as [|b blanks IH]; intros lines w out Hb.
  - exists out. reflexivity.
  - cbn [forallb] in Hb. apply andb_prop in Hb as [Hb1 Hb2].
    apply blank_line_spec in Hb1 as [He Hn].
    cbn [app ask_loop]. unfold bind at 1. rewrite print_run.
    unfold bind at 1. unfold set_stdin at 1. rewrite He, Hn.
    unfold bind at 1. rewrite print_run.
    cbn [with_io backend requests CURRENT_WORKSHOP_ID HUMAN_REVIEW_MODE stdin_isatty
         stdin stdout model_calls utcnow clock].
    destruct (IH lines w
      ((out ++ ["Your answer: "]) ++ ["Please enter a non-empty answer." +:+ nl]) Hb2)
      as [out' Hout].
    exists out'. exact Hout.
Qed.

Lemma review_loop_skip blanks : forall lines (w : World B) out,
  forallb blank_line blanks = true ->
  exists out',
    review_loop (blanks ++ lines) (with_io w (blanks ++ lines) out)
    = review_loop lines (with_io w lines out').
Proof.
  induction blanks as [|b blanks IH]; intros lines w out Hb.
  - exists out. reflexivity.
  - cbn [forallb] in Hb. apply andb_prop in Hb as [Hb1 Hb2].
    apply blank_line_spec in Hb1 as [He Hn].
    cbn [app review_loop]. unfold bind at 1. rewrite print_run.
    unfold bind at 1. unfold set_stdin at 1. rewrite He, Hn.
    unfold bind at 1. rewrite print_run.
    cbn [with_io backend requests CURRENT_WORKSHOP_ID HUMAN_REVIEW_MODE stdin_isatty
         stdin stdout model_calls utcnow clock].
    destruct (IH lines w
      ((out ++ ["Enter review feedback (or 'approve'): "])
       ++ ["Please enter a response (or type 'approve')." +:+ nl]) Hb2)
      as [out' Hout].
    exists out'. exact Hout.
Qed.

(** The question gate, once it is past its two tests, is the loop on the
    input, after the question and the options were printed. *)
Lemma ask_enters_loop question options (w : World B) :
  HUMAN_REVIEW_MODE w = "interactive" ->
  stdin_isatty w = true ->
  exists out,
    ask_human_question_local question options w
    = ask_loop question options (stdin w) (with_io w (stdin w) out).
Proof.
  intros Hmode Htty. unfold ask_human_question_local.
  unfold bind at 1. unfold get_world at 1. rewrite Hmode, Htty.
  cbn [String.eqb Ascii.eqb Bool.eqb negb].
  unfold bind at 1. rewrite print_run.
  unfold bind at 1. rewrite print_run.
  unfold bind at 1.
  destruct (has_options options).
  - match goal with
    | |- context [print_options 1 ?o ?w0] =>
        destruct (print_options_run o 1 w0) as [out Hout]; rewrite Hout
    end.
    unfold bind at 1. unfold get_world at 1. exists out. reflexivity.
  - unfold ret at 1. unfold bind at 1. unfold get_world at 1.
    eexists. reflexivity.
Qed.

Lemma review_enters_loop draft (w : World B) :
  HUMAN_REVIEW_MODE w = "interactive" ->
  stdin_isatty w = true ->
  exists out,
    ask_human_for_review draft w = review_loop (stdin w) (with_io w (stdin w) out).
Proof.
  intros Hmode Htty. unfold ask_human_for_review.
  unfold bind at 1. unfold get_world at 1. rewrite Hmode, Htty.
  cbn [String.eqb Ascii.eqb Bool.eqb negb].
  do 5 (unfold bind at 1; rewrite print_run).
  unfold bind at 1. unfold get_world at 1. eexists. reflexivity.
Qed.

(** X7.  Outside the interactive mode, or when the standard input is not a
    terminal, both gates raise [RuntimeError] at once: nothing is printed,
    read, logged or sent. *)
Theorem gates_refuse_without_terminal (w : World B) (question : string)
    (options : option (list string)) (draft : string) :
  HUMAN_REVIEW_MODE w <> "interactive" \/ stdin_isatty w = false ->
  (exists msg, ask_human_question_local question options w = (Raise (RuntimeError msg), w))
  /\ (exists msg, ask_human_for_review draft w = (Raise (RuntimeError msg), w)).
Proof.
  intros H. unfold ask_human_question_local, ask_human_for_review.
  split; unfold bind at 1; unfold get_world at 1;
    (destruct (String.eqb_spec (HUMAN_REVIEW_MODE w) "interactive") as [E|E];
     [destruct H as [H|H]; [contradiction|]; rewrite H; cbn [negb]|]);
    eexists; reflexivity.
Qed.

(** Each way out of the loop of the question gate with a value logs that
    value last. *)
Lemma ask_loop_logged question options : forall lines (w w' : World B) a,
  ask_loop question options lines w = (Ok a, w') ->
  (exists task_id ts,
      last (requests w') = Some (client,
        AppendWorkOutcomes task_id "conversation" (conversation_entry ts question a)))
  /\ ((Py.nonempty a = true /\ Py.strip a = a) \/ In a (options_list options)).
Proof.
  assert (forall x (w0 w' : World B) a,
            (log_conversation question x ;;; ret x) w0 = (Ok a, w') ->
            a = x /\ exists task_id ts,
              last (requests w') = Some (client,
                AppendWorkOutcomes task_id "conversation" (conversation_entry ts question x)))
    as Hlog.
  { intros x w0 w' a E. apply bind_ok in E as ([] & w1 & E1 & E).
    injection E as <- <-. split; [reflexivity|].
    exact (log_conversation_request _ _ _ _ E1). }
  induction lines as [|line rest IH]; intros w w' a E; cbn [ask_loop] in E.
  - unfold bind in E. rewrite print_run in E. discriminate.
  - unfold bind at 1 in E. rewrite print_run in E.
    unfold bind at 1 in E. unfold set_stdin at 1 in E.
    destruct (String.eqb line ""); [discriminate|].
    destruct (Py.nonempty (Py.strip line)) eqn:Hne.
    + assert (forall w0, (log_conversation question (Py.strip line) ;;; ret (Py.strip line)) w0
                         = (Ok a, w') ->
              (exists task_id ts,
                 last (requests w') = Some (client,
                   AppendWorkOutcomes task_id "conversation"
                     (conversation_entry ts question a)))
              /\ ((Py.nonempty a = true /\ Py.strip a = a) \/ In a (options_list options)))
        as Hplain.
      { intros w0 E0. apply Hlog in E0 as [-> H]. split; [exact H|].
        left. split; [exact Hne|apply strip_chars_idem]. }
      destruct (has_options options && Py.isdigit (Py.strip line)); [|exact (Hplain _ E)].
      destruct (py_int (Py.strip line)) as [choice|]; [|discriminate].
      destruct ((1 <=? choice)%Z && (choice <=? Z.of_nat (length (options_list options)))%Z)
        eqn:Hrange; [|exact (Hplain _ E)].
      apply andb_prop in Hrange as [H1 H2].
      apply Z.leb_le in H1. apply Z.leb_le in H2.
      set (selected := nth (Z.to_nat (choice - 1)) (options_list options) "") in *.
      assert (In selected (options_list options)) as Hin.
      { apply nth_In. lia. }
      assert (forall w0, (log_conversation question selected ;;; ret selected) w0
                         = (Ok a, w') ->
              (exists task_id ts,
                 last (requests w') = Some (client,
                   AppendWorkOutcomes task_id "conversation"
                     (conversation_entry ts question a)))
              /\ ((Py.nonempty a = true /\ Py.strip a = a) \/ In a (options_list options)))
        as Hsel.
      { intros w0 E0. apply Hlog in E0 as [-> H]. split; [exact H|]. right. exact Hin. }
      destruct (Py.startswith (Py.lower selected) "other"); [|exact (Hsel _ E)].
      apply bind_ok in E as (detail & w1 & _ & E).
      destruct (Py.nonempty (Py.strip detail)) eqn:Hd; [|exact (Hsel _ E)].
      apply Hlog in E as [-> H]. split; [exact H|].
      left. split; [exact Hd|apply strip_chars_idem].
    + unfold bind at 1 in E. rewrite print_run in E. exact (IH _ _ _ E).
Qed.

(** X9.  What the question gate returns is what it logged: the last
    request before it returns appends the conversation entry of the
    question with the returned text as answer.  The returned text is a
    stripped, non-empty line of input, or one of the options. *)
Theorem ask_returns_what_it_logged (question : string) (options : option (list string))
    (w w' : World B) (a : string) :
  ask_human_question_local question options w = (Ok a, w') ->
  (exists task_id ts,
      last (requests w') = Some (client,
        AppendWorkOutcomes task_id "conversation" (conversation_entry ts question a)))
  /\ ((Py.nonempty a = true /\ Py.strip a = a) \/ In a (options_list options)).
Proof.
  intros E. unfold ask_human_question_local in E.
  apply bind_ok in E as (w0 & w1 & _ & E).
  destruct (String.eqb (HUMAN_REVIEW_MODE w0) "interactive"); [|discriminate].
  destruct (negb (stdin_isatty w0)); [discriminate|].
  apply bind_ok in E as (? & ? & _ & E).
  apply bind_ok in E as (? & ? & _ & E).
  apply bind_ok in E as (? & ? & _ & E).
  apply bind_ok in E as (? & ? & _ & E).
  exact (ask_loop_logged _ _ _ _ _ _ E).
Qed.

(** X8.  Blank lines are asked again; when the input ends before a line
    that is not blank was read, each gate raises [RuntimeError] for the
    closed input, having consumed the input and sent nothing. *)
Theorem gates_raise_at_end_of_input (w : World B) (question : string)
    (options : option (list string)) (draft : string) :
  HUMAN_REVIEW_MODE w = "interactive" ->
  stdin_isatty w = true ->
  forallb blank_line (stdin w) = true ->
  (exists out, ask_human_question_local question options w
               = (Raise stdin_closed, with_io w [] out))
  /\ (exists out, ask_human_for_review draft w = (Raise stdin_closed, with_io w [] out)).
Proof.
  intros Hmode Htty Hblank. split.
  - destruct (ask_enters_loop question options w Hmode Htty) as [out ->].
    destruct (ask_loop_skip question options (stdin w) [] w out Hblank) as [out' H].
    rewrite app_nil_r in H. rewrite H. cbn [ask_loop]. unfold bind. rewrite print_run.
    eexists. reflexivity.
  - destruct (review_enters_loop draft w Hmode Htty) as [out ->].
    destruct (review_loop_skip (stdin w) [] w out Hblank) as [out' H].
    rewrite app_nil_r in H. rewrite H. cbn [review_loop]. unfold bind. rewrite print_run.
    eexists. reflexivity.
Qed.

End Gates.
Section GateAnswers.
Context {B : Type} {BE : Backend B}.

(** The question gate at the first line that is not blank. *)
Lemma ask_reaches_line question options (w : World B) blanks line rest :
  HUMAN_REVIEW_MODE w = "interactive" ->
  stdin_isatty w = true ->
  stdin w = blanks ++ line :: rest ->
  forallb blank_line blanks = true ->
  exists out,
    ask_human_question_local question options w
    = ask_loop question options (line :: rest) (with_io w (line :: rest) out).
Proof.
  intros Hmode Htty Hin Hblank.
  destruct (ask_enters_loop question options w Hmode Htty) as [out ->].
  rewrite Hin.
  destruct (ask_loop_skip question options blanks (line :: rest) w out Hblank) as [out' H].
  exists out'. exact H.
Qed.

(** One iteration of the loop on a line that is not blank. *)
Lemma ask_loop_line question options (w : World B) line rest out :
  Py.nonempty (Py.strip line) = true ->
  let answer := Py.strip line in
  let w1 := with_io w rest (out ++ ["Your answer: "]) in
  let plain := log_conversation question answer ;;; ret answer in
  ask_loop question options (line :: rest) (with_io w (line :: rest) out)
  = (if has_options options && Py.isdigit answer then
       match py_int answer with
       | None => raise ValueError
       | Some choice =>
           if (1 <=? choice)%Z && (choice <=? Z.of_nat (length (options_list options)))%Z
           then
             let selected := nth (Z.to_nat (choice - 1)) (options_list options) "" in
             let choose := log_conversation question selected ;;; ret selected in
             if Py.startswith (Py.lower selected) "other" then
               let! detail := input "Please specify: " in
               let detail := Py.strip detail in
               if Py.nonempty detail then
                 log_conversation question detail ;;; ret detail
               else choose
             else choose
           else plain
       end
     else plain) w1.
Proof.
  intros Hne answer w1 plain. cbn [ask_loop].
  unfold bind at 1. rewrite print_run.
  unfold bind at 1. unfold set_stdin at 1.
  rewrite (nonempty_strip_line _ Hne), Hne. reflexivity.
Qed.

(** X10.  The first line that is not blank is the answer as typed,
    stripped, when the question has no options, when the line is not a
    number, and when it is a number that is not the index of an option
    (zero, or beyond the last one): that text is logged and returned. *)
Theorem ask_returns_typed_answer (w : World B) (question : string)
    (options : option (list string)) (blanks : list string) (line : string)
    (rest : list string) :
  HUMAN_REVIEW_MODE w = "interactive" ->
  stdin_isatty w = true ->
  stdin w = blanks ++ line :: rest ->
  forallb blank_line blanks = true ->
  Py.nonempty (Py.strip line) = true ->
  (has_options options = false
   \/ Py.isdigit (Py.strip line) = false
   \/ exists choice, py_int (Py.strip line) = Some choice
        /\ (choice < 1 \/ Z.of_nat (length (options_list options)) < choice)%Z) ->
  exists out,
    ask_human_question_local question options w
    = (log_conversation question (Py.strip line) ;;; ret (Py.strip line))
        (with_io w rest out).
Proof.
  intros Hmode Htty Hin Hblank Hne Hcase.
  destruct (ask_reaches_line question options w blanks line rest Hmode Htty Hin Hblank)
    as [out ->].
  rewrite (ask_loop_line question options w line rest out Hne).
  eexists.
  destruct Hcase as [H|[H|(choice & Hint & Hout)]].
  - rewrite H. reflexivity.
  - rewrite H, andb_false_r. reflexivity.
  - destruct (has_options options && Py.isdigit (Py.strip line)); [|reflexivity].
    rewrite Hint.
    destruct ((1 <=? choice)%Z && (choice <=? Z.of_nat (length (options_list options)))%Z)
      eqn:Hr; [|reflexivity].
    apply andb_prop in Hr as [H1 H2]. apply Z.leb_le in H1. apply Z.leb_le in H2. lia.
Qed.

(** X11.  A line that is the number of an option whose text does not
    start with "other" selects that option: the text of the option, not
    the number, is logged and returned. *)
Theorem ask_returns_selected_option (w : World B) (question : string)
    (options : list string) (blanks : list string) (line : string)
    (rest : list string) (choice : Z) :
  HUMAN_REVIEW_MODE w = "interactive" ->
  stdin_isatty w = true ->
  stdin w = blanks ++ line :: rest ->
  forallb blank_line blanks = true ->
  Py.isdigit (Py.strip line) = true ->
  py_int (Py.strip line) = Some choice ->
  (1 <= choice <= Z.of_nat (length options))%Z ->
  Py.startswith (Py.lower (nth (Z.to_nat (choice - 1)) options "")) "other" = false ->
  let selected := nth (Z.to_nat (choice - 1)) options "" in
  exists out,
    ask_human_question_local question (Some options) w
    = (log_conversation question selected ;;; ret selected) (with_io w rest out).
Proof.
  intros Hmode Htty Hin Hblank Hdig Hint Hrange Hother selected.
  assert (Py.nonempty (Py.strip line) = true) as Hne.
  { unfold Py.isdigit in Hdig. apply andb_prop in Hdig as [H _]. exact H. }
  assert (has_options (Some options) = true) as Hopts.
  { destruct options; [simpl in Hrange; lia|reflexivity]. }
  destruct (ask_reaches_line question (Some options) w blanks line rest Hmode Htty Hin Hblank)
    as [out ->].
  rewrite (ask_loop_line question (Some options) w line rest out Hne).
  rewrite Hopts, Hdig, Hint. cbn [andb options_list].
  destruct (Z.leb_spec 1 choice) as [_|]; [|lia].
  destruct (Z.leb_spec choice (Z.of_nat (length options))) as [_|]; [|lia].
  cbn [andb]. fold selected. fold selected in Hother. rewrite Hother.
  eexists. reflexivity.
Qed.

(** X12.  A line that is the number of an option whose text starts with
    "other" makes the gate read one more line with [input]: a detail that
    is not blank is logged and returned in place of the option, and the end
    of the input at that prompt raises [EOFError], with nothing logged. *)
Theorem ask_other_reads_detail (w : World B) (question : string)
    (options : list string) (blanks : list string) (line : string)
    (rest : list string) (choice : Z) :
  HUMAN_REVIEW_MODE w = "interactive" ->
  stdin_isatty w = true ->
  stdin w = blanks ++ line :: rest ->
  forallb blank_line blanks = true ->
  Py.isdigit (Py.strip line) = true ->
  py_int (Py.strip line) = Some choice ->
  (1 <= choice <= Z.of_nat (length options))%Z ->
  Py.startswith (Py.lower (nth (Z.to_nat (choice - 1)) options "")) "other" = true ->
  match rest with
  | [] =>
      exists out,
        ask_human_question_local question (Some options) w
        = (Raise EOFError, with_io w [] out)
  | detail_line :: rest' =>
      let detail := Py.strip (chomp detail_line) in
      Py.nonempty detail = true ->
      exists out,
        ask_human_question_local question (Some options) w
        = (log_conversation question detail ;;; ret detail) (with_io w rest' out)
  end.
Proof.
  intros Hmode Htty Hin Hblank Hdig Hint Hrange Hother.
  assert (Py.nonempty (Py.strip line) = true) as Hne.
  { unfold Py.isdigit in Hdig. apply andb_prop in Hdig as [H _]. exact H. }
  assert (has_options (Some options) = true) as Hopts.
  { destruct options; [simpl in Hrange; lia|reflexivity]. }
  destruct (ask_reaches_line question (Some options) w blanks line rest Hmode Htty Hin Hblank)
    as [out ->].
  rewrite (ask_loop_line question (Some options) w line rest out Hne).
  rewrite Hopts, Hdig, Hint. cbn [andb options_list].
  destruct (Z.leb_spec 1 choice) as [_|]; [|lia].
  destruct (Z.leb_spec choice (Z.of_nat (length options))) as [_|]; [|lia].
  cbn [andb]. rewrite Hother.
  destruct rest as [|detail_line rest'].
  - unfold bind at 1. unfold input. unfold bind at 1. rewrite print_run.
    eexists. reflexivity.
  - cbv zeta. intros Hd.
    unfold bind at 1. unfold input. unfold bind at 1. rewrite print_run.
    cbn [stdin with_io]. rewrite Hd. eexists. reflexivity.
Qed.

(** X13.  With options, a line that [str.isdigit] accepts and [int]
    rejects (a superscript digit is one) makes the gate raise
    [ValueError]; nothing is logged. *)
Theorem ask_raises_on_digit_that_is_no_number (w : World B) (question : string)
    (options : option (list string)) (blanks : list string) (line : string)
    (rest : list string) :
  HUMAN_REVIEW_MODE w = "interactive" ->
  stdin_isatty w = true ->
  stdin w = blanks ++ line :: rest ->
  forallb blank_line blanks = true ->
  has_options options = true ->
  Py.isdigit (Py.strip line) = true ->
  py_int (Py.strip line) = None ->
  exists out,
    ask_human_question_local question options w = (Raise ValueError, with_io w rest out).
Proof.
  intros Hmode Htty Hin Hblank Hopts Hdig Hint.
  assert (Py.nonempty (Py.strip line) = true) as Hne.
  { unfold Py.isdigit in Hdig. apply andb_prop in Hdig as [H _]. exact H. }
  destruct (ask_reaches_line question options w blanks line rest Hmode Htty Hin Hblank)
    as [out ->].
  rewrite (ask_loop_line question options w line rest out Hne).
  rewrite Hopts, Hdig, Hint. eexists. reflexivity.
Qed.

(** The loop of the review gate touches the console only, and what it
    returns is not empty and has no blank at either end. *)
Lemma review_loop_console : forall lines (w : World B),
  exists lines' out,
    snd (review_loop lines w) = with_io w lines' out
    /\ forall a, fst (review_loop lines w) = Ok a ->
         Py.nonempty a = true /\ Py.strip a = a.
Proof.
  induction lines as [|line rest IH]; intros w; cbn [review_loop].
  - unfold bind. rewrite print_run. eexists _, _. split; [reflexivity|discriminate].
  - unfold bind at 1. rewrite print_run.
    unfold bind at 1. unfold set_stdin at 1.
    destruct (String.eqb line ""); [eexists _, _; split; [reflexivity|discriminate]|].
    destruct (Py.nonempty (Py.strip line)) eqn:Hne.
    + assert (Py.strip (Py.strip line) = Py.strip line) as Hidem by apply strip_chars_idem.
      destruct (Py.isdigit (Py.strip line)).
      * destruct (String.eqb (Py.strip line) "1");
          [eexists _, _; split; [reflexivity|intros a [= <-]; split; reflexivity]|].
        destruct (String.eqb (Py.strip line) "2");
          [eexists _, _; split; [reflexivity|intros a [= <-]; split; reflexivity]|].
        eexists _, _; split; [reflexivity|intros a [= <-]; split; assumption].
      * eexists _, _; split; [reflexivity|intros a [= <-]; split; assumption].
    + unfold bind at 1. rewrite print_run.
      match goal with |- context [review_loop rest ?w0] =>
        destruct (IH w0) as (lines' & out & Hw & Ha) end.
      exists lines', out. split; [rewrite Hw; reflexivity|exact Ha].
Qed.

(** X14.  The review gate reads and prints and does nothing else: it sends
    no request, logs nothing and leaves the backend, the current workshop
    and the clock as they were.  What it returns is never empty and has no
    blank at either end. *)
Theorem review_touches_only_console (draft : string) (w : World B) :
  exists lines out,
    snd (ask_human_for_review draft w) = with_io w lines out
    /\ forall a, fst (ask_human_for_review draft w) = Ok a ->
         Py.nonempty a = true /\ Py.strip a = a.
Proof.
  destruct (ask_human_for_review draft w) as [r w'] eqn:E. cbn [fst snd].
  unfold ask_human_for_review in E. unfold bind at 1 in E. unfold get_world at 1 in E.
  destruct (String.eqb (HUMAN_REVIEW_MODE w) "interactive").
  2:{ injection E as <- <-. exists (stdin w), (stdout w). rewrite with_io_same.
      split; [reflexivity|discriminate]. }
  destruct (negb (stdin_isatty w)).
  { injection E as <- <-. exists (stdin w), (stdout w). rewrite with_io_same.
    split; [reflexivity|discriminate]. }
  do 5 (unfold bind at 1 in E; rewrite print_run in E).
  unfold bind at 1 in E. unfold get_world at 1 in E.
  match type of E with context [review_loop ?l ?w0] =>
    destruct (review_loop_console l w0) as (lines' & out & Hw & Ha) end.
  rewrite E in Hw, Ha. cbn [fst snd] in Hw, Ha.
  exists lines', out. split; [rewrite Hw; reflexivity|exact Ha].
Qed.

(** X15.  In the review gate the first line that is not blank decides:
    "1" is an approval, "2" a request for changes, and anything else, other
    numbers too, is the feedback itself, stripped. *)
Theorem review_first_line_decides (w : World B) (draft : string)
    (blanks : list string) (line : string) (rest : list string) :
  HUMAN_REVIEW_MODE w = "interactive" ->
  stdin_isatty w = true ->
  stdin w = blanks ++ line :: rest ->
  forallb blank_line blanks = true ->
  Py.nonempty (Py.strip line) = true ->
  exists out,
    ask_human_for_review draft w = (Ok (review_of (Py.strip line)), with_io w rest out).
Proof.
  intros Hmode Htty Hin Hblank Hne.
  destruct (review_enters_loop draft w Hmode Htty) as [out ->].
  rewrite Hin.
  destruct (review_loop_skip blanks (line :: rest) w out Hblank) as [out' ->].
  cbn [review_loop]. unfold bind at 1. rewrite print_run.
  unfold bind at 1. unfold set_stdin at 1.
  rewrite (nonempty_strip_line _ Hne), Hne. unfold review_of.
  destruct (Py.isdigit (Py.strip line)) eqn:Hdig.
  - destruct (String.eqb (Py.strip line) "1"); [eexists; reflexivity|].
    destruct (String.eqb (Py.strip line) "2"); eexists; reflexivity.
  - destruct (String.eqb_spec (Py.strip line) "1") as [E|_];
      [rewrite E in Hdig; discriminate|].
    destruct (String.eqb_spec (Py.strip line) "2") as [E|_];
      [rewrite E in Hdig; discriminate|].
    eexists. reflexivity.
Qed.

End GateAnswers.

(** ** Slugs: shape and fixed points *)

Lemma hyphen_not_alnum c : is_hyphen c = true -> Py.isalnum c = false.
Proof. unfold is_hyphen. intros H. apply Ascii.eqb_eq in H. subst. reflexivity. Qed.

Lemma slug_char_lower c : slug_char c = true -> Py.lower_char c = c.
Proof.
  unfold slug_char. intros [H|H]%orb_true_iff.
  - apply andb_prop in H as [_ H]. apply Ascii.eqb_eq in H. exact H.
  - unfold is_hyphen in H. apply Ascii.eqb_eq in H. subst. reflexivity.
Qed.

Lemma slugify_loop_out value :
  _slugify value =
  let slug := Py.strip_chars is_hyphen
                (string_of_list_ascii (loop_out false (list_ascii_of_string (Py.lower value)))) in
  if Py.nonempty slug then slug else "feature".
Proof.
  unfold _slugify.
  pose proof (slug_fold (list_ascii_of_string (Py.lower value)) [] false) as H.
  destruct (fold_left slug_step (list_ascii_of_string (Py.lower value)) ([], false))
    as [safe flag].
  simpl in H. rewrite app_empty in H. rewrite H. reflexivity.
Qed.

(** What the loop gives out is made of slug characters ... *)
Lemma loop_out_chars l : forall b,
  Forall (fun c => Py.lower_char c = c) l ->
  Py.all_chars slug_char (string_of_list_ascii (loop_out b l)) = true.
Proof.
  induction l as [|c l IH]; intros b Hl; [reflexivity|].
  inversion Hl as [|? ? Hc Hl']; subst. cbn [loop_out].
  destruct (Py.isalnum c) eqn:Ha.
  - cbn [string_of_list_ascii Py.all_chars]. rewrite (IH false Hl'), andb_true_r.
    unfold slug_char. rewrite Ha, Hc, Ascii.eqb_refl. reflexivity.
  - destruct b; cbn [negb]; [apply IH, Hl'|].
    cbn [string_of_list_ascii Py.all_chars]. rewrite (IH true Hl'). reflexivity.
Qed.

(** ... and has no two hyphens in a row, nor a hyphen first after one. *)
Lemma loop_out_single l : forall b : bool,
  single_hyphens
    (if b then String "-" (string_of_list_ascii (loop_out b l))
     else string_of_list_ascii (loop_out b l)) = true.
Proof.
  induction l as [|c l IH]; intros b; [destruct b; reflexivity|].
  cbn [loop_out]. destruct (Py.isalnum c) eqn:Ha.
  - assert (is_hyphen c = false) as Hh.
    { destruct (is_hyphen c) eqn:E; [|reflexivity].
      apply hyphen_not_alnum in E. congruence. }
    pose proof (IH false) as IH0. cbn [string_of_list_ascii] in *.
    assert (single_hyphens (String c (string_of_list_ascii (loop_out false l))) = true) as H1.
    { cbn [single_hyphens]. rewrite Hh, IH0.
      destruct (string_of_list_ascii (loop_out false l)); reflexivity. }
    destruct b; [|exact H1].
    change (negb (is_hyphen "-" && is_hyphen c)
            && single_hyphens (String c (string_of_list_ascii (loop_out false l))) = true).
    rewrite Hh, andb_false_r. exact H1.
  - destruct b; cbn [negb].
    + apply (IH true).
    + apply (IH true).
Qed.

Lemma all_chars_lstrip P p s :
  Py.all_chars P s = true -> Py.all_chars P (Py.lstrip p s) = true.
Proof.
  induction s as [|c s IH]; [reflexivity|]. cbn [Py.lstrip].
  intros H. destruct (p c); [|exact H].
  apply IH. cbn [Py.all_chars] in H. apply andb_prop in H as [_ H]. exact H.
Qed.

Lemma all_chars_rstrip P p s :
  Py.all_chars P s = true -> Py.all_chars P (Py.rstrip p s) = true.
Proof.
  induction s as [|c s IH]; [reflexivity|]. cbn [Py.rstrip Py.all_chars].
  intros [Hc Hs]%andb_prop. specialize (IH Hs).
  destruct (Py.rstrip p s) as [|d r].
  - destruct (p c); [reflexivity|]. cbn [Py.all_chars]. rewrite Hc. reflexivity.
  - cbn [Py.all_chars] in *. rewrite Hc. exact IH.
Qed.

Lemma single_hyphens_tail c s : single_hyphens (String c s) = true -> single_hyphens s = true.
Proof. cbn [single_hyphens]. intros [_ H]%andb_prop. exact H. Qed.

Lemma single_hyphens_lstrip p s :
  single_hyphens s = true -> single_hyphens (Py.lstrip p s) = true.
Proof.
  induction s as [|c s IH]; [reflexivity|]. cbn [Py.lstrip]. intros H.
  destruct (p c); [|exact H]. apply IH. exact (single_hyphens_tail _ _ H).
Qed.

Lemma rstrip_head p s d r : Py.rstrip p s = String d r -> exists t, s = String d t.
Proof.
  destruct s as [|c s]; [discriminate|]. cbn [Py.rstrip].
  destruct (Py.rstrip p s); [destruct (p c)|]; intros [= <- _]; eauto.
Qed.

Lemma single_hyphens_rstrip p s :
  single_hyphens s = true -> single_hyphens (Py.rstrip p s) = true.
Proof.
  induction s as [|c s IH]; [reflexivity|]. intros H.
  pose proof (IH (single_hyphens_tail _ _ H)) as IH'.
  cbn [Py.rstrip]. destruct (Py.rstrip p s) as [|d r] eqn:E.
  - destruct (p c); reflexivity.
  - destruct (rstrip_head _ _ _ _ E) as [t ->].
    cbn [single_hyphens] in H |- *. apply andb_prop in H as [H _].
    rewrite H. exact IH'.
Qed.

Lemma rstrip_strip_chars p s :
  Py.rstrip p (Py.strip_chars p s) = Py.strip_chars p s.
Proof. unfold Py.strip_chars. apply rstrip_idem. Qed.

Lemma lower_fixed_chars s :
  Forall (fun c => Py.lower_char c = c) (list_ascii_of_string (Py.lower s)).
Proof.
  induction s as [|c s IH]; [constructor|].
  cbn [Py.lower list_ascii_of_string]. constructor; [apply lower_char_idem|exact IH].
Qed.

Lemma slugify_well_formed value : well_formed_slug (_slugify value) = true.
Proof.
  rewrite slugify_loop_out. cbv zeta.
  set (raw := string_of_list_ascii (loop_out false (list_ascii_of_string (Py.lower value)))).
  destruct (Py.nonempty (Py.strip_chars is_hyphen raw)) eqn:Hne; [|reflexivity].
  unfold well_formed_slug. rewrite Hne, strip_chars_idem, String.eqb_refl.
  rewrite !andb_true_r. cbn [andb]. unfold Py.strip_chars.
  rewrite all_chars_rstrip, single_hyphens_rstrip; [reflexivity| |].
  - apply single_hyphens_lstrip. exact (loop_out_single _ false).
  - apply all_chars_lstrip, loop_out_chars, lower_fixed_chars.
Qed.

Lemma lower_slug s : Py.all_chars slug_char s = true -> Py.lower s = s.
Proof.
  induction s as [|c s IH]; [reflexivity|]. cbn [Py.all_chars Py.lower].
  intros [Hc Hs]%andb_prop. rewrite (slug_char_lower _ Hc), (IH Hs). reflexivity.
Qed.

(** On a text of the shape of a slug the loop changes nothing. *)
Lemma loop_out_slug s : forall b : bool,
  Py.all_chars slug_char s = true ->
  single_hyphens (if b then String "-" s else s) = true ->
  loop_out b (list_ascii_of_string s) = list_ascii_of_string s.
Proof.
  induction s as [|c s IH]; intros b Hc Hs; [reflexivity|].
  cbn [Py.all_chars] in Hc. apply andb_prop in Hc as [Hc Hcs].
  cbn [list_ascii_of_string loop_out].
  destruct (Py.isalnum c) eqn:Ha.
  - rewrite (IH false Hcs); [reflexivity|].
    destruct b; [apply single_hyphens_tail in Hs|]; exact (single_hyphens_tail _ _ Hs).
  - assert (is_hyphen c = true) as Hh.
    { unfold slug_char in Hc. rewrite Ha in Hc. exact Hc. }
    destruct b.
    + cbn [single_hyphens] in Hs. change (is_hyphen "-") with true in Hs.
      rewrite Hh in Hs. discriminate.
    + cbn [negb]. rewrite (IH true Hcs).
      * unfold is_hyphen in Hh. apply Ascii.eqb_eq in Hh. subst c. reflexivity.
      * unfold is_hyphen in Hh. apply Ascii.eqb_eq in Hh. subst c. exact Hs.
Qed.

Lemma slugify_fixes_slug s : well_formed_slug s = true -> _slugify s = s.
Proof.
  unfold well_formed_slug.
  intros [[[Hne Hc]%andb_prop Hs]%andb_prop He]%andb_prop.
  apply String.eqb_eq in He.
  rewrite slugify_loop_out. cbv zeta.
  rewrite (lower_slug _ Hc), (loop_out_slug s false Hc Hs).
  rewrite string_of_list_ascii_of_string, He, Hne. reflexivity.
Qed.

(** X16.  A slug is well formed: it is not empty, its characters are
    alphanumeric (and not changed by [lower]) or hyphens, no two hyphens
    follow each other and none stands at either end.  The well-formed
    texts are exactly those that [_slugify] leaves as they are; so
    [_slugify] applied twice gives what it gives once. *)
Theorem slugify_well_formed_fixed_points :
  (forall value, well_formed_slug (_slugify value) = true)
  /\ (forall s, _slugify s = s <-> well_formed_slug s = true)
  /\ (forall value, _slugify (_slugify value) = _slugify value).
Proof.
  split; [exact slugify_well_formed|]. split.
  - intros s. split; [|apply slugify_fixes_slug].
    intros E. rewrite <- E. apply slugify_well_formed.
  - intros value. apply slugify_fixes_slug, slugify_well_formed.
Qed.

(** ** Structured output extraction: the span *)

Lemma greedy_span_eq text :
  greedy_span text
  = match span_rest text with
    | Some r => Some (String.substring 0 (String.length text - String.length r) text)
    | None =>
        match text with
        | String _ rest => greedy_span rest
        | EmptyString => None
        end
    end.
Proof. destruct text; reflexivity. Qed.

Lemma search_from_greedy_span text :
  Re.search_from dotall json_span_regex text
  = match greedy_span text with
    | Some span => Some {| Re.group1 := Some span |}
    | None => None
    end.
Proof.
  induction text as [|x text IH].
  - reflexivity.
  - rewrite greedy_span_eq. cbn [Re.search_from]. rewrite rmatch_json_span.
    destruct (span_rest (String x text)); [reflexivity|exact IH].
Qed.

Lemma after_last_split c s r :
  after_last c s = Some r -> exists m, s = m +:+ String c r /\ contains c r = false.
Proof.
  revert r. induction s as [|x s IH]; intros r; cbn [after_last]; [discriminate|].
  destruct (after_last c s) as [r'|] eqn:E.
  - intros [= <-]. destruct (IH r' eq_refl) as (m & -> & Hr).
    exists (String x m). rewrite app_cons. auto.
  - destruct (Ascii.eqb_spec x c) as [->|_]; [|discriminate].
    intros [= <-]. exists "". split; [reflexivity|].
    clear IH. induction s as [|y s IHs]; [reflexivity|].
    cbn [after_last] in E. cbn [contains].
    destruct (after_last c s); [discriminate|].
    destruct (Ascii.eqb y c); [discriminate|]. cbn [orb]. apply IHs. reflexivity.
Qed.

(** A span begins with a brace or a bracket, ends with the closing
    character of its kind, and that character does not occur after it. *)
Lemma span_rest_split s r :
  span_rest s = Some r ->
  exists o c mid,
    ((o = "{"%char /\ c = "}"%char) \/ (o = "["%char /\ c = "]"%char))
    /\ s = String o (mid +:+ String c "") +:+ r
    /\ contains c r = false.
Proof.
  destruct s as [|x s]; [discriminate|]. unfold span_rest.
  destruct (Ascii.eqb_spec x "{") as [->|_].
  - intros H. apply after_last_split in H as (m & -> & Hr).
    exists "{"%char, "}"%char, m. split; [auto|]. split; [|exact Hr].
    rewrite app_cons, app_assoc_str, app_cons, app_empty. reflexivity.
  - destruct (Ascii.eqb_spec x "[") as [->|_]; [|discriminate].
    intros H. apply after_last_split in H as (m & -> & Hr).
    exists "["%char, "]"%char, m. split; [auto|]. split; [|exact Hr].
    rewrite app_cons, app_assoc_str, app_cons, app_empty. reflexivity.
Qed.

Lemma after_last_none c s : after_last c s = None -> contains c s = false.
Proof.
  induction s as [|x s IH]; [reflexivity|]. cbn [after_last contains].
  destruct (after_last c s); [discriminate|].
  destruct (Ascii.eqb x c); [discriminate|]. intros _. apply IH. reflexivity.
Qed.

Lemma span_rest_none x s : span_rest (String x s) = None -> opener_closed x s = false.
Proof.
  unfold span_rest, opener_closed.
  destruct (Ascii.eqb_spec x "{") as [->|_].
  - intros H. rewrite (after_last_none _ _ H). reflexivity.
  - destruct (Ascii.eqb_spec x "[") as [->|_]; [|reflexivity].
    intros H. rewrite (after_last_none _ _ H). reflexivity.
Qed.

Lemma greedy_span_split text span :
  greedy_span text = Some span ->
  exists pre suf o c mid,
    text = pre +:+ span +:+ suf
    /\ span = String o (mid +:+ String c "")
    /\ ((o = "{"%char /\ c = "}"%char) \/ (o = "["%char /\ c = "]"%char))
    /\ contains c suf = false
    /\ no_closed_opener pre (span +:+ suf) = true.
Proof.
  induction text as [|x text IH].
  - discriminate.
  - rewrite greedy_span_eq.
    destruct (span_rest (String x text)) as [r|] eqn:E.
    + destruct (span_rest_split _ _ E) as (o & c & mid & Hoc & Hs & Hr).
      rewrite Hs, substring_prefix. intros [= <-].
      exists "", r, o, c, mid. rewrite app_empty. auto.
    + intros H. destruct (IH H) as (pre & suf & o & c & mid & -> & Hs & Hoc & Hr & Hpre).
      exists (String x pre), suf, o, c, mid. rewrite app_cons.
      repeat split; try assumption.
      cbn [no_closed_opener]. rewrite (span_rest_none _ _ E), Hpre. reflexivity.
Qed.

Section Span.
Context {J : JsonLib}.

(** The extractor, with the search written as the span it finds. *)
Lemma extract_json_payload_span (text : string) :
  _extract_json_payload text
  = match json_loads text with
    | Loaded v => Ok v
    | LoadsRaises e => Raise e
    | JSONDecodeError =>
        match greedy_span text with
        | Some span =>
            match json_loads span with
            | Loaded v => Ok v
            | JSONDecodeError => Ok JNull
            | LoadsRaises e => Raise e
            end
        | None => Ok JNull
        end
    end.
Proof.
  unfold _extract_json_payload, Re.search. rewrite json_span_pattern_parsed.
  destruct (json_loads text); try reflexivity.
  change {| Re.IGNORECASE := false; Re.DOTALL := true |} with dotall.
  rewrite search_from_greedy_span.
  destruct (greedy_span text) as [span|]; reflexivity.
Qed.


(** X17.  [_extract_json_payload] tries the whole text, and a text that is
    not JSON as a whole is searched once, greedily: the span tried runs from
    the first brace or bracket that has its closing character after it to
    the last such closing character of the text, and when that span is not
    JSON the result is the absent value; no other span is tried.  The only
    exceptions that leave the function are those that [json.loads] raises
    other than [JSONDecodeError], on the text or on the span. *)
Theorem extract_json_payload_greedy (text : string) :
  _extract_json_payload text
  = match json_loads text with
    | Loaded v => Ok v
    | LoadsRaises e => Raise e
    | JSONDecodeError =>
        match greedy_span text with
        | Some span =>
            match json_loads span with
            | Loaded v => Ok v
            | JSONDecodeError => Ok JNull
            | LoadsRaises e => Raise e
            end
        | None => Ok JNull
        end
    end
  /\ forall span, greedy_span text = Some span ->
       exists pre suf o c mid,
         text = pre +:+ span +:+ suf
         /\ span = String o (mid +:+ String c "")
         /\ ((o = "{"%char /\ c = "}"%char) \/ (o = "["%char /\ c = "]"%char))
         /\ contains c suf = false
         /\ no_closed_opener pre (span +:+ suf) = true.
Proof. split; [apply extract_json_payload_span | apply greedy_span_split]. Qed.

End Span.

(** ** Discovery: the returned map and the order of the calls *)

Section DiscoveryRun.
Context {B : Type} {BE : Backend B}.

Lemma initial_phase_result model problem_statement d0 (w w1 : World B) d1 :
  initial_phase model problem_statement d0 w = (Ok d1, w1) ->
  if initial_missing d0 then exists v, d1 = <["initial" := v]> d0 else d1 = d0.
Proof.
  unfold initial_phase. destruct (initial_missing d0).
  - intros E. apply bind_ok in E as (out & w2 & _ & E).
    apply bind_ok in E as (text & w3 & _ & E).
    injection E as <- _. eauto.
  - intros [= <- _]. reflexivity.
Qed.

Lemma later_phase_result model key task_id phase_name context d0 (w w1 : World B) d1 :
  later_phase model key task_id phase_name context d0 w = (Ok d1, w1) ->
  match d0 !! key with
  | Some _ => d1 = d0
  | None => exists v, d1 = <[key := v]> d0
  end.
Proof.
  unfold later_phase. destruct (d0 !! key).
  - intros [= <- _]. reflexivity.
  - intros E. apply bind_ok in E as (out & w2 & _ & E).
    apply bind_ok in E as (text & w3 & _ & E).
    injection E as <- _. eauto.
Qed.

(** A block gives the map an entry under its key, keeps an entry that a
    later block finds, and leaves the other keys alone. *)
Lemma block_entries (key : string) (d0 d1 : gmap string string) :
  match d0 !! key with
  | Some _ => d1 = d0
  | None => exists v, d1 = <[key := v]> d0
  end ->
  is_Some (d1 !! key)
  /\ (forall v, d0 !! key = Some v -> d1 !! key = Some v)
  /\ (forall key', key' <> key -> d1 !! key' = d0 !! key').
Proof.
  destruct (d0 !! key) as [v0|] eqn:E.
  - intros ->. rewrite E. split; [eauto|]. split; [auto|reflexivity].
  - intros [v ->]. rewrite lookup_insert_eq. split; [eauto|].
    split; [discriminate|]. intros key' Hne. apply lookup_insert_ne. congruence.
Qed.

(** X18.  When [continue_discovery] returns, the map has an entry for each
    of the four phases; an entry that the map it started from had for a
    later phase is returned as it was, and so is a first refinement that
    is not blank; keys that are not phases are left as they were. *)
Theorem continue_discovery_returns_all_phases (model : ChatOpenAI)
    (problem_statement : string) (existing : option (gmap string string))
    (w w' : World B) (d : gmap string string) :
  continue_discovery model problem_statement existing w = (Ok d, w') ->
  (forall p, is_Some (d !! phase_key p))
  /\ (forall p v, kept_entry p existing = Some v -> d !! phase_key p = Some v)
  /\ (forall key, (forall p, key <> phase_key p) -> d !! key = start_map existing !! key).
Proof.
  rewrite continue_discovery_blocks. intros E.
  apply bind_ok in E as (? & ? & _ & E).
  apply bind_ok in E as (? & ? & _ & E).
  apply bind_ok in E as (? & ? & _ & E).
  apply bind_ok in E as (? & ? & _ & E).
  apply bind_ok in E as (d1 & w1 & E1 & E).
  unfold later_phases in E.
  apply bind_ok in E as (d2 & w2 & E2 & E).
  apply bind_ok in E as (d3 & w3 & E3 & E).
  apply bind_ok in E as (d4 & w4 & E4 & E).
  injection E as <- _.
  apply initial_phase_result in E1.
  apply later_phase_result, block_entries in E2 as (S2 & K2 & O2).
  apply later_phase_result, block_entries in E3 as (S3 & K3 & O3).
  apply later_phase_result, block_entries in E4 as (S4 & K4 & O4).
  set (d0 := start_map existing) in *.
  assert (is_Some (d1 !! "initial")
          /\ (initial_missing d0 = false -> d1 !! "initial" = d0 !! "initial")
          /\ forall key, key <> "initial" -> d1 !! key = d0 !! key) as (S1 & K1 & O1).
  { destruct (initial_missing d0) eqn:Hm.
    - destruct E1 as [v ->]. rewrite lookup_insert_eq. split; [eauto|].
      split; [discriminate|]. intros key Hne. apply lookup_insert_ne. congruence.
    - subst d1. unfold initial_missing in Hm.
      destruct (d0 !! "initial") eqn:Hi; [|discriminate]. split; [eauto|]. auto. }
  split; [|split].
  - intros []; cbn [phase_key].
    + rewrite O4, O3, O2 by discriminate. exact S1.
    + rewrite O4, O3 by discriminate. exact S2.
    + rewrite O4 by discriminate. exact S3.
    + exact S4.
  - intros p v Hk. unfold kept_entry in Hk.
    destruct existing as [e|]; [|discriminate]. change (start_map (Some e)) with e in d0.
    destruct p; cbn [phase_key] in *.
    + destruct (initial_missing e) eqn:Hm; [discriminate|].
      rewrite O4, O3, O2 by discriminate. rewrite (K1 Hm). exact Hk.
    + rewrite O4, O3 by discriminate. apply K2. rewrite O1 by discriminate. exact Hk.
    + rewrite O4 by discriminate. apply K3.
      rewrite O2, O1 by discriminate. exact Hk.
    + apply K4. rewrite O3, O2, O1 by discriminate. exact Hk.
  - intros key Hkey.
    rewrite O4 by exact (Hkey Clarify).
    rewrite O3 by exact (Hkey DecisionWorkshop).
    rewrite O2 by exact (Hkey EventStorming).
    apply O1. exact (Hkey Initial).
Qed.

End DiscoveryRun.
Section CallOrder.
Context {B : Type} {BE : Backend B}.

(** A computation that keeps every invariant of the form "the calls made
    are [c]" makes no call to the model. *)
Lemma no_model_call {A} (m : M B A) :
  (forall c, preserves (fun (_ : B) calls => calls = c) m) ->
  forall w, model_calls (snd (m w)) = model_calls w.
Proof. intros H w. exact (H (model_calls w) w eq_refl). Qed.

Lemma get_workshop_output_no_model_call task_id (w : World B) :
  model_calls (snd (get_workshop_output task_id w)) = model_calls w.
Proof.
  apply no_model_call. intros c.
  apply (pres_get_workshop_output _ (fun _ => True)); auto.
Qed.

Lemma set_workshop_output_no_model_call task_id output (w : World B) :
  model_calls (snd (set_workshop_output task_id output w)) = model_calls w.
Proof.
  apply no_model_call. intros c.
  apply (pres_set_workshop_output _ (fun _ => True)); auto.
Qed.

Lemma ensure_workshop_task_no_model_call task_id title preset description (w : World B) :
  model_calls (snd (ensure_workshop_task task_id title preset description w))
  = model_calls w.
Proof.
  apply no_model_call. intros c.
  apply (pres_ensure_workshop_task _ (fun _ => True)); auto.
Qed.

Lemma call_no_model_call who rq (w : World B) :
  model_calls (snd (call who rq w)) = model_calls w.
Proof. rewrite call_run. reflexivity. Qed.

(** [_run_agent] is one call to the model, whatever the human is asked
    along the way. *)
Lemma run_agent_one_call model sys user tools (w : World B) :
  model_calls (snd (_run_agent model sys user tools w)) = model_calls w ++ [(sys, user)].
Proof.
  unfold _run_agent, bind, log_model_call.
  destruct tools as [|t tools]; [reflexivity|].
  match goal with |- context [run_agent_loop ?a ?w0] =>
    change (model_calls w ++ [(sys, user)]) with (model_calls w0);
    apply (no_model_call (run_agent_loop a))
  end.
  intros c. apply (pres_run_agent_loop _ (fun _ => True)); auto.
Qed.

(** The calls of one later block: none, the phase alone when the run stops
    there, or the phase and its next steps. *)
Lemma later_phase_calls model key task_id phase_name context d0 (w : World B) :
  exists n,
    model_calls (snd (later_phase model key task_id phase_name context d0 w))
    = model_calls w ++ take n (phase_calls phase_name context)
    /\ (forall d1, fst (later_phase model key task_id phase_name context d0 w) = Ok d1 ->
        n <> 1%nat).
Proof.
  destruct (later_phase model key task_id phase_name context d0 w) as [r w'] eqn:E.
  cbn [fst snd]. unfold later_phase in E.
  destruct (d0 !! key).
  { injection E as <- <-. exists 0%nat. rewrite app_nil_r. split; [reflexivity|lia]. }
  unfold bind at 1 in E.
  pose proof (get_workshop_output_no_model_call task_id w) as Q1.
  destruct (get_workshop_output task_id w) as [[out|e] w1]; cbn [snd] in Q1.
  2:{ injection E as <- <-. exists 0%nat. rewrite app_nil_r. split; [congruence|lia]. }
  unfold bind at 1 in E.
  destruct (is_falsy out).
  2:{ injection E as <- <-. exists 0%nat. rewrite app_nil_r. split; [congruence|lia]. }
  unfold bind at 1 in E. unfold set_current_workshop at 1 in E.
  unfold bind at 1 in E. unfold run_discovery_phase in E.
  match type of E with context [_run_agent model ?s ?u ?t ?w0] =>
    pose proof (run_agent_one_call model s u t w0) as Q2;
    destruct (_run_agent model s u t w0) as [[text|e] w2]
  end; cbn [snd model_calls] in Q2.
  2:{ injection E as <- <-. exists 1%nat. split; [rewrite Q2, Q1; reflexivity|discriminate]. }
  unfold bind at 1 in E. unfold set_current_workshop at 1 in E.
  unfold bind at 1 in E.
  match type of E with context [set_workshop_output task_id text ?w0] =>
    pose proof (set_workshop_output_no_model_call task_id text w0) as Q3;
    destruct (set_workshop_output task_id text w0) as [[[]|e] w3]
  end; cbn [snd model_calls] in Q3.
  2:{ injection E as <- <-. exists 1%nat.
      split; [rewrite Q3, Q2, Q1; reflexivity|discriminate]. }
  unfold bind at 1 in E. unfold run_workshop_next_steps in E.
  match type of E with context [_run_agent model ?s ?u ?t ?w0] =>
    pose proof (run_agent_one_call model s u t w0) as Q4;
    destruct (_run_agent model s u t w0) as [[steps|e] w4]
  end; cbn [snd] in Q4.
  2:{ injection E as <- <-. exists 2%nat. split; [|lia].
      rewrite Q4, Q3, Q2, Q1, <- app_assoc. reflexivity. }
  unfold bind at 1 in E.
  match type of E with context [call ?who ?rq ?w0] =>
    pose proof (call_no_model_call who rq w0) as Q5;
    destruct (call who rq w0) as [[v|e] w5]
  end; cbn [snd] in Q5.
  - injection E as <- <-. exists 2%nat. split; [|lia].
    rewrite Q5, Q4, Q3, Q2, Q1, <- app_assoc. reflexivity.
  - injection E as <- <-. exists 2%nat. split; [|lia].
    rewrite Q5, Q4, Q3, Q2, Q1, <- app_assoc. reflexivity.
Qed.

Lemma initial_phase_calls model problem_statement d0 (w : World B) :
  exists n,
    model_calls (snd (initial_phase model problem_statement d0 w))
    = model_calls w ++ take n [(discovery_system_prompt, problem_statement)].
Proof.
  destruct (initial_phase model problem_statement d0 w) as [r w'] eqn:E.
  cbn [snd]. unfold initial_phase in E.
  destruct (initial_missing d0).
  2:{ injection E as <- <-. exists 0%nat. rewrite app_nil_r. reflexivity. }
  unfold bind at 1 in E.
  pose proof (get_workshop_output_no_model_call "problem-refinement" w) as Q1.
  destruct (get_workshop_output "problem-refinement" w) as [[out|e] w1]; cbn [snd] in Q1.
  2:{ injection E as <- <-. exists 0%nat. rewrite app_nil_r. congruence. }
  unfold bind at 1 in E.
  destruct (is_falsy out).
  2:{ injection E as <- <-. exists 0%nat. rewrite app_nil_r. congruence. }
  unfold bind at 1 in E. unfold set_current_workshop at 1 in E.
  unfold bind at 1 in E. unfold run_discovery in E.
  match type of E with context [_run_agent model ?s ?u ?t ?w0] =>
    pose proof (run_agent_one_call model s u t w0) as Q2;
    destruct (_run_agent model s u t w0) as [[text|e] w2]
  end; cbn [snd model_calls] in Q2.
  2:{ injection E as <- <-. exists 1%nat. rewrite Q2, Q1. reflexivity. }
  unfold bind at 1 in E. unfold set_current_workshop at 1 in E.
  unfold bind at 1 in E.
  match type of E with context [set_workshop_output ?t text ?w0] =>
    pose proof (set_workshop_output_no_model_call t text w0) as Q3;
    destruct (set_workshop_output t text w0) as [[[]|e] w3]
  end; cbn [snd model_calls] in Q3.
  - injection E as <- <-. exists 1%nat. rewrite Q3, Q2, Q1. reflexivity.
  - injection E as <- <-. exists 1%nat. rewrite Q3, Q2, Q1. reflexivity.
Qed.

(** X19.  The calls that a run of [continue_discovery] makes to the model
    come in the order of the phases, each at most once: the discovery on
    the problem statement, then for event storming, the decision workshop
    and the clarification the phase followed by its next steps, all three
    on one context.  Next steps are planned only for a phase that ran in
    this run; when the run returns, no phase is left without them. *)
Theorem continue_discovery_call_order (model : ChatOpenAI)
    (problem_statement : string) (existing : option (gmap string string))
    (w : World B) :
  exists n0 n1 n2 n3 context,
    model_calls (snd (continue_discovery model problem_statement existing w))
    = model_calls w
      ++ take n0 [(discovery_system_prompt, problem_statement)]
      ++ take n1 (phase_calls "Event Storming" context)
      ++ take n2 (phase_calls "Decision Workshop" context)
      ++ take n3 (phase_calls "Clarification" context)
    /\ (forall d, fst (continue_discovery model problem_statement existing w) = Ok d ->
        n1 <> 1%nat /\ n2 <> 1%nat /\ n3 <> 1%nat).
Proof.
  destruct (continue_discovery model problem_statement existing w) as [r w'] eqn:E.
  cbn [fst snd]. rewrite continue_discovery_blocks in E.
  assert (forall calls : list (string * string),
            calls = calls ++ take 0 [(discovery_system_prompt, problem_statement)]
                    ++ take 0 (phase_calls "Event Storming" "")
                    ++ take 0 (phase_calls "Decision Workshop" "")
                    ++ take 0 (phase_calls "Clarification" "")) as Hnone.
  { intros calls. cbn [take app]. rewrite app_nil_r. reflexivity. }
  assert (forall e (w0 : World B), model_calls w0 = model_calls w ->
            r = Raise e -> w' = w0 ->
            exists n0 n1 n2 n3 context,
              model_calls w' = model_calls w
                ++ take n0 [(discovery_system_prompt, problem_statement)]
                ++ take n1 (phase_calls "Event Storming" context)
                ++ take n2 (phase_calls "Decision Workshop" context)
                ++ take n3 (phase_calls "Clarification" context)
              /\ (forall d, r = Ok d -> n1 <> 1%nat /\ n2 <> 1%nat /\ n3 <> 1%nat)) as Hstop.
  { intros e w0 Hc -> ->. exists 0%nat, 0%nat, 0%nat, 0%nat, "".
    split; [rewrite Hc; apply Hnone|discriminate]. }
  unfold bind at 1 in E.
  match type of E with context [ensure_workshop_task ?a ?b ?c ?d ?w0] =>
    pose proof (ensure_workshop_task_no_model_call a b c d w0) as Q1;
    destruct (ensure_workshop_task a b c d w0) as [[t1|e] w1]
  end; cbn [snd] in Q1; [|injection E as E1 E2; eauto].
  unfold bind at 1 in E.
  match type of E with context [ensure_workshop_task ?a ?b ?c ?d ?w0] =>
    pose proof (ensure_workshop_task_no_model_call a b c d w0) as Q2;
    destruct (ensure_workshop_task a b c d w0) as [[t2|e] w2]
  end; cbn [snd] in Q2; rewrite Q1 in Q2; [|injection E as E1 E2; eauto].
  unfold bind at 1 in E.
  match type of E with context [ensure_workshop_task ?a ?b ?c ?d ?w0] =>
    pose proof (ensure_workshop_task_no_model_call a b c d w0) as Q3;
    destruct (ensure_workshop_task a b c d w0) as [[t3|e] w3]
  end; cbn [snd] in Q3; rewrite Q2 in Q3; [|injection E as E1 E2; eauto].
  unfold bind at 1 in E.
  match type of E with context [ensure_workshop_task ?a ?b ?c ?d ?w0] =>
    pose proof (ensure_workshop_task_no_model_call a b c d w0) as Q4;
    destruct (ensure_workshop_task a b c d w0) as [[t4|e] w4]
  end; cbn [snd] in Q4; rewrite Q3 in Q4; [|injection E as E1 E2; eauto].
  clear Hstop Q1 Q2 Q3 w1 w2 w3 t1 t2 t3 t4.
  unfold bind at 1 in E.
  destruct (initial_phase_calls model problem_statement (start_map existing) w4) as [n0 C0].
  rewrite Q4 in C0.
  destruct (initial_phase model problem_statement (start_map existing) w4) as [[d1|e] w5];
    cbn [snd] in C0.
  2:{ injection E as <- <-. exists n0, 0%nat, 0%nat, 0%nat, "".
      split; [|discriminate]. rewrite C0. cbn [take app]. rewrite app_nil_r. reflexivity. }
  set (context := discovery_context problem_statement d1) in *.
  unfold later_phases in E.
  unfold bind at 1 in E.
  match type of E with context [later_phase model ?k ?t ?n context ?d ?w0] =>
    destruct (later_phase_calls model k t n context d w0) as (n1 & C1 & R1);
    destruct (later_phase model k t n context d w0) as [[d2|e] w6]
  end; cbn [fst snd] in C1, R1; rewrite C0 in C1.
  2:{ injection E as <- <-. exists n0, n1, 0%nat, 0%nat, context.
      split; [|discriminate]. rewrite C1, <- app_assoc. cbn [take]. rewrite !app_nil_r.
      reflexivity. }
  unfold bind at 1 in E.
  match type of E with context [later_phase model ?k ?t ?n context ?d ?w0] =>
    destruct (later_phase_calls model k t n context d w0) as (n2 & C2 & R2);
    destruct (later_phase model k t n context d w0) as [[d3|e] w7]
  end; cbn [fst snd] in C2, R2; rewrite C1 in C2.
  2:{ injection E as <- <-. exists n0, n1, n2, 0%nat, context.
      split; [|discriminate]. rewrite C2, <- !app_assoc. cbn [take]. rewrite !app_nil_r.
      reflexivity. }
  unfold bind at 1 in E.
  match type of E with context [later_phase model ?k ?t ?n context ?d ?w0] =>
    destruct (later_phase_calls model k t n context d w0) as (n3 & C3 & R3);
    destruct (later_phase model k t n context d w0) as [[d4|e] w8]
  end; cbn [fst snd] in C3, R3; rewrite C2 in C3.
  - injection E as <- <-. exists n0, n1, n2, n3, context.
    split; [rewrite C3, <- !app_assoc; reflexivity|].
    intros d _. split; [exact (R1 d2 eq_refl)|]. split; [exact (R2 d3 eq_refl)|].
    exact (R3 d4 eq_refl).
  - injection E as <- <-. exists n0, n1, n2, n3, context.
    split; [rewrite C3, <- !app_assoc; reflexivity|discriminate].
Qed.

End CallOrder.

(** ** Backend tools *)

Section ToolRuns.
Context {B : Type} {BE : Backend B} {J : JsonLib}.

Lemma bind_lift {A C} (r : result A) (k : A -> M B C) (w : World B) :
  bind (lift r) k w = match r with Ok a => k a w | Raise e => (Raise e, w) end.
Proof. unfold bind, lift. destruct r; reflexivity. Qed.

Lemma bind_call {C} who rq (k : json -> M B C) (w : World B) :
  bind (call who rq) k w
  = match answer w who rq with
    | Ok data => k data (answered w who rq)
    | Raise e => (Raise e, answered w who rq)
    end.
Proof. unfold bind. rewrite call_run. reflexivity. Qed.







Lemma task_body_keys title task_type iteration_id assignee_id depends_on description
    priority :
  NoDup (map fst (task_body title task_type iteration_id assignee_id depends_on
                    description priority)).
Proof.
  unfold task_body.
  destruct (is_truthy iteration_id), (is_truthy assignee_id), (list_truthy depends_on),
    (is_truthy description), priority as [p|];
    apply (bool_decide_unpack _); vm_compute; exact I.
Qed.

(** X23.  The body that [create_workline_task_full] posts always has the
    title and the type; an optional text or list is sent only when it is
    given and not empty, a priority whenever it is given, zero too; no key
    is sent twice.  Of the answer the tool requires a dict with [id],
    [title], [type] and [status] ([KeyError] when one is missing,
    [TypeError] when the answer is no dict) and gives the absent value for
    an [iteration_id], [assignee_id] or [priority] that the answer lacks. *)
Theorem create_task_full_fields (title task_type : string)
    (iteration_id assignee_id : option string) (depends_on : option (list string))
    (description : option string) (priority : option Z) :
  let body :=
    task_body title task_type iteration_id assignee_id depends_on description priority in
  (assoc "title" body = Some (JStr title)
   /\ assoc "type" body = Some (JStr task_type)
   /\ assoc "iteration_id" body
      = (if is_truthy iteration_id then Some (JStr (text_of iteration_id)) else None)
   /\ assoc "assignee_id" body
      = (if is_truthy assignee_id then Some (JStr (text_of assignee_id)) else None)
   /\ assoc "depends_on" body
      = (if list_truthy depends_on
         then Some (JArr (map JStr (default [] depends_on))) else None)
   /\ assoc "description" body
      = (if is_truthy description then Some (JStr (text_of description)) else None)
   /\ assoc "priority" body = option_map JInt priority
   /\ NoDup (map fst body))
  /\ forall (w : World B) data,
       answer w planner_client (Request "POST" "tasks" (Some (JObj body))) = Ok data ->
       fst (create_workline_task_full title task_type iteration_id assignee_id
              depends_on description priority w)
       = match data with
         | JObj fields =>
             match assoc "id" fields, assoc "title" fields,
                   assoc "type" fields, assoc "status" fields with
             | Some id, Some title', Some type, Some status =>
                 Ok (JObj [("id", id); ("title", title'); ("type", type);
                           ("status", status);
                           ("iteration_id", default JNull (assoc "iteration_id" fields));
                           ("assignee_id", default JNull (assoc "assignee_id" fields));
                           ("priority", default JNull (assoc "priority" fields))])
             | _, _, _, _ => Raise KeyError
             end
         | _ => Raise TypeError
         end.
Proof.
  intros body. split.
  - split; [|split; [|split; [|split; [|split; [|split; [|split]]]]]];
      try apply task_body_keys;
      unfold body, task_body;
      destruct (is_truthy iteration_id), (is_truthy assignee_id),
        (list_truthy depends_on), (is_truthy description), priority as [p|];
      reflexivity.
  - intros w data Hans. unfold create_workline_task_full. fold body.
    rewrite bind_call, Hans.
    destruct data as [| | | | |fields]; try reflexivity.
    rewrite bind_lift. cbn [getitem].
    destruct (assoc "id" fields); [|reflexivity].
    rewrite bind_lift. cbn [getitem].
    destruct (assoc "title" fields); [|reflexivity].
    rewrite bind_lift. cbn [getitem].
    destruct (assoc "type" fields); [|reflexivity].
    rewrite bind_lift. cbn [getitem].
    destruct (assoc "status" fields); [|reflexivity].
    reflexivity.
Qed.

Lemma feature_items_shape entries :
  Forall (fun item => exists title summary,
            item = feature_item title summary
            /\ Py.nonempty title = true
            /\ Py.strip title = title /\ Py.strip summary = summary)
         (feature_items entries)
  /\ (length (feature_items entries) <= length entries)%nat.
Proof.
  induction entries as [|entry entries [IH1 IH2]]; [split; [constructor|reflexivity]|].
  cbn [feature_items length].
  destruct entry as [| | | | |fields]; try (split; [exact IH1|lia]).
  destruct (Py.nonempty (Py.strip _)) eqn:Hne; [|split; [exact IH1|lia]].
  split; [|cbn [length]; lia].
  constructor; [|exact IH1].
  eexists _, _. split; [reflexivity|]. split; [exact Hne|].
  split; apply strip_chars_idem.
Qed.

(** X24.  [run_feature_workshops] is one call to the model and nothing
    else.  When the model answers, the result follows the payload extracted
    from the answer: the empty list when it is not a list, otherwise the
    entries that are dicts with a title that is not blank, in order; an
    exception of the extraction (one that [json.loads] raised other than
    [JSONDecodeError]) goes up to the caller.  Each feature returned has a
    title that is not empty, and title and summary have no blank at either
    end. *)
Theorem run_feature_workshops_items (model : ChatOpenAI) (plan : string) (w : World B) :
  snd (run_feature_workshops model plan w) = called w features_system_prompt plan
  /\ (forall output,
        invoke model (length (model_calls w)) features_system_prompt plan = Ok output ->
        fst (run_feature_workshops model plan w)
        = match _extract_json_payload output with
          | Ok (JArr entries) => Ok (feature_items entries)
          | Ok _ => Ok []
          | Raise e => Raise e
          end)
  /\ (forall items,
        fst (run_feature_workshops model plan w) = Ok items ->
        Forall (fun item => exists title summary,
                  item = feature_item title summary
                  /\ Py.nonempty title = true
                  /\ Py.strip title = title /\ Py.strip summary = summary) items).
Proof.
  unfold run_feature_workshops, _run_agent, bind, log_model_call, lift.
  fold (called w features_system_prompt plan).
  destruct (invoke model (length (model_calls w)) features_system_prompt plan)
    as [output|e].
  2:{ split; [reflexivity|]. split; discriminate. }
  destruct (_extract_json_payload output) as [parsed|e] eqn:Hp.
  2:{ split; [reflexivity|].
      split; [intros out [= <-]; rewrite Hp; reflexivity|discriminate]. }
  split; [destruct parsed; reflexivity|]. split.
  - intros out [= <-]. rewrite Hp. destruct parsed; reflexivity.
  - intros items E.
    destruct parsed as [| | | |entries|]; cbn [fst ret] in E; injection E as <-;
      try constructor.
    apply feature_items_shape.
Qed.

End ToolRuns.

(** ** The refinement item, and the reference store *)

Section Refinement.
Context {B : Type} {BE : Backend B}.

(** X6.  [ensure_problem_refinement_task] looks the item
    [problem-refinement] up and returns the [id] member of what it found,
    without a second request: an item that exists is never posted again.
    Only when the lookup is answered with 404 (or with the absent value)
    does it post the item, with the fixed body, and return the [id] of the
    answer; any other error of the lookup goes up, nothing being posted. *)
Theorem ensure_problem_refinement_task_runs (w : World B) :
  let rq := get_task_request "problem-refinement" in
  let post := Request "POST" "tasks" (Some problem_refinement_body) in
  (forall task,
      answer w client rq = Ok task -> task <> JNull ->
      ensure_problem_refinement_task w = (id_of task, answered w client rq))
  /\ (forall body,
        answer w client rq = Raise (APIError 404 body) \/ answer w client rq = Ok JNull ->
        ensure_problem_refinement_task w
        = (rbind (answer (answered w client rq) client post) id_of,
           answered (answered w client rq) client post))
  /\ (forall e,
        answer w client rq = Raise e ->
        (forall body, e <> APIError 404 body) ->
        ensure_problem_refinement_task w = (Raise e, answered w client rq)).
Proof.
  intros rq post.
  assert (forall w1 : World B,
            (let! task := _create_problem_refinement_task "problem-refinement" in
             lift (getitem task "id")) w1
            = (rbind (answer w1 client post) id_of, answered w1 client post)) as Hpost.
  { intros w1. unfold _create_problem_refinement_task, bind. rewrite call_run.
    fold problem_refinement_body. fold post. fold (answer w1 client post).
    fold (answered w1 client post).
    destruct (answer w1 client post); reflexivity. }
  assert (_get_task "problem-refinement" w
          = (match answer w client rq with
             | Raise (APIError status_code body) =>
                 if Z.eqb status_code 404 then Ok JNull
                 else Raise (APIError status_code body)
             | r => r
             end, answered w client rq)) as Hget.
  { rewrite get_task_run. reflexivity. }
  unfold ensure_problem_refinement_task, _ensure_problem_refinement_task_exists.
  split; [|split].
  - intros task Hans Hne. unfold bind at 1. unfold bind at 1. rewrite Hget, Hans.
    destruct task; try reflexivity. contradiction.
  - intros body Hans.
    unfold bind at 1. unfold bind at 1. rewrite Hget.
    destruct Hans as [-> | ->]; exact (Hpost _).
  - intros e Hans Hne. unfold bind at 1. unfold bind at 1. rewrite Hget, Hans.
    destruct e; try reflexivity.
    destruct (Z.eqb_spec status_code 404) as [->|_]; [|reflexivity].
    destruct (Hne body eq_refl).
Qed.

End Refinement.

Section StoreRoundTrip.
Local Abbreviation store := (gmap string (list (string * json))).

Lemma store_get_task task_id (w : World store) :
  _get_task task_id w
  = (match backend w !! task_id with
     | Some task => Ok (JObj task)
     | None => Ok JNull
     end,
     sent w client (get_task_request task_id) (backend w)).
Proof.
  rewrite get_task_run.
  unfold backend_call, store_backend, Store.handle.
  cbn [String.eqb Ascii.eqb Bool.eqb]. rewrite strip_prefix_app.
  destruct (backend w !! task_id); reflexivity.
Qed.

(** Reading the output of an item whose outcomes hold a text under [output]. *)
Lemma store_get_output task_id s (w : World store) :
  Store.output (backend w) task_id = Some s ->
  get_workshop_output task_id w
  = (Ok (if Py.nonempty (Py.strip s) then Some s else None),
     sent w client (get_task_request task_id) (backend w)).
Proof.
  intros Hout. unfold get_workshop_output. unfold bind at 1. rewrite store_get_task.
  unfold Store.output in Hout.
  destruct (backend w !! task_id) as [task|] eqn:E; [|discriminate].
  unfold Store.outcomes in Hout.
  destruct (assoc "work_outcomes" task) as [[| | | | |o]|] eqn:Ew; try discriminate.
  assert (truthy (JObj task) = true) as ->.
  { destruct task; [discriminate|reflexivity]. }
  cbn [negb]. unfold bind at 1. unfold dict_get at 1, lift at 1. rewrite Ew.
  assert (or_else (JObj o) (JObj []) = JObj o) as ->.
  { destruct o; [discriminate|reflexivity]. }
  unfold bind at 1. unfold dict_get, lift.
  destruct (assoc "output" o) as [[| | |s'| |]|]; try discriminate.
  injection Hout as ->. destruct (Py.nonempty (Py.strip s)); reflexivity.
Qed.

Lemma store_put task_id key v task (w : World store) :
  backend w !! task_id = Some task ->
  call client (PutWorkOutcomes task_id key v) w
  = (Ok (JObj (Store.put_outcome key v task)),
     sent w client (PutWorkOutcomes task_id key v)
       (<[task_id := Store.put_outcome key v task]> (backend w))).
Proof.
  intros E. rewrite call_run. unfold backend_call, store_backend, Store.handle.
  rewrite E. reflexivity.
Qed.

Lemma store_append task_id key v task (w : World store) :
  backend w !! task_id = Some task ->
  call client (AppendWorkOutcomes task_id key v) w
  = (Ok (JObj (Store.append_outcome key v task)),
     sent w client (AppendWorkOutcomes task_id key v)
       (<[task_id := Store.append_outcome key v task]> (backend w))).
Proof.
  intros E. rewrite call_run. unfold backend_call, store_backend, Store.handle.
  rewrite E. reflexivity.
Qed.

(** X25.  On the reference store, for an item that exists,
    [set_workshop_output] returns, and [get_workshop_output] then gives the
    text back as it was written when it is not blank, and the absent value
    when it is; the other items are as they were.  For an item that does
    not exist the write raises the 404 error of the first request and the
    store is unchanged. *)
Theorem store_output_round_trip (task_id output : string) (w : World store) :
  match backend w !! task_id with
  | Some _ =>
      exists w1,
        set_workshop_output task_id output w = (Ok tt, w1)
        /\ fst (get_workshop_output task_id w1)
           = Ok (if Py.nonempty (Py.strip output) then Some output else None)
        /\ forall other, other <> task_id -> backend w1 !! other = backend w !! other
  | None =>
      set_workshop_output task_id output w
      = (Raise Store.not_found,
         sent w client (PutWorkOutcomes task_id "output" (JStr output)) (backend w))
  end.
Proof.
  destruct (backend w !! task_id) as [task|] eqn:E.
  - unfold set_workshop_output.
    unfold bind at 1. rewrite (store_put _ _ _ task w E).
    set (t1 := Store.put_outcome "output" (JStr output) task).
    set (w1 := sent w client _ _).
    assert (backend w1 !! task_id = Some t1) as E1 by apply lookup_insert_eq.
    unfold bind at 1. rewrite (store_put _ _ _ t1 w1 E1).
    set (t2 := Store.put_outcome "summary" (JStr output) t1).
    set (w2 := sent w1 client _ _).
    assert (backend w2 !! task_id = Some t2) as E2 by apply lookup_insert_eq.
    unfold append_workshop_conversation.
    unfold bind at 1. unfold now_isoformat at 1.
    unfold bind at 1.
    match goal with |- context [call client ?rq ?w0] =>
      rewrite (store_append task_id "conversation" _ t2 w0 E2);
      set (w3 := sent w0 client rq _)
    end.
    exists w3. split; [reflexivity|]. split.
    + rewrite (store_get_output task_id output w3); [reflexivity|].
      unfold Store.output. unfold w3. cbn [backend sent].
      rewrite lookup_insert_eq. unfold Store.append_outcome.
      rewrite outcomes_put_outcome, assoc_assoc_set_ne by discriminate.
      unfold t2. rewrite outcomes_put_outcome, assoc_assoc_set_ne by discriminate.
      unfold t1. rewrite outcomes_put_outcome, assoc_assoc_set_eq. reflexivity.
    + intros other Hne. unfold w3, w2, w1. cbn [backend sent].
      rewrite !lookup_insert_ne by congruence. reflexivity.
  - unfold set_workshop_output. unfold bind at 1. rewrite call_run.
    unfold backend_call, store_backend, Store.handle. rewrite E. reflexivity.
Qed.

(** X26.  On the reference store [ensure_workshop_task] always returns an
    item, and running it again for the same id returns that item, sends only
    the lookup and leaves the store as it is, whatever title, preset and
    description the second run is given. *)
Theorem store_ensure_twice (task_id title preset description title' preset' description'
    : string) (w : World store) :
  exists task w1,
    ensure_workshop_task task_id title preset description w = (Ok task, w1)
    /\ ensure_workshop_task task_id title' preset' description' w1
       = (Ok task, sent w1 client (get_task_request task_id) (backend w1)).
Proof.
  unfold ensure_workshop_task.
  unfold bind at 1. rewrite store_get_task.
  destruct (backend w !! task_id) as [task|] eqn:E.
  - eexists _, _. split; [reflexivity|].
    unfold bind. rewrite store_get_task. cbn [backend sent]. rewrite E. reflexivity.
  - rewrite call_run. unfold backend_call at 1 2, store_backend, Store.handle.
    cbn [String.eqb Ascii.eqb Bool.eqb andb assoc backend sent]. rewrite E.
    eexists _, _. split; [reflexivity|].
    unfold bind. rewrite store_get_task. cbn [backend sent fst snd].
    rewrite lookup_insert_eq. reflexivity.
Qed.

End StoreRoundTrip.

(** ** What a run may do *)

Section Frames.
Context {B : Type} {BE : Backend B}.
Variable R : World B -> World B -> Prop.
Variable allowed : WorklineClient -> request -> Prop.
Hypothesis R_refl : forall w, R w w.
Hypothesis R_trans : forall a b c, R a b -> R b c -> R a c.
Hypothesis R_call : forall who rq w b, allowed who rq -> R w (sent w who rq b).
Hypothesis R_io : forall w lines out, R w (with_io w lines out).
Hypothesis R_tick : forall w, R w (ticked w).
Hypothesis R_model : forall w sys user, R w (called w sys user).

Lemma keeps_ret {A} (a : A) : keeps R (ret (B:=B) a).
Proof. intros w. apply R_refl. Qed.

Lemma keeps_raise {A} e : keeps R (raise (B:=B) (A:=A) e).
Proof. intros w. apply R_refl. Qed.

Lemma keeps_lift {A} (r : result A) : keeps R (lift (B:=B) r).
Proof. intros w. apply R_refl. Qed.

Lemma keeps_get_world : keeps R (get_world (B:=B)).
Proof. intros w. apply R_refl. Qed.

Lemma keeps_bind {A C} (m : M B A) (k : A -> M B C) :
  keeps R m -> (forall a, keeps R (k a)) -> keeps R (bind m k).
Proof.
  intros Hm Hk w. unfold bind. specialize (Hm w).
  destruct (m w) as [[a|e] w1]; cbn [snd] in *; [|exact Hm].
  exact (R_trans _ _ _ Hm (Hk a w1)).
Qed.

Lemma keeps_try {A} (m : M B A) (h : exn -> M B A) :
  keeps R m -> (forall e, keeps R (h e)) -> keeps R (try_except m h).
Proof.
  intros Hm Hh w. unfold try_except. specialize (Hm w).
  destruct (m w) as [[a|e] w1]; cbn [snd] in *; [exact Hm|].
  exact (R_trans _ _ _ Hm (Hh e w1)).
Qed.

Lemma keeps_call who rq : allowed who rq -> keeps R (call who rq).
Proof. intros H w. rewrite call_run. apply R_call, H. Qed.

Lemma keeps_print text : keeps R (print (B:=B) text).
Proof. intros w. rewrite print_run. apply R_io. Qed.

Lemma keeps_set_stdin lines : keeps R (set_stdin (B:=B) lines).
Proof. intros w. exact (R_io w lines (stdout w)). Qed.

Lemma keeps_now : keeps R (now_isoformat (B:=B)).
Proof. intros w. apply R_tick. Qed.

Lemma keeps_log_model_call sys user : keeps R (log_model_call (B:=B) sys user).
Proof. intros w. apply R_model. Qed.

Lemma keeps_input prompt : keeps R (input (B:=B) prompt).
Proof.
  unfold input. apply keeps_bind; [apply keeps_print|]. intros _ w.
  destruct (stdin w) as [|line rest]; [apply R_refl|].
  exact (R_io w rest (stdout w)).
Qed.

Lemma keeps_print_options options : forall idx, keeps R (print_options (B:=B) idx options).
Proof.
  induction options as [|opt options IH]; intros idx; cbn [print_options].
  - apply keeps_ret.
  - apply keeps_bind; [apply keeps_print|]. intros _. apply IH.
Qed.

Lemma keeps_get_task task_id :
  allowed client (get_task_request task_id) -> keeps R (_get_task task_id).
Proof.
  intros H. unfold _get_task. apply keeps_try; [apply keeps_call, H|].
  intros [status_code body| | | | | | |]; try apply keeps_raise.
  destruct (Z.eqb status_code 404); [apply keeps_ret|apply keeps_raise].
Qed.

Lemma keeps_ensure_workshop_task task_id title preset description :
  allowed client (get_task_request task_id) ->
  allowed client
    (Request "POST" "tasks" (Some (workshop_body task_id title preset description))) ->
  keeps R (ensure_workshop_task task_id title preset description).
Proof.
  intros H1 H2. unfold ensure_workshop_task.
  apply keeps_bind; [apply keeps_get_task, H1|]. intros task.
  destruct task; try apply keeps_ret. apply keeps_call, H2.
Qed.

Lemma keeps_get_workshop_output task_id :
  allowed client (get_task_request task_id) -> keeps R (get_workshop_output task_id).
Proof.
  intros H. unfold get_workshop_output.
  apply keeps_bind; [apply keeps_get_task, H|]. intros task.
  destruct (negb (truthy task)); [apply keeps_ret|].
  apply keeps_bind; [apply keeps_lift|]. intros wo.
  apply keeps_bind; [apply keeps_lift|]. intros out.
  destruct out as [| | |s| |]; try apply keeps_ret.
  destruct (Py.nonempty (Py.strip s)); apply keeps_ret.
Qed.

Lemma keeps_append_workshop_conversation task_id question answer :
  (forall entry, allowed client (AppendWorkOutcomes task_id "conversation" entry)) ->
  keeps R (append_workshop_conversation task_id question answer).
Proof.
  intros H. unfold append_workshop_conversation.
  apply keeps_bind; [apply keeps_now|]. intros ts.
  apply keeps_bind; [apply keeps_call, H|]. intros ?. apply keeps_ret.
Qed.

Lemma keeps_set_workshop_output task_id output :
  (forall key value, allowed client (PutWorkOutcomes task_id key value)) ->
  (forall entry, allowed client (AppendWorkOutcomes task_id "conversation" entry)) ->
  keeps R (set_workshop_output task_id output).
Proof.
  intros H1 H2. unfold set_workshop_output.
  apply keeps_bind; [apply keeps_call, H1|]. intros ?.
  apply keeps_bind; [apply keeps_call, H1|]. intros ?.
  apply keeps_append_workshop_conversation, H2.
Qed.

Lemma keeps_ensure_problem_refinement_task :
  allowed client (get_task_request "problem-refinement") ->
  allowed client (Request "POST" "tasks" (Some problem_refinement_body)) ->
  keeps R ensure_problem_refinement_task.
Proof.
  intros H1 H2.
  unfold ensure_problem_refinement_task, _ensure_problem_refinement_task_exists.
  apply keeps_bind; [|intros ?; apply keeps_lift].
  apply keeps_bind; [apply keeps_get_task, H1|]. intros task.
  destruct task; try apply keeps_ret.
  unfold _create_problem_refinement_task. apply keeps_call, H2.
Qed.

Lemma keeps_log_conversation question answer :
  allowed client (get_task_request "problem-refinement") ->
  allowed client (Request "POST" "tasks" (Some problem_refinement_body)) ->
  (forall task_id entry, allowed client (AppendWorkOutcomes task_id "conversation" entry)) ->
  keeps R (log_conversation question answer).
Proof.
  intros H1 H2 H3. unfold log_conversation.
  apply keeps_bind; [apply keeps_get_world|]. intros w0.
  apply keeps_bind.
  { destruct (CURRENT_WORKSHOP_ID w0); [apply keeps_ret|].
    apply keeps_bind; [apply keeps_ensure_problem_refinement_task; assumption|].
    intros ?. apply keeps_ret. }
  intros _. apply keeps_bind; [apply keeps_get_world|]. intros w1.
  apply keeps_append_workshop_conversation. intros entry. apply H3.
Qed.

(** The gate and the agent loop, given what logging does. *)
Hypothesis R_log : forall question answer, keeps R (log_conversation question answer).

Lemma keeps_ask_loop question options lines :
  keeps R (ask_loop question options lines).
Proof.
  induction lines as [|line rest IH]; cbn [ask_loop].
  - apply keeps_bind; [apply keeps_print|]. intros _. apply keeps_raise.
  - apply keeps_bind; [apply keeps_print|]. intros _.
    apply keeps_bind; [apply keeps_set_stdin|]. intros _.
    destruct (String.eqb line ""); [apply keeps_raise|].
    assert (forall ans, keeps R (log_conversation question ans ;;; ret ans)) as Hlog.
    { intros ans. apply keeps_bind; [apply R_log|]. intros _. apply keeps_ret. }
    destruct (Py.nonempty (Py.strip line)).
    + destruct (has_options options && Py.isdigit (Py.strip line)); [|apply Hlog].
      destruct (py_int (Py.strip line)); [|apply keeps_raise].
      match goal with |- keeps _ (if ?c then _ else _) => destruct c end; [|apply Hlog].
      match goal with |- keeps _ (if ?c then _ else _) => destruct c end; [|apply Hlog].
      apply keeps_bind; [apply keeps_input|]. intros detail.
      destruct (Py.nonempty (Py.strip detail)); apply Hlog.
    + apply keeps_bind; [apply keeps_print|]. intros _. apply IH.
Qed.

Lemma keeps_ask_human_question_local question options :
  keeps R (ask_human_question_local question options).
Proof.
  unfold ask_human_question_local.
  apply keeps_bind; [apply keeps_get_world|]. intros w0.
  destruct (String.eqb (HUMAN_REVIEW_MODE w0) "interactive"); [|apply keeps_raise].
  destruct (negb (stdin_isatty w0)); [apply keeps_raise|].
  apply keeps_bind; [apply keeps_print|]. intros _.
  apply keeps_bind; [apply keeps_print|]. intros _.
  apply keeps_bind.
  { destruct (has_options options); [apply keeps_print_options|apply keeps_ret]. }
  intros _. apply keeps_bind; [apply keeps_get_world|]. intros w1.
  apply keeps_ask_loop.
Qed.

Lemma keeps_run_agent_loop a : keeps R (run_agent_loop (B:=B) a).
Proof.
  induction a as [r|question options k IH]; cbn [run_agent_loop].
  - apply keeps_lift.
  - intros w.
    pose proof (keeps_ask_human_question_local question options w) as H1.
    destruct (ask_human_question_local question options w) as [r w1].
    exact (R_trans _ _ _ H1 (IH r w1)).
Qed.

Lemma keeps_run_agent model sys user tools :
  keeps R (_run_agent (B:=B) model sys user tools).
Proof.
  unfold _run_agent. apply keeps_bind; [apply keeps_log_model_call|]. intros n.
  destruct tools; [apply keeps_lift|apply keeps_run_agent_loop].
Qed.

End Frames.

Section GateRequests.
Context {B : Type} {BE : Backend B}.

Lemma sends_only_refl P (w : World B) : sends_only P w w.
Proof. exists []. split; [symmetry; apply app_nil_r|constructor]. Qed.

Lemma sends_only_same P (w w' : World B) : requests w' = requests w -> sends_only P w w'.
Proof. intros E. exists []. split; [rewrite E; symmetry; apply app_nil_r|constructor]. Qed.

Lemma sends_only_trans P (a b c : World B) :
  sends_only P a b -> sends_only P b c -> sends_only P a c.
Proof.
  intros (n1 & E1 & F1) (n2 & E2 & F2). exists (n1 ++ n2).
  split; [rewrite E2, E1; symmetry; apply app_assoc|apply Forall_app; auto].
Qed.

Lemma sends_only_call (P : WorklineClient * request -> Prop) who rq (w : World B) b :
  P (who, rq) -> sends_only P w (sent w who rq b).
Proof.
  intros H. exists [(who, rq)]. split; [reflexivity|]. constructor; [exact H|constructor].
Qed.

(** X27.  The question gate, and the agents whose only tool it is (the
    discovery, the discovery phases and the planner), send nothing but the
    lookup and the creation of the refinement item and the appending of
    conversation entries, all by the default client: whatever the model and
    the human do, no outcome field is written during such a run. *)
Theorem question_agents_only_log (model : ChatOpenAI) (w : World B) :
  (forall question options,
      sends_only gate_request w (snd (ask_human_question_local question options w)))
  /\ (forall problem_statement,
        sends_only gate_request w (snd (run_discovery model problem_statement w)))
  /\ (forall phase_name context,
        sends_only gate_request w (snd (run_discovery_phase model phase_name context w)))
  /\ (forall discovery_output,
        sends_only gate_request w (snd (run_planner model discovery_output w))).
Proof.
  pose (allowed := fun who rq => gate_request (who, rq)).
  assert (forall (w0 : World B) lines out, sends_only gate_request w0 (with_io w0 lines out))
    as Hio by (intros; apply sends_only_same; reflexivity).
  assert (forall w0 : World B, sends_only gate_request w0 (ticked w0))
    as Htick by (intros; apply sends_only_same; reflexivity).
  assert (forall (w0 : World B) sys user, sends_only gate_request w0 (called w0 sys user))
    as Hmodel by (intros; apply sends_only_same; reflexivity).
  assert (forall question answer,
            keeps (sends_only gate_request) (log_conversation (B:=B) question answer)) as Hlog.
  { intros. apply (keeps_log_conversation (sends_only gate_request) allowed
                     (sends_only_refl _) (sends_only_trans _)
                     (fun who rq w0 b => sends_only_call gate_request who rq w0 b) Htick).
    - split; [reflexivity|]. left. reflexivity.
    - split; [reflexivity|]. right. left. reflexivity.
    - intros. split; [reflexivity|]. right. right. eauto. }
  split; [|split; [|split]]; intros.
  - apply (keeps_ask_human_question_local (sends_only gate_request)
             (sends_only_refl _) (sends_only_trans _) Hio Hlog).
  - apply (keeps_run_agent (sends_only gate_request)
             (sends_only_refl _) (sends_only_trans _) Hio Hmodel Hlog).
  - apply (keeps_run_agent (sends_only gate_request)
             (sends_only_refl _) (sends_only_trans _) Hio Hmodel Hlog).
  - apply (keeps_run_agent (sends_only gate_request)
             (sends_only_refl _) (sends_only_trans _) Hio Hmodel Hlog).
Qed.

(** With a current workshop, [log_conversation] is the appending of the
    entry to its conversation. *)
Lemma log_conversation_current T question answer (w : World B) :
  CURRENT_WORKSHOP_ID w = Some T ->
  Py.nonempty T = true ->
  exists entry b,
    snd (log_conversation question answer w)
    = sent (ticked w) client (AppendWorkOutcomes T "conversation" entry) b.
Proof.
  intros Hid HT. unfold log_conversation.
  unfold bind at 1. unfold get_world at 1. rewrite Hid.
  unfold bind at 1. unfold ret at 1.
  unfold bind at 1. unfold get_world at 1. rewrite Hid, HT.
  rewrite append_conversation_run. eexists _, _. reflexivity.
Qed.

Lemma logs_to_trans T (a b c : World B) : logs_to T a b -> logs_to T b c -> logs_to T a c.
Proof.
  intros H1 H2 Ha. destruct (H1 Ha) as [Hb S1]. destruct (H2 Hb) as [Hc S2].
  split; [exact Hc|exact (sends_only_trans _ _ _ _ S1 S2)].
Qed.

Lemma logs_to_same T (w w' : World B) :
  CURRENT_WORKSHOP_ID w' = CURRENT_WORKSHOP_ID w -> requests w' = requests w ->
  logs_to T w w'.
Proof.
  intros Hc Hr Hw. split; [congruence|apply sends_only_same, Hr].
Qed.

(** An agent run inside a workshop logs to that workshop. *)
Lemma run_agent_logs_to T model sys user tools :
  Py.nonempty T = true ->
  keeps (logs_to T) (_run_agent (B:=B) model sys user tools).
Proof.
  intros HT.
  apply (keeps_run_agent (logs_to T)).
  - intros w0. apply logs_to_same; reflexivity.
  - apply logs_to_trans.
  - intros. apply logs_to_same; reflexivity.
  - intros. apply logs_to_same; reflexivity.
  - intros question answer w0 Hw0.
    destruct (log_conversation_current T question answer w0 Hw0 HT) as (entry & b & ->).
    split; [exact Hw0|]. exists [(client, AppendWorkOutcomes T "conversation" entry)].
    split; [reflexivity|]. constructor; [eauto|constructor].
Qed.

Lemma phase_task_nonempty p : Py.nonempty (phase_task p) = true.
Proof. destruct p; reflexivity. Qed.

Lemma touches_phase_item p rq : touches (phase_task p) rq -> phase_item_request (client, rq).
Proof. intros H. split; [reflexivity|]. exists p. exact H. Qed.

Lemma sends_only_weaken (P Q : WorklineClient * request -> Prop) (w w' : World B) :
  (forall r, P r -> Q r) -> sends_only P w w' -> sends_only Q w w'.
Proof.
  intros HPQ (new & E & F). exists new. split; [exact E|].
  eapply Forall_impl; [exact F|exact HPQ].
Qed.

(** A phase runner started right after its work-item became the current
    workshop. *)
Lemma phase_run_touches p model sys user tools :
  keeps (sends_only phase_item_request)
    (set_current_workshop (B:=B) (Some (phase_task p)) ;;;
     _run_agent model sys user tools).
Proof.
  intros w. unfold bind at 1. unfold set_current_workshop at 1.
  match goal with |- context [_run_agent model sys user tools ?w0] =>
    pose proof (run_agent_logs_to (phase_task p) model sys user tools
                  (phase_task_nonempty p) w0 eq_refl) as [_ H]
  end.
  eapply sends_only_weaken; [|exact H].
  intros r [entry ->]. apply (touches_phase_item p). right. right. right. eauto.
Qed.

(** X28.  A run of [continue_discovery] concerns the four work-items of
    the discovery and no other: every request it sends, the entries logged
    for the questions that the agents ask included, is a lookup or the
    creation of one of these items, a write to its outcomes or an entry
    appended to its conversation, by the default client. *)
Theorem continue_discovery_touches_phase_items (model : ChatOpenAI)
    (problem_statement : string) (existing : option (gmap string string))
    (w : World B) :
  sends_only phase_item_request w
    (snd (continue_discovery model problem_statement existing w)).
Proof.
  set (R := sends_only (B:=B) phase_item_request).
  pose (allowed := fun who rq => phase_item_request (who, rq)).
  assert (forall w0 : World B, R w0 w0) as Hrefl by apply sends_only_refl.
  assert (forall a b c : World B, R a b -> R b c -> R a c) as Htrans
    by apply sends_only_trans.
  assert (forall who rq (w0 : World B) b, allowed who rq -> R w0 (sent w0 who rq b))
    as Hcall by (intros; apply sends_only_call; assumption).
  assert (forall w0 : World B, R w0 (ticked w0))
    as Htick by (intros; apply sends_only_same; reflexivity).
  assert (forall (w0 : World B) sys user, R w0 (called w0 sys user))
    as Hmodel by (intros; apply sends_only_same; reflexivity).
  assert (forall p, allowed client (get_task_request (phase_task p))) as Aget.
  { intros p. apply (touches_phase_item p). left. reflexivity. }
  assert (forall p title preset description,
            allowed client (Request "POST" "tasks"
                              (Some (workshop_body (phase_task p) title preset description))))
    as Apost.
  { intros p ? ? ?. apply (touches_phase_item p). right. left. eauto. }
  assert (forall p key value, allowed client (PutWorkOutcomes (phase_task p) key value))
    as Aput.
  { intros p ? ?. apply (touches_phase_item p). right. right. left. eauto. }
  assert (forall p entry,
            allowed client (AppendWorkOutcomes (phase_task p) "conversation" entry))
    as Aapp.
  { intros p ?. apply (touches_phase_item p). right. right. right. eauto. }
  assert (forall p title preset description,
            keeps R (ensure_workshop_task (phase_task p) title preset description)) as Kens.
  { intros. apply (keeps_ensure_workshop_task R allowed); auto. }
  assert (forall p, keeps R (get_workshop_output (phase_task p))) as Kget.
  { intros. apply (keeps_get_workshop_output R allowed); auto. }
  assert (forall p out, keeps R (set_workshop_output (phase_task p) out)) as Kset.
  { intros. apply (keeps_set_workshop_output R allowed); auto. }
  assert (forall A (a : A), keeps R (ret (B:=B) a)) as Kret
    by (intros; apply keeps_ret; assumption).
  assert (forall id, keeps R (set_current_workshop (B:=B) id)) as Kcur.
  { intros id w0. apply sends_only_same. reflexivity. }
  assert (forall sys user, keeps R (_run_agent (B:=B) model sys user [])) as Kplain.
  { intros sys user. unfold _run_agent.
    apply (keeps_bind R Htrans); [intros w0; apply Hmodel|]. intros n.
    apply keeps_lift. exact Hrefl. }
  assert (forall p key name context d,
            keeps R (later_phase model key (phase_task p) name context d)) as Klater.
  { intros p key name context d. unfold later_phase.
    destruct (d !! key); [apply Kret|].
    apply (keeps_bind R Htrans); [apply Kget|]. intros out.
    apply (keeps_bind R Htrans); [|intros ?; apply Kret].
    destruct (is_falsy out); [|apply Kret].
    intros w0.
    pose proof (phase_run_touches p model (phase_system_prompt name) context
                  [ask_human_question] w0) as H1.
    unfold bind at 1 in H1. unfold set_current_workshop at 1 in H1.
    unfold bind at 1. unfold set_current_workshop at 1. unfold run_discovery_phase.
    unfold bind at 1.
    match type of H1 with context [_run_agent ?m ?s ?u ?t ?w1] =>
      destruct (_run_agent m s u t w1) as [[text|e] w2]
    end; cbn [snd] in H1 |- *; [|exact H1].
    apply (Htrans _ _ _ H1).
    apply (keeps_bind R Htrans); [apply Kcur|]. intros _.
    apply (keeps_bind R Htrans); [apply Kset|]. intros _.
    apply (keeps_bind R Htrans); [apply Kplain|]. intros steps.
    apply (keeps_bind R Htrans); [|intros ?; apply Kret].
    apply (keeps_call R allowed Hcall). apply Aput. }
  rewrite continue_discovery_blocks.
  apply (keeps_bind R Htrans); [apply (Kens Initial)|]. intros _.
  apply (keeps_bind R Htrans); [apply (Kens EventStorming)|]. intros _.
  apply (keeps_bind R Htrans); [apply (Kens DecisionWorkshop)|]. intros _.
  apply (keeps_bind R Htrans); [apply (Kens Clarify)|]. intros _.
  apply (keeps_bind R Htrans).
  { unfold initial_phase. destruct (initial_missing (start_map existing)); [|apply Kret].
    apply (keeps_bind R Htrans); [apply (Kget Initial)|]. intros out.
    apply (keeps_bind R Htrans); [|intros ?; apply Kret].
    destruct (is_falsy out); [|apply Kret].
    intros w0.
    pose proof (phase_run_touches Initial model discovery_system_prompt problem_statement
                  [ask_human_question] w0) as H1.
    unfold bind at 1 in H1. unfold set_current_workshop at 1 in H1.
    cbn [phase_task] in H1.
    unfold bind at 1. unfold set_current_workshop at 1. unfold run_discovery.
    unfold bind at 1.
    match type of H1 with context [_run_agent ?m ?s ?u ?t ?w1] =>
      destruct (_run_agent m s u t w1) as [[text|e] w2]
    end; cbn [snd] in H1 |- *; [|exact H1].
    apply (Htrans _ _ _ H1).
    apply (keeps_bind R Htrans); [apply Kcur|]. intros _.
    apply (keeps_bind R Htrans); [apply (Kset Initial)|]. intros _. apply Kret. }
  intros d1. unfold later_phases.
  apply (keeps_bind R Htrans); [apply (Klater EventStorming)|]. intros d2.
  apply (keeps_bind R Htrans); [apply (Klater DecisionWorkshop)|]. intros d3.
  apply (keeps_bind R Htrans); [apply (Klater Clarify)|]. intros d4.
  apply Kret.
Qed.

End GateRequests.

(** ** Closed runs of the further statements *)

Lemma get_problem_refinement_discovery_shape_witness :
  exists d w',
    get_problem_refinement_discovery (start_world events_done []) = (Ok (Some d), w')
    /\ length (requests w') = 4%nat
    /\ d <> ∅.
Proof.
  assert (exists d, fst (get_problem_refinement_discovery (start_world events_done []))
                    = Ok (Some d)) as [d Hd].
  { vm_compute. eexists. reflexivity. }
  destruct (get_problem_refinement_discovery (start_world events_done []))
    as [r w'] eqn:E.
  cbn [fst] in Hd. subst r.
  destruct (get_problem_refinement_discovery_shape _ _ _ E) as [Hr Hd].
  exists d, w'. split; [reflexivity|]. split.
  - rewrite Hr. reflexivity.
  - exact (proj1 (Hd d eq_refl)).
Defined.

Lemma gates_refuse_without_terminal_witness :
  (exists msg,
      ask_human_question_local "Which one?" (Some menu) (piped_world ["1" +:+ nl])
      = (Raise (RuntimeError msg), piped_world ["1" +:+ nl]))
  /\ (exists msg,
        ask_human_for_review "Plan" (piped_world ["1" +:+ nl])
        = (Raise (RuntimeError msg), piped_world ["1" +:+ nl])).
Proof.
  apply (gates_refuse_without_terminal (piped_world ["1" +:+ nl])). right. reflexivity.
Defined.

Lemma ask_returns_what_it_logged_witness :
  exists w',
    ask_human_question_local "Which one?" (Some menu)
      (start_world (∅ : gmap string (list (string * json))) ["2" +:+ nl])
    = (Ok "B", w')
    /\ exists task_id ts,
         last (requests w')
         = Some (client, AppendWorkOutcomes task_id "conversation"
                           (conversation_entry ts "Which one?" "B")).
Proof.
  assert (fst (ask_human_question_local "Which one?" (Some menu)
                 (start_world (∅ : gmap string (list (string * json))) ["2" +:+ nl]))
          = Ok "B") as Hr.
  { vm_compute. reflexivity. }
  destruct (ask_human_question_local "Which one?" (Some menu)
              (start_world (∅ : gmap string (list (string * json))) ["2" +:+ nl]))
    as [r w'] eqn:E.
  cbn [fst] in Hr. subst r.
  exists w'. split; [reflexivity|].
  exact (proj1 (ask_returns_what_it_logged _ _ _ _ _ E)).
Defined.

Lemma gates_raise_at_end_of_input_witness :
  let w := start_world (∅ : gmap string (list (string * json))) [nl; "  " +:+ nl] in
  (exists out, ask_human_question_local "Which one?" (Some menu) w
               = (Raise stdin_closed, with_io w [] out))
  /\ (exists out, ask_human_for_review "Plan" w = (Raise stdin_closed, with_io w [] out)).
Proof.
  intros w. apply (gates_raise_at_end_of_input w); reflexivity.
Defined.

Lemma ask_returns_typed_answer_witness :
  let w := start_world (∅ : gmap string (list (string * json))) [nl; "7" +:+ nl] in
  exists out,
    ask_human_question_local "Which one?" (Some menu) w
    = (log_conversation "Which one?" "7" ;;; ret "7") (with_io w [] out).
Proof.
  intros w.
  apply (ask_returns_typed_answer w "Which one?" (Some menu) [nl] ("7" +:+ nl) []);
    try reflexivity.
  right. right. exists 7%Z. split; [reflexivity|]. right. simpl. lia.
Defined.

Lemma ask_returns_selected_option_witness :
  let w := start_world (∅ : gmap string (list (string * json))) [" 2 " +:+ nl] in
  exists out,
    ask_human_question_local "Which one?" (Some menu) w
    = (log_conversation "Which one?" "B" ;;; ret "B") (with_io w [] out).
Proof.
  intros w.
  apply (ask_returns_selected_option w "Which one?" menu [] (" 2 " +:+ nl) [] 2);
    try reflexivity.
  simpl. lia.
Defined.

Lemma ask_other_reads_detail_witness :
  let w := start_world (∅ : gmap string (list (string * json)))
             ["3" +:+ nl; " my own " +:+ nl] in
  exists out,
    ask_human_question_local "Which one?" (Some menu) w
    = (log_conversation "Which one?" "my own" ;;; ret "my own") (with_io w [] out).
Proof.
  intros w.
  apply (ask_other_reads_detail w "Which one?" menu [] ("3" +:+ nl) [" my own " +:+ nl] 3);
    try reflexivity.
  simpl. lia.
Defined.

Lemma ask_raises_on_digit_that_is_no_number_witness :
  let w := start_world (∅ : gmap string (list (string * json)))
             [superscript_two +:+ nl] in
  exists out,
    ask_human_question_local "Which one?" (Some menu) w
    = (Raise ValueError, with_io w [] out).
Proof.
  intros w.
  apply (ask_raises_on_digit_that_is_no_number w "Which one?" (Some menu) []
           (superscript_two +:+ nl) []); reflexivity.
Defined.

Lemma review_first_line_decides_witness :
  let w := start_world (∅ : gmap string (list (string * json)))
             [nl; "1" +:+ nl; "never read" +:+ nl] in
  exists out,
    ask_human_for_review "Plan" w = (Ok "approve", with_io w ["never read" +:+ nl] out).
Proof.
  intros w.
  apply (review_first_line_decides w "Plan" [nl] ("1" +:+ nl) ["never read" +:+ nl]);
    reflexivity.
Defined.

Lemma continue_discovery_returns_all_phases_witness :
  exists d w',
    continue_discovery (scripted_model phase_script) "P"
      (Some {[ "event_storming" := "kept" ]})
      (start_world (∅ : gmap string (list (string * json))) [])
    = (Ok d, w')
    /\ (forall p, is_Some (d !! phase_key p))
    /\ d !! "event_storming" = Some "kept".
Proof.
  assert (exists d,
            fst (continue_discovery (scripted_model phase_script) "P"
                   (Some {[ "event_storming" := "kept" ]})
                   (start_world (∅ : gmap string (list (string * json))) []))
            = Ok d) as [d Hd].
  { vm_compute. eexists. reflexivity. }
  destruct (continue_discovery (scripted_model phase_script) "P"
              (Some {[ "event_storming" := "kept" ]})
              (start_world (∅ : gmap string (list (string * json))) []))
    as [r w'] eqn:E.
  cbn [fst] in Hd. subst r.
  destruct (continue_discovery_returns_all_phases _ _ _ _ _ _ E) as (Hall & Hkept & _).
  exists d, w'. split; [reflexivity|]. split; [exact Hall|].
  apply (Hkept EventStorming). reflexivity.
Defined.

Lemma all_done_stored : all_stored stored_text all_done.
Proof. intros []; split; vm_compute; reflexivity. Qed.

Lemma continue_discovery_completed_returns_witness :
  exists d w',
    continue_discovery (scripted_model []) "P" None (start_world all_done [])
    = (Ok d, w')
    /\ backend w' = all_done
    /\ model_calls w' = []
    /\ forall p, d !! phase_key p = Some (stored_text p).
Proof.
  exact (continue_discovery_completed_returns stored_text (scripted_model []) "P" None
           (start_world all_done []) all_done_stored).
Defined.

(** ** Specifications *)



